(** * runHttpQuery: the HTTP-to-GraphQL adapter of apollo-server

    A shallow embedding of [packages/server/src/runHttpQuery.ts] and the
    properties its specification states about it.

    Conventions of the embedding.
    - A JavaScript string is held as a Rocq [string] carrying its UTF-8
      encoding, so [Buffer.byteLength(s, 'utf8')] is [String.length s].
    - A JavaScript number is an integer in the range where the integers are
      numbers exactly (the safe integers).
    - [Map<string, string>] is the list of its entries in insertion order.
    - Code that can throw lives in a state-and-exception monad whose state
      survives a throw, as the heap of a JavaScript program does. *)

From Stdlib Require Import String Ascii List Bool ZArith NArith Lia.
From Stdlib Require Import DecimalString.
Import ListNotations.

Local Open Scope list_scope.
Local Open Scope string_scope.

(** ** Strings

    [String.prototype.toLowerCase] is the lower-casing of the Unicode
    standard on the code points of the string: each code point with a
    lower-case form is replaced by that form, U+0130 by two code points, and
    U+03A3 by the final sigma U+03C2 when a cased letter comes before it and
    none after it (characters that are ignored for case are skipped on both
    sides).  The tables are those of Unicode 14. *)

Module Str.

(** *** UTF-8 *)

Definition continuation (c : ascii) : bool :=
  let n := N_of_ascii c in (128 <=? n)%N && (n <? 192)%N.

(** The number of bytes the sequence that starts with [c] should have. *)
Definition unit_length (c : ascii) : nat :=
  let n := N_of_ascii c in
  if (n <? 192)%N then 1
  else if (n <? 224)%N then 2
  else if (n <? 240)%N then 3
  else if (n <? 248)%N then 4
  else 1.

(** The string cut into the byte sequences of its code points; a byte that
    starts no well-formed sequence stands alone. *)
Fixpoint chars (s : string) : list string :=
  match s with
  | EmptyString => []
  | String b0 r0 =>
      match unit_length b0, r0 with
      | 2, String b1 r1 =>
          if continuation b1
          then String b0 (String b1 "") :: chars r1
          else String b0 "" :: chars r0
      | 3, String b1 (String b2 r2) =>
          if continuation b1 && continuation b2
          then String b0 (String b1 (String b2 "")) :: chars r2
          else String b0 "" :: chars r0
      | 4, String b1 (String b2 (String b3 r3)) =>
          if continuation b1 && continuation b2 && continuation b3
          then String b0 (String b1 (String b2 (String b3 ""))) :: chars r3
          else String b0 "" :: chars r0
      | _, _ => String b0 "" :: chars r0
      end
  end.

(** The code point a byte sequence stands for. *)
Definition code_point (u : string) : N :=
  match u with
  | String b0 EmptyString => N_of_ascii b0
  | String b0 (String b1 EmptyString) =>
      (N_of_ascii b0 mod 32) * 64 + N_of_ascii b1 mod 64
  | String b0 (String b1 (String b2 EmptyString)) =>
      (N_of_ascii b0 mod 16) * 4096 + (N_of_ascii b1 mod 64) * 64
      + N_of_ascii b2 mod 64
  | String b0 (String b1 (String b2 (String b3 EmptyString))) =>
      (N_of_ascii b0 mod 8) * 262144 + (N_of_ascii b1 mod 64) * 4096
      + (N_of_ascii b2 mod 64) * 64 + N_of_ascii b3 mod 64
  | _ => 0
  end%N.

(** The byte sequence of a code point. *)
Definition utf8 (cp : N) : string :=
  if (cp <? 128)%N then String (ascii_of_N cp) ""
  else if (cp <? 2048)%N then
    String (ascii_of_N (192 + cp / 64)) (String (ascii_of_N (128 + cp mod 64)) "")
  else if (cp <? 65536)%N then
    String (ascii_of_N (224 + cp / 4096))
      (String (ascii_of_N (128 + (cp / 64) mod 64))
         (String (ascii_of_N (128 + cp mod 64)) ""))
  else
    String (ascii_of_N (240 + cp / 262144))
      (String (ascii_of_N (128 + (cp / 4096) mod 64))
         (String (ascii_of_N (128 + (cp / 64) mod 64))
            (String (ascii_of_N (128 + cp mod 64)) ""))).

(** The sequence is the one [utf8] writes for its code point. *)
Definition well_formed (u : string) : bool := String.eqb (utf8 (code_point u)) u.

(** *** The case tables *)

(** Runs of code points with a one-code-point lower-case form: from the
    first to the last code point of the run in steps of the third number,
    the lower-case forms start at the fourth number and advance alike. *)
Definition lower_runs : list (N * N * N * N) :=
  [
   (192, 214, 1, 224); (216, 222, 1, 248); (256, 302, 2, 257); (306, 310, 2, 307);
   (313, 327, 2, 314); (330, 374, 2, 331); (376, 376, 1, 255); (377, 381, 2, 378);
   (385, 385, 1, 595); (386, 388, 2, 387); (390, 390, 1, 596); (391, 391, 1, 392);
   (393, 394, 1, 598); (395, 395, 1, 396); (398, 398, 1, 477); (399, 399, 1, 601);
   (400, 400, 1, 603); (401, 401, 1, 402); (403, 403, 1, 608); (404, 404, 1, 611);
   (406, 406, 1, 617); (407, 407, 1, 616); (408, 408, 1, 409); (412, 412, 1, 623);
   (413, 413, 1, 626); (415, 415, 1, 629); (416, 420, 2, 417); (422, 422, 1, 640);
   (423, 423, 1, 424); (425, 425, 1, 643); (428, 428, 1, 429); (430, 430, 1, 648);
   (431, 431, 1, 432); (433, 434, 1, 650); (435, 437, 2, 436); (439, 439, 1, 658);
   (440, 440, 1, 441); (444, 444, 1, 445); (452, 452, 1, 454); (453, 453, 1, 454);
   (455, 455, 1, 457); (456, 456, 1, 457); (458, 458, 1, 460); (459, 475, 2, 460);
   (478, 494, 2, 479); (497, 497, 1, 499); (498, 500, 2, 499); (502, 502, 1, 405);
   (503, 503, 1, 447); (504, 542, 2, 505); (544, 544, 1, 414); (546, 562, 2, 547);
   (570, 570, 1, 11365); (571, 571, 1, 572); (573, 573, 1, 410); (574, 574, 1, 11366);
   (577, 577, 1, 578); (579, 579, 1, 384); (580, 580, 1, 649); (581, 581, 1, 652);
   (582, 590, 2, 583); (880, 882, 2, 881); (886, 886, 1, 887); (895, 895, 1, 1011);
   (902, 902, 1, 940); (904, 906, 1, 941); (908, 908, 1, 972); (910, 911, 1, 973);
   (913, 929, 1, 945); (931, 939, 1, 963); (975, 975, 1, 983); (984, 1006, 2, 985);
   (1012, 1012, 1, 952); (1015, 1015, 1, 1016); (1017, 1017, 1, 1010); (1018, 1018, 1, 1019);
   (1021, 1023, 1, 891); (1024, 1039, 1, 1104); (1040, 1071, 1, 1072); (1120, 1152, 2, 1121);
   (1162, 1214, 2, 1163); (1216, 1216, 1, 1231); (1217, 1229, 2, 1218); (1232, 1326, 2, 1233);
   (1329, 1366, 1, 1377); (4256, 4293, 1, 11520); (4295, 4295, 1, 11559); (4301, 4301, 1, 11565);
   (5024, 5103, 1, 43888); (5104, 5109, 1, 5112); (7312, 7354, 1, 4304); (7357, 7359, 1, 4349);
   (7680, 7828, 2, 7681); (7838, 7838, 1, 223); (7840, 7934, 2, 7841); (7944, 7951, 1, 7936);
   (7960, 7965, 1, 7952); (7976, 7983, 1, 7968); (7992, 7999, 1, 7984); (8008, 8013, 1, 8000);
   (8025, 8031, 2, 8017); (8040, 8047, 1, 8032); (8072, 8079, 1, 8064); (8088, 8095, 1, 8080);
   (8104, 8111, 1, 8096); (8120, 8121, 1, 8112); (8122, 8123, 1, 8048); (8124, 8124, 1, 8115);
   (8136, 8139, 1, 8050); (8140, 8140, 1, 8131); (8152, 8153, 1, 8144); (8154, 8155, 1, 8054);
   (8168, 8169, 1, 8160); (8170, 8171, 1, 8058); (8172, 8172, 1, 8165); (8184, 8185, 1, 8056);
   (8186, 8187, 1, 8060); (8188, 8188, 1, 8179); (8486, 8486, 1, 969); (8490, 8490, 1, 107);
   (8491, 8491, 1, 229); (8498, 8498, 1, 8526); (8544, 8559, 1, 8560); (8579, 8579, 1, 8580);
   (9398, 9423, 1, 9424); (11264, 11311, 1, 11312); (11360, 11360, 1, 11361); (11362, 11362, 1, 619);
   (11363, 11363, 1, 7549); (11364, 11364, 1, 637); (11367, 11371, 2, 11368); (11373, 11373, 1, 593);
   (11374, 11374, 1, 625); (11375, 11375, 1, 592); (11376, 11376, 1, 594); (11378, 11378, 1, 11379);
   (11381, 11381, 1, 11382); (11390, 11391, 1, 575); (11392, 11490, 2, 11393); (11499, 11501, 2, 11500);
   (11506, 11506, 1, 11507); (42560, 42604, 2, 42561); (42624, 42650, 2, 42625); (42786, 42798, 2, 42787);
   (42802, 42862, 2, 42803); (42873, 42875, 2, 42874); (42877, 42877, 1, 7545); (42878, 42886, 2, 42879);
   (42891, 42891, 1, 42892); (42893, 42893, 1, 613); (42896, 42898, 2, 42897); (42902, 42920, 2, 42903);
   (42922, 42922, 1, 614); (42923, 42923, 1, 604); (42924, 42924, 1, 609); (42925, 42925, 1, 620);
   (42926, 42926, 1, 618); (42928, 42928, 1, 670); (42929, 42929, 1, 647); (42930, 42930, 1, 669);
   (42931, 42931, 1, 43859); (42932, 42946, 2, 42933); (42948, 42948, 1, 42900); (42949, 42949, 1, 642);
   (42950, 42950, 1, 7566); (42951, 42953, 2, 42952); (42960, 42960, 1, 42961); (42966, 42968, 2, 42967);
   (42997, 42997, 1, 42998); (65313, 65338, 1, 65345); (66560, 66599, 1, 66600); (66736, 66771, 1, 66776);
   (66928, 66938, 1, 66967); (66940, 66954, 1, 66979); (66956, 66962, 1, 66995); (66964, 66965, 1, 67003);
   (68736, 68786, 1, 68800); (71840, 71871, 1, 71872); (93760, 93791, 1, 93792); (125184, 125217, 1, 125218)
  ]%N.


Definition expand_run (r : N * N * N * N) : list (N * list N) :=
  let '(first, last, step, lower) := r in
  map (fun k => (first + N.of_nat k * step, [lower + N.of_nat k * step])%N)
      (seq 0 (S (N.to_nat ((last - first) / step)))).

(** Every code point above the ASCII range that has a lower-case form, with
    that form. *)
Definition lower_table : list (N * list N) :=
  (304, [105; 775])%N :: flat_map expand_run lower_runs.

(** Cased letters that are not ignored for case. *)
Definition cased_ranges : list (N * N) :=
  [
   (65, 90); (97, 122); (170, 170); (181, 181); (186, 186); (192, 214);
   (216, 246); (248, 442); (444, 447); (452, 659); (661, 687); (880, 883);
   (886, 887); (891, 893); (895, 895); (902, 902); (904, 906); (908, 908);
   (910, 929); (931, 1013); (1015, 1153); (1162, 1327); (1329, 1366); (1376, 1416);
   (4256, 4293); (4295, 4295); (4301, 4301); (4304, 4346); (4349, 4351); (5024, 5109);
   (5112, 5117); (7296, 7304); (7312, 7354); (7357, 7359); (7424, 7467); (7531, 7543);
   (7545, 7578); (7680, 7957); (7960, 7965); (7968, 8005); (8008, 8013); (8016, 8023);
   (8025, 8025); (8027, 8027); (8029, 8029); (8031, 8061); (8064, 8116); (8118, 8124);
   (8126, 8126); (8130, 8132); (8134, 8140); (8144, 8147); (8150, 8155); (8160, 8172);
   (8178, 8180); (8182, 8188); (8450, 8450); (8455, 8455); (8458, 8467); (8469, 8469);
   (8473, 8477); (8484, 8484); (8486, 8486); (8488, 8488); (8490, 8493); (8495, 8500);
   (8505, 8505); (8508, 8511); (8517, 8521); (8526, 8526); (8544, 8575); (8579, 8580);
   (9398, 9449); (11264, 11387); (11390, 11492); (11499, 11502); (11506, 11507); (11520, 11557);
   (11559, 11559); (11565, 11565); (42560, 42605); (42624, 42651); (42786, 42863); (42865, 42887);
   (42891, 42894); (42896, 42954); (42960, 42961); (42963, 42963); (42965, 42969); (42997, 42998);
   (43002, 43002); (43824, 43866); (43872, 43880); (43888, 43967); (64256, 64262); (64275, 64279);
   (65313, 65338); (65345, 65370); (66560, 66639); (66736, 66771); (66776, 66811); (66928, 66938);
   (66940, 66954); (66956, 66962); (66964, 66965); (66967, 66977); (66979, 66993); (66995, 67001);
   (67003, 67004); (68736, 68786); (68800, 68850); (71840, 71903); (93760, 93823); (119808, 119892);
   (119894, 119964); (119966, 119967); (119970, 119970); (119973, 119974); (119977, 119980); (119982, 119993);
   (119995, 119995); (119997, 120003); (120005, 120069); (120071, 120074); (120077, 120084); (120086, 120092);
   (120094, 120121); (120123, 120126); (120128, 120132); (120134, 120134); (120138, 120144); (120146, 120485);
   (120488, 120512); (120514, 120538); (120540, 120570); (120572, 120596); (120598, 120628); (120630, 120654);
   (120656, 120686); (120688, 120712); (120714, 120744); (120746, 120770); (120772, 120779); (122624, 122633);
   (122635, 122654); (125184, 125251); (127280, 127305); (127312, 127337); (127344, 127369)
  ]%N.


(** Characters that are ignored for case (Case_Ignorable). *)
Definition case_ignorable_ranges : list (N * N) :=
  [
   (39, 39); (46, 46); (58, 58); (94, 94); (96, 96); (168, 168);
   (173, 173); (175, 175); (180, 180); (183, 184); (688, 879); (884, 885);
   (890, 890); (900, 901); (903, 903); (1155, 1161); (1369, 1369); (1375, 1375);
   (1425, 1469); (1471, 1471); (1473, 1474); (1476, 1477); (1479, 1479); (1524, 1524);
   (1536, 1541); (1552, 1562); (1564, 1564); (1600, 1600); (1611, 1631); (1648, 1648);
   (1750, 1757); (1759, 1768); (1770, 1773); (1807, 1807); (1809, 1809); (1840, 1866);
   (1958, 1968); (2027, 2037); (2042, 2042); (2045, 2045); (2070, 2093); (2137, 2139);
   (2184, 2184); (2192, 2193); (2200, 2207); (2249, 2306); (2362, 2362); (2364, 2364);
   (2369, 2376); (2381, 2381); (2385, 2391); (2402, 2403); (2417, 2417); (2433, 2433);
   (2492, 2492); (2497, 2500); (2509, 2509); (2530, 2531); (2558, 2558); (2561, 2562);
   (2620, 2620); (2625, 2626); (2631, 2632); (2635, 2637); (2641, 2641); (2672, 2673);
   (2677, 2677); (2689, 2690); (2748, 2748); (2753, 2757); (2759, 2760); (2765, 2765);
   (2786, 2787); (2810, 2815); (2817, 2817); (2876, 2876); (2879, 2879); (2881, 2884);
   (2893, 2893); (2901, 2902); (2914, 2915); (2946, 2946); (3008, 3008); (3021, 3021);
   (3072, 3072); (3076, 3076); (3132, 3132); (3134, 3136); (3142, 3144); (3146, 3149);
   (3157, 3158); (3170, 3171); (3201, 3201); (3260, 3260); (3263, 3263); (3270, 3270);
   (3276, 3277); (3298, 3299); (3328, 3329); (3387, 3388); (3393, 3396); (3405, 3405);
   (3426, 3427); (3457, 3457); (3530, 3530); (3538, 3540); (3542, 3542); (3633, 3633);
   (3636, 3642); (3654, 3662); (3761, 3761); (3764, 3772); (3782, 3782); (3784, 3789);
   (3864, 3865); (3893, 3893); (3895, 3895); (3897, 3897); (3953, 3966); (3968, 3972);
   (3974, 3975); (3981, 3991); (3993, 4028); (4038, 4038); (4141, 4144); (4146, 4151);
   (4153, 4154); (4157, 4158); (4184, 4185); (4190, 4192); (4209, 4212); (4226, 4226);
   (4229, 4230); (4237, 4237); (4253, 4253); (4348, 4348); (4957, 4959); (5906, 5908);
   (5938, 5939); (5970, 5971); (6002, 6003); (6068, 6069); (6071, 6077); (6086, 6086);
   (6089, 6099); (6103, 6103); (6109, 6109); (6155, 6159); (6211, 6211); (6277, 6278);
   (6313, 6313); (6432, 6434); (6439, 6440); (6450, 6450); (6457, 6459); (6679, 6680);
   (6683, 6683); (6742, 6742); (6744, 6750); (6752, 6752); (6754, 6754); (6757, 6764);
   (6771, 6780); (6783, 6783); (6823, 6823); (6832, 6862); (6912, 6915); (6964, 6964);
   (6966, 6970); (6972, 6972); (6978, 6978); (7019, 7027); (7040, 7041); (7074, 7077);
   (7080, 7081); (7083, 7085); (7142, 7142); (7144, 7145); (7149, 7149); (7151, 7153);
   (7212, 7219); (7222, 7223); (7288, 7293); (7376, 7378); (7380, 7392); (7394, 7400);
   (7405, 7405); (7412, 7412); (7416, 7417); (7468, 7530); (7544, 7544); (7579, 7679);
   (8125, 8125); (8127, 8129); (8141, 8143); (8157, 8159); (8173, 8175); (8189, 8190);
   (8203, 8207); (8216, 8217); (8228, 8228); (8231, 8231); (8234, 8238); (8288, 8292);
   (8294, 8303); (8305, 8305); (8319, 8319); (8336, 8348); (8400, 8432); (11388, 11389);
   (11503, 11505); (11631, 11631); (11647, 11647); (11744, 11775); (11823, 11823); (12293, 12293);
   (12330, 12333); (12337, 12341); (12347, 12347); (12441, 12446); (12540, 12542); (40981, 40981);
   (42232, 42237); (42508, 42508); (42607, 42610); (42612, 42621); (42623, 42623); (42652, 42655);
   (42736, 42737); (42752, 42785); (42864, 42864); (42888, 42890); (42994, 42996); (43000, 43001);
   (43010, 43010); (43014, 43014); (43019, 43019); (43045, 43046); (43052, 43052); (43204, 43205);
   (43232, 43249); (43263, 43263); (43302, 43309); (43335, 43345); (43392, 43394); (43443, 43443);
   (43446, 43449); (43452, 43453); (43471, 43471); (43493, 43494); (43561, 43566); (43569, 43570);
   (43573, 43574); (43587, 43587); (43596, 43596); (43632, 43632); (43644, 43644); (43696, 43696);
   (43698, 43700); (43703, 43704); (43710, 43711); (43713, 43713); (43741, 43741); (43756, 43757);
   (43763, 43764); (43766, 43766); (43867, 43871); (43881, 43883); (44005, 44005); (44008, 44008);
   (44013, 44013); (64286, 64286); (64434, 64450); (65024, 65039); (65043, 65043); (65056, 65071);
   (65106, 65106); (65109, 65109); (65279, 65279); (65287, 65287); (65294, 65294); (65306, 65306);
   (65342, 65342); (65344, 65344); (65392, 65392); (65438, 65439); (65507, 65507); (65529, 65531);
   (66045, 66045); (66272, 66272); (66422, 66426); (67456, 67461); (67463, 67504); (67506, 67514);
   (68097, 68099); (68101, 68102); (68108, 68111); (68152, 68154); (68159, 68159); (68325, 68326);
   (68900, 68903); (69291, 69292); (69446, 69456); (69506, 69509); (69633, 69633); (69688, 69702);
   (69744, 69744); (69747, 69748); (69759, 69761); (69811, 69814); (69817, 69818); (69821, 69821);
   (69826, 69826); (69837, 69837); (69888, 69890); (69927, 69931); (69933, 69940); (70003, 70003);
   (70016, 70017); (70070, 70078); (70089, 70092); (70095, 70095); (70191, 70193); (70196, 70196);
   (70198, 70199); (70206, 70206); (70367, 70367); (70371, 70378); (70400, 70401); (70459, 70460);
   (70464, 70464); (70502, 70508); (70512, 70516); (70712, 70719); (70722, 70724); (70726, 70726);
   (70750, 70750); (70835, 70840); (70842, 70842); (70847, 70848); (70850, 70851); (71090, 71093);
   (71100, 71101); (71103, 71104); (71132, 71133); (71219, 71226); (71229, 71229); (71231, 71232);
   (71339, 71339); (71341, 71341); (71344, 71349); (71351, 71351); (71453, 71455); (71458, 71461);
   (71463, 71467); (71727, 71735); (71737, 71738); (71995, 71996); (71998, 71998); (72003, 72003);
   (72148, 72151); (72154, 72155); (72160, 72160); (72193, 72202); (72243, 72248); (72251, 72254);
   (72263, 72263); (72273, 72278); (72281, 72283); (72330, 72342); (72344, 72345); (72752, 72758);
   (72760, 72765); (72767, 72767); (72850, 72871); (72874, 72880); (72882, 72883); (72885, 72886);
   (73009, 73014); (73018, 73018); (73020, 73021); (73023, 73029); (73031, 73031); (73104, 73105);
   (73109, 73109); (73111, 73111); (73459, 73460); (78896, 78904); (92912, 92916); (92976, 92982);
   (92992, 92995); (94031, 94031); (94095, 94111); (94176, 94177); (94179, 94180); (110576, 110579);
   (110581, 110587); (110589, 110590); (113821, 113822); (113824, 113827); (118528, 118573); (118576, 118598);
   (119143, 119145); (119155, 119170); (119173, 119179); (119210, 119213); (119362, 119364); (121344, 121398);
   (121403, 121452); (121461, 121461); (121476, 121476); (121499, 121503); (121505, 121519); (122880, 122886);
   (122888, 122904); (122907, 122913); (122915, 122916); (122918, 122922); (123184, 123197); (123566, 123566);
   (123628, 123631); (125136, 125142); (125252, 125259); (127995, 127999); (917505, 917505); (917536, 917631);
   (917760, 917999)
  ]%N.

Definition in_ranges (ranges : list (N * N)) (cp : N) : bool :=
  existsb (fun r => (fst r <=? cp)%N && (cp <=? snd r)%N) ranges.

Definition cased (u : string) : bool :=
  well_formed u && in_ranges cased_ranges (code_point u).

Definition case_ignorable (u : string) : bool :=
  well_formed u && in_ranges case_ignorable_ranges (code_point u).

(** *** Lower case *)

(** The lower-case form of a code point that has one. *)
Definition lower_of (cp : N) : option (list N) :=
  if (cp <? 128)%N then
    if (65 <=? cp)%N && (cp <=? 90)%N then Some [cp + 32]%N else None
  else
    match find (fun e => (fst e =? cp)%N) lower_table with
    | Some e => Some (snd e)
    | None => None
    end.

Fixpoint skip_ignorable (l : list string) : list string :=
  match l with
  | u :: r => if case_ignorable u then skip_ignorable r else l
  | [] => []
  end.

(** The Final_Sigma condition, on the code points before (nearest first) and
    after. *)
Definition final_sigma (before after : list string) : bool :=
  match skip_ignorable before with
  | u :: _ => cased u
  | [] => false
  end &&
  negb match skip_ignorable after with
       | u :: _ => cased u
       | [] => false
       end.

Fixpoint utf8s (l : list N) : string :=
  match l with
  | [] => ""
  | cp :: r => utf8 cp ++ utf8s r
  end.

Definition lower_unit (before : list string) (u : string) (after : list string)
  : string :=
  if well_formed u then
    match lower_of (code_point u) with
    | Some form =>
        if (code_point u =? 931)%N && final_sigma before after
        then utf8 962
        else utf8s form
    | None => u
    end
  else u.

Fixpoint lower_units (before : list string) (l : list string) : string :=
  match l with
  | [] => ""
  | u :: after => lower_unit before u after ++ lower_units (u :: before) after
  end.

(** [s.toLowerCase()] *)
Definition toLowerCase (s : string) : string := lower_units [] (chars s).

(** The character has a lower-case form. *)
Definition is_upper_unit (u : string) : bool :=
  well_formed u &&
  match lower_of (code_point u) with Some _ => true | None => false end.

(** The string has a character that has a lower-case form. *)
Definition has_upper (s : string) : bool := existsb is_upper_unit (chars s).

(** Modelled from the spec: "the name contains an upper-case character".
    The upper-case letters are the code points of Unicode's general category
    Lu; among the ASCII characters they are [A] to [Z]. *)
Definition upper_case_ranges : list (N * N) :=
  [
  (65, 90); (192, 214); (216, 222); (256, 256); (258, 258); (260, 260); (262, 262);
   (264, 264); (266, 266); (268, 268); (270, 270); (272, 272); (274, 274); (276, 276);
   (278, 278); (280, 280); (282, 282); (284, 284); (286, 286); (288, 288); (290, 290);
   (292, 292); (294, 294); (296, 296); (298, 298); (300, 300); (302, 302); (304, 304);
   (306, 306); (308, 308); (310, 310); (313, 313); (315, 315); (317, 317); (319, 319);
   (321, 321); (323, 323); (325, 325); (327, 327); (330, 330); (332, 332); (334, 334);
   (336, 336); (338, 338); (340, 340); (342, 342); (344, 344); (346, 346); (348, 348);
   (350, 350); (352, 352); (354, 354); (356, 356); (358, 358); (360, 360); (362, 362);
   (364, 364); (366, 366); (368, 368); (370, 370); (372, 372); (374, 374); (376, 377);
   (379, 379); (381, 381); (385, 386); (388, 388); (390, 391); (393, 395); (398, 401);
   (403, 404); (406, 408); (412, 413); (415, 416); (418, 418); (420, 420); (422, 423);
   (425, 425); (428, 428); (430, 431); (433, 435); (437, 437); (439, 440); (444, 444);
   (452, 452); (455, 455); (458, 458); (461, 461); (463, 463); (465, 465); (467, 467);
   (469, 469); (471, 471); (473, 473); (475, 475); (478, 478); (480, 480); (482, 482);
   (484, 484); (486, 486); (488, 488); (490, 490); (492, 492); (494, 494); (497, 497);
   (500, 500); (502, 504); (506, 506); (508, 508); (510, 510); (512, 512); (514, 514);
   (516, 516); (518, 518); (520, 520); (522, 522); (524, 524); (526, 526); (528, 528);
   (530, 530); (532, 532); (534, 534); (536, 536); (538, 538); (540, 540); (542, 542);
   (544, 544); (546, 546); (548, 548); (550, 550); (552, 552); (554, 554); (556, 556);
   (558, 558); (560, 560); (562, 562); (570, 571); (573, 574); (577, 577); (579, 582);
   (584, 584); (586, 586); (588, 588); (590, 590); (880, 880); (882, 882); (886, 886);
   (895, 895); (902, 902); (904, 906); (908, 908); (910, 911); (913, 929); (931, 939);
   (975, 975); (978, 980); (984, 984); (986, 986); (988, 988); (990, 990); (992, 992);
   (994, 994); (996, 996); (998, 998); (1000, 1000); (1002, 1002); (1004, 1004);
   (1006, 1006); (1012, 1012); (1015, 1015); (1017, 1018); (1021, 1071); (1120, 1120);
   (1122, 1122); (1124, 1124); (1126, 1126); (1128, 1128); (1130, 1130); (1132, 1132);
   (1134, 1134); (1136, 1136); (1138, 1138); (1140, 1140); (1142, 1142); (1144, 1144);
   (1146, 1146); (1148, 1148); (1150, 1150); (1152, 1152); (1162, 1162); (1164, 1164);
   (1166, 1166); (1168, 1168); (1170, 1170); (1172, 1172); (1174, 1174); (1176, 1176);
   (1178, 1178); (1180, 1180); (1182, 1182); (1184, 1184); (1186, 1186); (1188, 1188);
   (1190, 1190); (1192, 1192); (1194, 1194); (1196, 1196); (1198, 1198); (1200, 1200);
   (1202, 1202); (1204, 1204); (1206, 1206); (1208, 1208); (1210, 1210); (1212, 1212);
   (1214, 1214); (1216, 1217); (1219, 1219); (1221, 1221); (1223, 1223); (1225, 1225);
   (1227, 1227); (1229, 1229); (1232, 1232); (1234, 1234); (1236, 1236); (1238, 1238);
   (1240, 1240); (1242, 1242); (1244, 1244); (1246, 1246); (1248, 1248); (1250, 1250);
   (1252, 1252); (1254, 1254); (1256, 1256); (1258, 1258); (1260, 1260); (1262, 1262);
   (1264, 1264); (1266, 1266); (1268, 1268); (1270, 1270); (1272, 1272); (1274, 1274);
   (1276, 1276); (1278, 1278); (1280, 1280); (1282, 1282); (1284, 1284); (1286, 1286);
   (1288, 1288); (1290, 1290); (1292, 1292); (1294, 1294); (1296, 1296); (1298, 1298);
   (1300, 1300); (1302, 1302); (1304, 1304); (1306, 1306); (1308, 1308); (1310, 1310);
   (1312, 1312); (1314, 1314); (1316, 1316); (1318, 1318); (1320, 1320); (1322, 1322);
   (1324, 1324); (1326, 1326); (1329, 1366); (4256, 4293); (4295, 4295); (4301, 4301);
   (5024, 5109); (7312, 7354); (7357, 7359); (7680, 7680); (7682, 7682); (7684, 7684);
   (7686, 7686); (7688, 7688); (7690, 7690); (7692, 7692); (7694, 7694); (7696, 7696);
   (7698, 7698); (7700, 7700); (7702, 7702); (7704, 7704); (7706, 7706); (7708, 7708);
   (7710, 7710); (7712, 7712); (7714, 7714); (7716, 7716); (7718, 7718); (7720, 7720);
   (7722, 7722); (7724, 7724); (7726, 7726); (7728, 7728); (7730, 7730); (7732, 7732);
   (7734, 7734); (7736, 7736); (7738, 7738); (7740, 7740); (7742, 7742); (7744, 7744);
   (7746, 7746); (7748, 7748); (7750, 7750); (7752, 7752); (7754, 7754); (7756, 7756);
   (7758, 7758); (7760, 7760); (7762, 7762); (7764, 7764); (7766, 7766); (7768, 7768);
   (7770, 7770); (7772, 7772); (7774, 7774); (7776, 7776); (7778, 7778); (7780, 7780);
   (7782, 7782); (7784, 7784); (7786, 7786); (7788, 7788); (7790, 7790); (7792, 7792);
   (7794, 7794); (7796, 7796); (7798, 7798); (7800, 7800); (7802, 7802); (7804, 7804);
   (7806, 7806); (7808, 7808); (7810, 7810); (7812, 7812); (7814, 7814); (7816, 7816);
   (7818, 7818); (7820, 7820); (7822, 7822); (7824, 7824); (7826, 7826); (7828, 7828);
   (7838, 7838); (7840, 7840); (7842, 7842); (7844, 7844); (7846, 7846); (7848, 7848);
   (7850, 7850); (7852, 7852); (7854, 7854); (7856, 7856); (7858, 7858); (7860, 7860);
   (7862, 7862); (7864, 7864); (7866, 7866); (7868, 7868); (7870, 7870); (7872, 7872);
   (7874, 7874); (7876, 7876); (7878, 7878); (7880, 7880); (7882, 7882); (7884, 7884);
   (7886, 7886); (7888, 7888); (7890, 7890); (7892, 7892); (7894, 7894); (7896, 7896);
   (7898, 7898); (7900, 7900); (7902, 7902); (7904, 7904); (7906, 7906); (7908, 7908);
   (7910, 7910); (7912, 7912); (7914, 7914); (7916, 7916); (7918, 7918); (7920, 7920);
   (7922, 7922); (7924, 7924); (7926, 7926); (7928, 7928); (7930, 7930); (7932, 7932);
   (7934, 7934); (7944, 7951); (7960, 7965); (7976, 7983); (7992, 7999); (8008, 8013);
   (8025, 8025); (8027, 8027); (8029, 8029); (8031, 8031); (8040, 8047); (8120, 8123);
   (8136, 8139); (8152, 8155); (8168, 8172); (8184, 8187); (8450, 8450); (8455, 8455);
   (8459, 8461); (8464, 8466); (8469, 8469); (8473, 8477); (8484, 8484); (8486, 8486);
   (8488, 8488); (8490, 8493); (8496, 8499); (8510, 8511); (8517, 8517); (8579, 8579);
   (11264, 11311); (11360, 11360); (11362, 11364); (11367, 11367); (11369, 11369);
   (11371, 11371); (11373, 11376); (11378, 11378); (11381, 11381); (11390, 11392);
   (11394, 11394); (11396, 11396); (11398, 11398); (11400, 11400); (11402, 11402);
   (11404, 11404); (11406, 11406); (11408, 11408); (11410, 11410); (11412, 11412);
   (11414, 11414); (11416, 11416); (11418, 11418); (11420, 11420); (11422, 11422);
   (11424, 11424); (11426, 11426); (11428, 11428); (11430, 11430); (11432, 11432);
   (11434, 11434); (11436, 11436); (11438, 11438); (11440, 11440); (11442, 11442);
   (11444, 11444); (11446, 11446); (11448, 11448); (11450, 11450); (11452, 11452);
   (11454, 11454); (11456, 11456); (11458, 11458); (11460, 11460); (11462, 11462);
   (11464, 11464); (11466, 11466); (11468, 11468); (11470, 11470); (11472, 11472);
   (11474, 11474); (11476, 11476); (11478, 11478); (11480, 11480); (11482, 11482);
   (11484, 11484); (11486, 11486); (11488, 11488); (11490, 11490); (11499, 11499);
   (11501, 11501); (11506, 11506); (42560, 42560); (42562, 42562); (42564, 42564);
   (42566, 42566); (42568, 42568); (42570, 42570); (42572, 42572); (42574, 42574);
   (42576, 42576); (42578, 42578); (42580, 42580); (42582, 42582); (42584, 42584);
   (42586, 42586); (42588, 42588); (42590, 42590); (42592, 42592); (42594, 42594);
   (42596, 42596); (42598, 42598); (42600, 42600); (42602, 42602); (42604, 42604);
   (42624, 42624); (42626, 42626); (42628, 42628); (42630, 42630); (42632, 42632);
   (42634, 42634); (42636, 42636); (42638, 42638); (42640, 42640); (42642, 42642);
   (42644, 42644); (42646, 42646); (42648, 42648); (42650, 42650); (42786, 42786);
   (42788, 42788); (42790, 42790); (42792, 42792); (42794, 42794); (42796, 42796);
   (42798, 42798); (42802, 42802); (42804, 42804); (42806, 42806); (42808, 42808);
   (42810, 42810); (42812, 42812); (42814, 42814); (42816, 42816); (42818, 42818);
   (42820, 42820); (42822, 42822); (42824, 42824); (42826, 42826); (42828, 42828);
   (42830, 42830); (42832, 42832); (42834, 42834); (42836, 42836); (42838, 42838);
   (42840, 42840); (42842, 42842); (42844, 42844); (42846, 42846); (42848, 42848);
   (42850, 42850); (42852, 42852); (42854, 42854); (42856, 42856); (42858, 42858);
   (42860, 42860); (42862, 42862); (42873, 42873); (42875, 42875); (42877, 42878);
   (42880, 42880); (42882, 42882); (42884, 42884); (42886, 42886); (42891, 42891);
   (42893, 42893); (42896, 42896); (42898, 42898); (42902, 42902); (42904, 42904);
   (42906, 42906); (42908, 42908); (42910, 42910); (42912, 42912); (42914, 42914);
   (42916, 42916); (42918, 42918); (42920, 42920); (42922, 42926); (42928, 42932);
   (42934, 42934); (42936, 42936); (42938, 42938); (42940, 42940); (42942, 42942);
   (42944, 42944); (42946, 42946); (42948, 42951); (42953, 42953); (42960, 42960);
   (42966, 42966); (42968, 42968); (42997, 42997); (65313, 65338); (66560, 66599);
   (66736, 66771); (66928, 66938); (66940, 66954); (66956, 66962); (66964, 66965);
   (68736, 68786); (71840, 71871); (93760, 93791); (119808, 119833); (119860, 119885);
   (119912, 119937); (119964, 119964); (119966, 119967); (119970, 119970);
   (119973, 119974); (119977, 119980); (119982, 119989); (120016, 120041);
   (120068, 120069); (120071, 120074); (120077, 120084); (120086, 120092);
   (120120, 120121); (120123, 120126); (120128, 120132); (120134, 120134);
   (120138, 120144); (120172, 120197); (120224, 120249); (120276, 120301);
   (120328, 120353); (120380, 120405); (120432, 120457); (120488, 120512);
   (120546, 120570); (120604, 120628); (120662, 120686); (120720, 120744);
   (120778, 120778); (125184, 125217)
  ]%N.

Definition upper_case_letter (u : string) : bool :=
  well_formed u && in_ranges upper_case_ranges (code_point u).

Definition contains_upper_case (s : string) : bool :=
  existsb upper_case_letter (chars s).

Definition ascii_capital (c : ascii) : bool :=
  let n := N_of_ascii c in (65 <=? n)%N && (n <=? 90)%N.

Fixpoint contains_ascii_capital (s : string) : bool :=
  match s with
  | EmptyString => false
  | String c r => ascii_capital c || contains_ascii_capital r
  end.

Fixpoint is_ascii (s : string) : bool :=
  match s with
  | EmptyString => true
  | String c r => (N_of_ascii c <? 128)%N && is_ascii r
  end.

(** [Number.prototype.toString] on a non-negative integer. *)
Definition of_N (n : N) : string := NilEmpty.string_of_uint (N.to_uint n).

(** [needle] occurs in [s]. *)
Definition contains (s needle : string) : Prop :=
  exists pre post, s = pre ++ needle ++ post.

(** Two strings that differ at a byte both have. *)
Fixpoint mismatch (a b : string) : bool :=
  match a, b with
  | String x a', String y b' => if Ascii.eqb x y then mismatch a' b' else true
  | _, _ => false
  end.

Lemma mismatch_append (a b x y : string) : mismatch a b = true -> a ++ x <> b ++ y.
Proof.
  revert b. induction a as [|c a IH]; intros [|d b]; simpl; try discriminate.
  destruct (Ascii.eqb c d) eqn:E.
  - intros M H. injection H as _ H. now apply (IH b).
  - intros _ H. injection H as H _. apply Ascii.eqb_neq in E. contradiction.
Qed.

Lemma append_cancel (u x y : string) : u ++ x = u ++ y -> x = y.
Proof.
  induction u as [|c u IH]; simpl; [trivial|].
  intro H. injection H as H. auto.
Qed.

Fixpoint concat (l : list string) : string :=
  match l with
  | [] => ""
  | u :: r => u ++ concat r
  end.

Lemma concat_chars_bounded (n : nat) :
  forall s, String.length s <= n -> concat (chars s) = s.
Proof.
  induction n as [|n IH]; intros s L.
  - destruct s; [reflexivity | simpl in L; lia].
  - destruct s as [|b0 r0]; [reflexivity|].
    simpl in L. cbn [chars].
    assert (D : concat (String b0 "" :: chars r0) = String b0 r0).
    { simpl. f_equal. apply IH. lia. }
    destruct (unit_length b0) as [|[|[|[|[|k]]]]]; try exact D.
    + destruct r0 as [|b1 r1]; [exact D|].
      destruct (continuation b1); [|exact D].
      simpl. do 2 f_equal. apply IH. simpl in L. lia.
    + destruct r0 as [|b1 [|b2 r2]]; try exact D.
      destruct (continuation b1 && continuation b2); [|exact D].
      simpl. do 3 f_equal. apply IH. simpl in L. lia.
    + destruct r0 as [|b1 [|b2 [|b3 r3]]]; try exact D.
      destruct (continuation b1 && continuation b2 && continuation b3); [|exact D].
      simpl. do 4 f_equal. apply IH. simpl in L. lia.
Qed.

Lemma concat_chars (s : string) : concat (chars s) = s.
Proof. apply (concat_chars_bounded (String.length s)). lia. Qed.

(** Every lower-case form of the table differs from the bytes of its code
    point, and so does the final sigma from those of U+03A3. *)
Lemma lower_table_differs :
  forallb (fun e => mismatch (utf8 (fst e)) (utf8s (snd e))) lower_table = true.
Proof. vm_compute. reflexivity. Qed.

Lemma sigma_differs : mismatch (utf8 931) (utf8 962) = true.
Proof. reflexivity. Qed.

Lemma lower_of_differs (cp : N) (form : list N) :
  lower_of cp = Some form -> mismatch (utf8 cp) (utf8s form) = true.
Proof.
  unfold lower_of. destruct (cp <? 128)%N eqn:A.
  - destruct ((65 <=? cp)%N && (cp <=? 90)%N) eqn:U; [|discriminate].
    intro H. injection H as <-.
    apply andb_prop in U. destruct U as [U1 U2].
    apply N.leb_le in U1. apply N.leb_le in U2.
    unfold utf8s, utf8. rewrite A.
    assert (A' : (cp + 32 <? 128)%N = true) by (apply N.ltb_lt; lia).
    rewrite A'. simpl.
    destruct (Ascii.eqb (ascii_of_N cp) (ascii_of_N (cp + 32))) eqn:E; [|reflexivity].
    apply Ascii.eqb_eq in E.
    assert (K : N_of_ascii (ascii_of_N cp) = N_of_ascii (ascii_of_N (cp + 32)))
      by (now rewrite E).
    rewrite !N_ascii_embedding in K by lia. lia.
  - destruct (find _ lower_table) as [e|] eqn:F; [|discriminate].
    intro H. injection H as <-.
    apply find_some in F. destruct F as [I F]. apply N.eqb_eq in F. subst cp.
    pose proof lower_table_differs as T. rewrite forallb_forall in T.
    apply (T e I).
Qed.

Lemma lower_unit_upper (prev next : list string) (u : string) :
  is_upper_unit u = true -> mismatch u (lower_unit prev u next) = true.
Proof.
  unfold is_upper_unit, lower_unit. destruct (well_formed u) eqn:W; [|discriminate].
  simpl. destruct (lower_of (code_point u)) as [form|] eqn:L; [|discriminate].
  intros _. unfold well_formed in W. apply String.eqb_eq in W.
  destruct ((code_point u =? 931)%N && final_sigma prev next) eqn:S.
  - apply andb_prop in S. destruct S as [S _]. apply N.eqb_eq in S.
    rewrite <- W at 1. rewrite S. apply sigma_differs.
  - rewrite <- W at 1. now apply lower_of_differs.
Qed.

Lemma lower_unit_other (prev next : list string) (u : string) :
  is_upper_unit u = false -> lower_unit prev u next = u.
Proof.
  unfold is_upper_unit, lower_unit. destruct (well_formed u); [|reflexivity].
  simpl. destruct (lower_of (code_point u)); [discriminate | reflexivity].
Qed.

Lemma lower_units_fixed (l prev : list string) :
  lower_units prev l = concat l <-> existsb is_upper_unit l = false.
Proof.
  revert prev. induction l as [|u next IH]; intro prev; simpl.
  - tauto.
  - destruct (is_upper_unit u) eqn:U; simpl.
    + split; [|discriminate]. intro H. exfalso.
      apply (mismatch_append u (lower_unit prev u next)
               (concat next) (lower_units (u :: prev) next)).
      * now apply lower_unit_upper.
      * now symmetry.
    + rewrite lower_unit_other by assumption. rewrite <- IH. split.
      * apply append_cancel.
      * intros ->. reflexivity.
Qed.

(** [set]'s test [key.toLowerCase() !== key] fails exactly for the names
    without an upper-case character. *)
Lemma toLowerCase_fixed (s : string) : toLowerCase s = s <-> has_upper s = false.
Proof.
  unfold toLowerCase, has_upper. rewrite <- lower_units_fixed.
  rewrite concat_chars. reflexivity.
Qed.

Lemma eqb_lower_false (s : string) :
  has_upper s = true -> String.eqb (toLowerCase s) s = false.
Proof.
  intro H. apply String.eqb_neq. intro K. apply toLowerCase_fixed in K. congruence.
Qed.

Lemma eqb_lower_true (s : string) :
  has_upper s = false -> String.eqb (toLowerCase s) s = true.
Proof. intro H. apply String.eqb_eq. now apply toLowerCase_fixed. Qed.

(** On a name of ASCII characters, to have a character with a lower-case
    form, to contain an upper-case letter and to contain one of [A] to [Z]
    are the same. *)
Lemma chars_ascii (c : ascii) (r : string) :
  (N_of_ascii c <? 128)%N = true ->
  chars (String c r) = String c "" :: chars r /\
  is_upper_unit (String c "") = ascii_capital c /\
  upper_case_letter (String c "") = ascii_capital c.
Proof.
  destruct c as [[] [] [] [] [] [] [] []]; intro H;
    try discriminate H; (split; [reflexivity | split; vm_compute; reflexivity]).
Qed.

Lemma has_upper_ascii (s : string) :
  is_ascii s = true ->
  has_upper s = contains_ascii_capital s /\
  contains_upper_case s = contains_ascii_capital s.
Proof.
  unfold has_upper, contains_upper_case.
  induction s as [|c r IH]; [split; reflexivity|].
  cbn [is_ascii contains_ascii_capital]. intro H.
  apply andb_true_iff in H. destruct H as [H1 H2].
  destruct (chars_ascii c r H1) as [E1 [E2 E3]].
  destruct (IH H2) as [I1 I2].
  rewrite E1. cbn [existsb]. rewrite E2, E3, I1, I2. split; reflexivity.
Qed.

End Str.

(** ** JavaScript values

    The values a parsed request body, a search parameter or a pipeline result
    can hold: JSON data and Node's [Buffer]. *)

#[local] Set Warnings "-register-all".

(** A number: an integer of magnitude at most [2^53 - 1].  In that range
    every integer is a number, and [JSON.stringify] prints all its digits. *)
Definition safe_integer (z : Z) : bool := (Z.abs z <=? 9007199254740991)%Z.

Record Number : Type := mkNumber {
  num_value : Z;
  num_safe : safe_integer num_value = true
}.

Definition number_of_Z (z : Z) : option Number :=
  match safe_integer z as b return safe_integer z = b -> option Number with
  | true => fun H => Some (mkNumber z H)
  | false => fun _ => None
  end eq_refl.

Inductive JSValue : Type :=
| JUndefined
| JNull
| JBool (b : bool)
| JNum (n : Number)
| JStr (s : string)
| JArr (items : list JSValue)
| JObj (fields : list (string * JSValue))
| JBuffer (bytes : list N).

Module JS.

(** ToBoolean *)
Definition truthy (v : JSValue) : bool :=
  match v with
  | JUndefined | JNull => false
  | JBool b => b
  | JNum n => negb (Z.eqb (num_value n) 0)
  | JStr s => negb (String.eqb s "")
  | JArr _ | JObj _ | JBuffer _ => true
  end.

(** [typeof v] *)
Definition typeof (v : JSValue) : string :=
  match v with
  | JUndefined => "undefined"
  | JNull => "object"
  | JBool _ => "boolean"
  | JNum _ => "number"
  | JStr _ => "string"
  | JArr _ | JObj _ | JBuffer _ => "object"
  end.

(** [a && b], which yields [a] itself when [a] is falsy. *)
Definition and (a b : JSValue) : JSValue := if truthy a then b else a.

(** [Buffer.isBuffer(v)] and [Array.isArray(v)] *)
Definition isBuffer (v : JSValue) : bool :=
  match v with JBuffer _ => true | _ => false end.

Definition isArray (v : JSValue) : bool :=
  match v with JArr _ => true | _ => false end.

Fixpoint lookup (fields : list (string * JSValue)) (k : string) : JSValue :=
  match fields with
  | [] => JUndefined
  | (k', v) :: r => if String.eqb k' k then v else lookup r k
  end.

(** [o[k]] for the property names the adapter reads ([query],
    [operationName], [variables], [extensions], [kind]): none of them is
    defined on a prototype, so only the own properties of a plain object
    answer. *)
Definition prop (o : JSValue) (k : string) : JSValue :=
  match o with
  | JObj fields => lookup fields k
  | _ => JUndefined
  end.

(** [Object.keys(o)] *)
Definition keys (o : JSValue) : list string :=
  match o with
  | JObj fields => map fst fields
  | JArr items => map (fun i => Str.of_N (N.of_nat i)) (seq 0 (length items))
  | JBuffer bytes => map (fun i => Str.of_N (N.of_nat i)) (seq 0 (length bytes))
  | _ => []
  end.

(** [a === b] where [b] is a string literal. *)
Definition strict_eq_str (a : JSValue) (lit : string) : bool :=
  match a with
  | JStr s => String.eqb s lit
  | _ => false
  end.

End JS.

(** ** JSON.stringify

    [JSON.stringify] on the values above: a property whose value is
    [undefined] is left out of an object, an [undefined] array element is
    written [null], a [Buffer] is written through its [toJSON]. *)

Module JSON.

Definition dquote : string := String "034"%char EmptyString.
Definition backslash : string := String "092"%char EmptyString.

Definition hex_digit (n : N) : ascii :=
  if (n <? 10)%N then ascii_of_N (48 + n) else ascii_of_N (87 + n).

Definition escape_char (c : ascii) : string :=
  let n := N_of_ascii c in
  if (n =? 34)%N then backslash ++ dquote
  else if (n =? 92)%N then backslash ++ backslash
  else if (n =? 8)%N then backslash ++ "b"
  else if (n =? 9)%N then backslash ++ "t"
  else if (n =? 10)%N then backslash ++ "n"
  else if (n =? 12)%N then backslash ++ "f"
  else if (n =? 13)%N then backslash ++ "r"
  else if (n <? 32)%N then
    backslash ++ "u00" ++ String (hex_digit (n / 16)) (String (hex_digit (n mod 16)) "")
  else String c "".

Fixpoint escape (s : string) : string :=
  match s with
  | EmptyString => ""
  | String c r => escape_char c ++ escape r
  end.

(** QuoteJSONString *)
Definition quote (s : string) : string := dquote ++ escape s ++ dquote.

Definition of_Z (n : Z) : string :=
  match n with
  | Z0 => "0"
  | Zpos p => Str.of_N (Npos p)
  | Zneg p => "-" ++ Str.of_N (Npos p)
  end.

Fixpoint join (sep : string) (l : list string) : string :=
  match l with
  | [] => ""
  | [x] => x
  | x :: r => x ++ sep ++ join sep r
  end.

Definition or_null (o : option string) : string :=
  match o with Some s => s | None => "null" end.

Definition member (k : string) (o : option string) : list string :=
  match o with Some s => [quote k ++ ":" ++ s] | None => [] end.

Fixpoint stringify (v : JSValue) : option string :=
  match v with
  | JUndefined => None
  | JNull => Some "null"
  | JBool true => Some "true"
  | JBool false => Some "false"
  | JNum n => Some (of_Z (num_value n))
  | JStr s => Some (quote s)
  | JArr items =>
      Some ("[" ++ join "," (map (fun x => or_null (stringify x)) items) ++ "]")
  | JObj fields =>
      Some ("{" ++
            join "," (flat_map (fun kv => member (fst kv) (stringify (snd kv))) fields)
            ++ "}")
  | JBuffer bytes =>
      Some ("{" ++ quote "type" ++ ":" ++ quote "Buffer" ++ "," ++ quote "data" ++ ":[" ++
            join "," (map Str.of_N bytes) ++ "]}")
  end.

End JSON.

(** [JSON.stringify(value) + '\n'] *)
Definition newline : string := String "010"%char EmptyString.

Definition prettyJSONStringify (value : JSValue) : string :=
  match JSON.stringify value with
  | Some s => s
  | None => "undefined"
  end ++ newline.

(** Modelled from the spec: the text of the JSON envelope.  Of [errors],
    [data] and [extensions], given by their JSON texts, those that are
    present appear in this order, each as its name in double quotes, a colon
    and its text, with a comma between two of them and braces around all. *)
Definition envelope_key (k : string) : string :=
  String "034"%char (k ++ String "034"%char ":").

Definition envelope_text (errors data extensions : option string) : string :=
  "{" ++
  match errors, data, extensions with
  | None, None, None => ""
  | Some e, None, None => envelope_key "errors" ++ e
  | None, Some d, None => envelope_key "data" ++ d
  | None, None, Some x => envelope_key "extensions" ++ x
  | Some e, Some d, None =>
      envelope_key "errors" ++ e ++ "," ++ envelope_key "data" ++ d
  | Some e, None, Some x =>
      envelope_key "errors" ++ e ++ "," ++ envelope_key "extensions" ++ x
  | None, Some d, Some x =>
      envelope_key "data" ++ d ++ "," ++ envelope_key "extensions" ++ x
  | Some e, Some d, Some x =>
      envelope_key "errors" ++ e ++ "," ++ envelope_key "data" ++ d ++ ","
      ++ envelope_key "extensions" ++ x
  end ++ "}".

Lemma append_assoc (a b c : string) : (a ++ b) ++ c = a ++ (b ++ c).
Proof. induction a as [|x a IH]; simpl; [reflexivity | now rewrite IH]. Qed.

Lemma append_nil_r (a : string) : a ++ "" = a.
Proof. induction a as [|x a IH]; simpl; [reflexivity | now rewrite IH]. Qed.

(** The texts [prettyJSONStringify] gives for the objects the adapter hands
    to it. *)
Lemma prettyJSONStringify_envelope (errors data extensions : JSValue) :
  prettyJSONStringify
    (JObj [("errors", errors); ("data", data); ("extensions", extensions)]) =
  envelope_text (JSON.stringify errors) (JSON.stringify data)
                (JSON.stringify extensions) ++ newline.
Proof.
  unfold prettyJSONStringify, envelope_text, envelope_key.
  cbn [JSON.stringify flat_map fst snd].
  destruct (JSON.stringify errors), (JSON.stringify data),
    (JSON.stringify extensions); cbn; rewrite ?append_assoc, ?append_nil_r;
    cbn; rewrite ?append_assoc; reflexivity.
Qed.

Lemma prettyJSONStringify_errors_extensions (errors extensions : JSValue) :
  prettyJSONStringify (JObj [("errors", errors); ("extensions", extensions)]) =
  envelope_text (JSON.stringify errors) None (JSON.stringify extensions) ++ newline.
Proof.
  unfold prettyJSONStringify, envelope_text, envelope_key.
  cbn [JSON.stringify flat_map fst snd].
  destruct (JSON.stringify errors), (JSON.stringify extensions);
    cbn; rewrite ?append_assoc, ?append_nil_r; cbn; rewrite ?append_assoc;
    reflexivity.
Qed.

Lemma prettyJSONStringify_errors (errors : JSValue) :
  prettyJSONStringify (JObj [("errors", errors)]) =
  envelope_text (JSON.stringify errors) None None ++ newline.
Proof.
  unfold prettyJSONStringify, envelope_text, envelope_key.
  cbn [JSON.stringify flat_map fst snd].
  destruct (JSON.stringify errors);
    cbn; rewrite ?append_assoc, ?append_nil_r; cbn; rewrite ?append_assoc;
    reflexivity.
Qed.

(** ** Thrown values and outcomes *)

(** An [Error] object other than an [HttpQueryError]: its [name], its
    [message] and its [extensions] property ([JUndefined] when it has none). *)
Record JSError : Type := mkJSError {
  err_name : string;
  err_message : string;
  err_extensions : JSValue
}.

(** [Error(message)] *)
Definition Error_new (message : string) : JSError :=
  mkJSError "Error" message JUndefined.

Definition TypeError_new (message : string) : JSError :=
  mkJSError "TypeError" message JUndefined.

(** What running a piece of code gives: a value, or a thrown [E]. *)
Inductive Outcome (E A : Type) : Type :=
| Ret (a : A)
| Throw (e : E).

Arguments Ret {E A} a.
Arguments Throw {E A} e.

(** ** Map<string, string> *)

Definition JSMap : Type := list (string * string).

Module MapOps.

(** [Map.prototype.set]: an existing key keeps its place and takes the new
    value, a new key goes to the end. *)
Fixpoint set (m : JSMap) (key value : string) : JSMap :=
  match m with
  | [] => [(key, value)]
  | (k, v) :: r =>
      if String.eqb k key then (k, value) :: r else (k, v) :: set r key value
  end.

Fixpoint get (m : JSMap) (key : string) : option string :=
  match m with
  | [] => None
  | (k, v) :: r => if String.eqb k key then Some v else get r key
  end.

Definition has (m : JSMap) (key : string) : bool :=
  match get m key with Some _ => true | None => false end.

(** [Map.prototype.delete], giving the map left and whether the key was there. *)
Fixpoint delete (m : JSMap) (key : string) : JSMap :=
  match m with
  | [] => []
  | (k, v) :: r => if String.eqb k key then r else (k, v) :: delete r key
  end.

(** [m.entries()], [m.keys()] in iteration order. *)
Definition entries (m : JSMap) : list (string * string) := m.
Definition keys (m : JSMap) : list string := map fst m.

(** [new Map(iterable)] *)
Definition of_entries (it : list (string * string)) : JSMap :=
  fold_left (fun m kv => set m (fst kv) (snd kv)) it [].

(** Every key is its own lower-case form. *)
Definition all_lower (m : JSMap) : bool :=
  forallb (fun kv => String.eqb (Str.toLowerCase (fst kv)) (fst kv)) m.

Lemma get_set_same (m : JSMap) (k v : string) : get (set m k v) k = Some v.
Proof.
  induction m as [|[k' v'] r IH]; simpl.
  - now rewrite String.eqb_refl.
  - destruct (String.eqb k' k) eqn:E; simpl; rewrite E; auto.
Qed.

Lemma get_set_other (m : JSMap) (k k' v : string) :
  k <> k' -> get (set m k v) k' = get m k'.
Proof.
  intro N. induction m as [|[a b] r IH]; simpl.
  - apply String.eqb_neq in N. now rewrite N.
  - destruct (String.eqb a k) eqn:E; simpl.
    + apply String.eqb_eq in E. subst a.
      apply String.eqb_neq in N. now rewrite N.
    + now rewrite IH.
Qed.

Lemma in_keys_get (m : JSMap) (k : string) : In k (keys m) <-> get m k <> None.
Proof.
  induction m as [|[a b] r IH]; simpl.
  - tauto.
  - destruct (String.eqb a k) eqn:E.
    + apply String.eqb_eq in E. split; [discriminate | auto].
    + apply String.eqb_neq in E. rewrite <- IH. tauto.
Qed.

Lemma keys_set_present (m : JSMap) (k v : string) :
  In k (keys m) -> keys (set m k v) = keys m.
Proof.
  induction m as [|[a b] r IH]; simpl; [tauto|].
  intro H. destruct (String.eqb a k) eqn:E; simpl; [reflexivity|].
  apply String.eqb_neq in E. f_equal. apply IH. tauto.
Qed.

Lemma keys_set_absent (m : JSMap) (k v : string) :
  ~ In k (keys m) -> keys (set m k v) = (keys m ++ [k])%list.
Proof.
  induction m as [|[a b] r IH]; simpl; [reflexivity|].
  intro H. destruct (String.eqb a k) eqn:E; simpl.
  - apply String.eqb_eq in E. tauto.
  - f_equal. apply IH. tauto.
Qed.

Lemma NoDup_set (m : JSMap) (k v : string) :
  NoDup (keys m) -> NoDup (keys (set m k v)).
Proof.
  intro H. destruct (in_dec string_dec k (keys m)) as [I|I].
  - now rewrite keys_set_present.
  - rewrite keys_set_absent by assumption.
    apply NoDup_app; [assumption | repeat constructor; simpl; tauto |].
    intros x Hx [Hk|[]]. subst. tauto.
Qed.

Lemma get_delete_same (m : JSMap) (k : string) :
  NoDup (keys m) -> get (delete m k) k = None.
Proof.
  induction m as [|[a b] r IH]; simpl; [reflexivity|].
  intro H. inversion H as [|? ? Ha Hr]; subst.
  destruct (String.eqb a k) eqn:E; simpl.
  - apply String.eqb_eq in E. subst a.
    destruct (get r k) eqn:G; [|reflexivity].
    exfalso. apply Ha. apply in_keys_get. congruence.
  - rewrite E. auto.
Qed.

Lemma get_delete_other (m : JSMap) (k k' : string) :
  k <> k' -> get (delete m k) k' = get m k'.
Proof.
  intro N. induction m as [|[a b] r IH]; simpl; [reflexivity|].
  destruct (String.eqb a k) eqn:E; simpl.
  - apply String.eqb_eq in E. subst a.
    apply String.eqb_neq in N. now rewrite N.
  - now rewrite IH.
Qed.

Lemma keys_delete (m : JSMap) (k : string) :
  NoDup (keys m) ->
  keys (delete m k) = filter (fun a => negb (String.eqb a k)) (keys m).
Proof.
  induction m as [|[a b] r IH]; simpl; [reflexivity|].
  intro H. inversion H as [|? ? Ha Hr]; subst.
  destruct (String.eqb a k) eqn:E; simpl.
  - apply String.eqb_eq in E. subst a.
    symmetry. apply forallb_filter_id. apply forallb_forall.
    intros x Hx. apply negb_true_iff. apply String.eqb_neq. intro; subst. tauto.
  - f_equal. auto.
Qed.

Lemma NoDup_delete (m : JSMap) (k : string) :
  NoDup (keys m) -> NoDup (keys (delete m k)).
Proof.
  intro H. rewrite keys_delete by assumption. now apply NoDup_filter.
Qed.

Lemma NoDup_of_entries (it : list (string * string)) : NoDup (keys (of_entries it)).
Proof.
  unfold of_entries.
  assert (G : forall m, NoDup (keys m) ->
     NoDup (keys (fold_left (fun m kv => set m (fst kv) (snd kv)) it m))).
  { induction it as [|[k v] r IH]; simpl; intros m H; [assumption|].
    apply IH. now apply NoDup_set. }
  apply G. constructor.
Qed.

Lemma all_lower_set (m : JSMap) (k v : string) :
  all_lower m = true ->
  String.eqb (Str.toLowerCase k) k = true ->
  all_lower (set m k v) = true.
Proof.
  intros H K. induction m as [|[a b] r IH]; simpl in *.
  - now rewrite K.
  - apply andb_prop in H. destruct H as [H1 H2].
    destruct (String.eqb a k) eqn:E; simpl; rewrite H1; simpl; auto.
Qed.

(** No key occurs twice. *)
Fixpoint unique (m : JSMap) : bool :=
  match m with
  | [] => true
  | (k, _) :: r => negb (has r k) && unique r
  end.

(** What a [HeaderMap] keeps true of its entries. *)
Definition wf (m : JSMap) : bool := all_lower m && unique m.

Lemma has_keys (m : JSMap) (k : string) : has m k = true <-> In k (keys m).
Proof.
  rewrite in_keys_get. unfold has. destruct (get m k); split; congruence.
Qed.

Lemma unique_NoDup (m : JSMap) : unique m = true <-> NoDup (keys m).
Proof.
  induction m as [|[a b] r IH]; simpl.
  - split; [constructor | reflexivity].
  - rewrite andb_true_iff, negb_true_iff, IH. split.
    + intros [H1 H2]. constructor; [|assumption].
      rewrite <- has_keys. congruence.
    + intro H. inversion H as [|? ? Ha Hr]; subst. split; [|assumption].
      destruct (has r a) eqn:E; [|reflexivity]. apply has_keys in E. tauto.
Qed.

Lemma wf_set (m : JSMap) (k v : string) :
  wf m = true ->
  String.eqb (Str.toLowerCase k) k = true ->
  wf (set m k v) = true.
Proof.
  unfold wf. rewrite !andb_true_iff. intros [H1 H2] K. split.
  - now apply all_lower_set.
  - apply unique_NoDup. apply NoDup_set. now apply unique_NoDup.
Qed.

Lemma all_lower_delete (m : JSMap) (k : string) :
  all_lower m = true -> all_lower (delete m k) = true.
Proof.
  induction m as [|[a b] r IH]; simpl; [reflexivity|].
  intro H. apply andb_prop in H. destruct H as [H1 H2].
  destruct (String.eqb a k); simpl; [assumption|]. rewrite H1. simpl. auto.
Qed.

Lemma wf_delete (m : JSMap) (k : string) : wf m = true -> wf (delete m k) = true.
Proof.
  unfold wf. rewrite !andb_true_iff. intros [H1 H2]. split.
  - now apply all_lower_delete.
  - apply unique_NoDup. apply NoDup_delete. now apply unique_NoDup.
Qed.

Lemma get_in (m : JSMap) (k v : string) :
  NoDup (keys m) -> In (k, v) m -> get m k = Some v.
Proof.
  induction m as [|[a b] r IH]; simpl; [tauto|].
  intros H [E|I]; inversion H as [|? ? Ha Hr]; subst.
  - injection E as -> ->. now rewrite String.eqb_refl.
  - destruct (String.eqb a k) eqn:E; [|auto].
    apply String.eqb_eq in E. subst a. exfalso. apply Ha.
    apply in_map_iff. exists (k, v). auto.
Qed.

(** Entries applied with [set] on top of a map: the entries win. *)
Lemma get_fold_set (it : list (string * string)) :
  NoDup (keys it) ->
  forall (init : JSMap) (k : string),
    get (fold_left (fun a kv => set a (fst kv) (snd kv)) it init) k =
    match get it k with
    | Some v => Some v
    | None => get init k
    end.
Proof.
  induction it as [|[a b] r IH]; simpl; intros H init k; [reflexivity|].
  inversion H as [|? ? Ha Hr]; subst. rewrite (IH Hr).
  destruct (String.eqb a k) eqn:E.
  - apply String.eqb_eq in E. subst a.
    destruct (get r k) eqn:G.
    + exfalso. apply Ha. apply in_keys_get. congruence.
    + apply get_set_same.
  - apply String.eqb_neq in E. destruct (get r k); [reflexivity|].
    now apply get_set_other.
Qed.

Lemma all_lower_keys (m : JSMap) :
  all_lower m = true <-> forall k, In k (keys m) -> Str.has_upper k = false.
Proof.
  unfold all_lower, keys. rewrite forallb_forall. split.
  - intros H k Hk. apply in_map_iff in Hk. destruct Hk as [[a b] [<- Hin]].
    apply Str.toLowerCase_fixed. apply String.eqb_eq. apply (H _ Hin).
  - intros H [a b] Hin. simpl. apply Str.eqb_lower_true. apply H.
    apply in_map_iff. exists (a, b). auto.
Qed.

End MapOps.

(** ** HeaderMap

    [class HeaderMap extends Map<string, string>] with [set] overridden.  A
    [HeaderMap] object is only ever filled through its own [set] (the [Map]
    constructor adds the entries of its iterable by calling [this.set]), so
    the value carries the fact that its keys are lower-case; as those of any
    [Map], they are distinct. *)

Record HeaderMap : Type := mkHeaderMap {
  hm_entries : JSMap;
  hm_wf : MapOps.wf hm_entries = true
}.

Module HeaderMapOps.

Definition empty : HeaderMap := mkHeaderMap [] eq_refl.

Definition lowercase_error (key : string) : JSError :=
  Error_new ("Headers must be lower-case, unlike " ++ key).

(** [HeaderMap.prototype.set] (lines 22-27) *)
Definition set (m : HeaderMap) (key value : string) : Outcome JSError HeaderMap :=
  (if String.eqb (Str.toLowerCase key) key as b
      return (String.eqb (Str.toLowerCase key) key = b -> Outcome JSError HeaderMap)
   then fun same =>
          Ret (mkHeaderMap (MapOps.set (hm_entries m) key value)
                           (MapOps.wf_set _ _ _ (hm_wf m) same))
   else fun _ => Throw (lowercase_error key)) eq_refl.

(** The operations [HeaderMap] inherits unchanged from [Map]. *)
Definition get (m : HeaderMap) (key : string) : option string :=
  MapOps.get (hm_entries m) key.

Definition has (m : HeaderMap) (key : string) : bool :=
  MapOps.has (hm_entries m) key.

Definition entries (m : HeaderMap) : list (string * string) :=
  MapOps.entries (hm_entries m).

Definition keys (m : HeaderMap) : list string := MapOps.keys (hm_entries m).

Definition delete (m : HeaderMap) (key : string) : HeaderMap :=
  mkHeaderMap (MapOps.delete (hm_entries m) key) (MapOps.wf_delete _ _ (hm_wf m)).

(** The [Map] constructor: [this.set(k, v)] for every entry of the iterable,
    in order; the first throw ends the construction. *)
Fixpoint add_all (m : HeaderMap) (it : list (string * string))
  : Outcome JSError HeaderMap :=
  match it with
  | [] => Ret m
  | (k, v) :: r =>
      match set m k v with
      | Ret m' => add_all m' r
      | Throw e => Throw e
      end
  end.

(** [new HeaderMap(iterable)] *)
Definition new (it : list (string * string)) : Outcome JSError HeaderMap :=
  add_all empty it.

Lemma lower (m : HeaderMap) : MapOps.all_lower (hm_entries m) = true.
Proof.
  pose proof (hm_wf m) as H. unfold MapOps.wf in H.
  apply andb_prop in H. tauto.
Qed.

Lemma distinct (m : HeaderMap) : NoDup (keys m).
Proof.
  pose proof (hm_wf m) as H. unfold MapOps.wf in H.
  apply andb_prop in H. apply MapOps.unique_NoDup. tauto.
Qed.

Lemma set_upper (m : HeaderMap) (k v : string) :
  Str.has_upper k = true -> set m k v = Throw (lowercase_error k).
Proof.
  intro H. apply Str.eqb_lower_false in H. unfold set.
  generalize (MapOps.wf_set (hm_entries m) k v (hm_wf m)).
  rewrite H. reflexivity.
Qed.

Lemma set_lower (m : HeaderMap) (k v : string) :
  Str.has_upper k = false ->
  exists m', set m k v = Ret m' /\ hm_entries m' = MapOps.set (hm_entries m) k v.
Proof.
  intro H. apply Str.eqb_lower_true in H. unfold set.
  generalize (MapOps.wf_set (hm_entries m) k v (hm_wf m)).
  rewrite H. intro p. eexists. split; reflexivity.
Qed.

Lemma add_all_lower (it : list (string * string)) :
  MapOps.all_lower it = true ->
  forall m, exists m',
    add_all m it = Ret m' /\
    hm_entries m' =
      fold_left (fun a kv => MapOps.set a (fst kv) (snd kv)) it (hm_entries m).
Proof.
  induction it as [|[k v] r IH]; simpl; intros H m.
  - exists m. auto.
  - apply andb_prop in H. destruct H as [H1 H2].
    apply String.eqb_eq, Str.toLowerCase_fixed in H1.
    destruct (set_lower m k v H1) as [m1 [E1 E2]]. rewrite E1.
    destruct (IH H2 m1) as [m' [E3 E4]]. exists m'. split; [assumption|].
    now rewrite E4, E2.
Qed.

Lemma add_all_upper (it : list (string * string)) :
  MapOps.all_lower it = false ->
  forall m, exists e, add_all m it = Throw e.
Proof.
  induction it as [|[k v] r IH]; simpl; intros H m; [discriminate|].
  destruct (Str.has_upper k) eqn:U.
  - rewrite (set_upper m k v U). eauto.
  - destruct (set_lower m k v U) as [m1 [E1 _]]. rewrite E1.
    apply IH. apply Str.eqb_lower_true in U. rewrite U in H. exact H.
Qed.

End HeaderMapOps.

(** ** The HTTP request and response descriptions *)

Record HTTPGraphQLRequest : Type := mkRequest {
  method : string;
  body : JSValue;
  searchParams : JSValue;
  req_headers : JSMap
}.

(** [HTTPGraphQLResponse]; a [statusCode] left [undefined] is [None]. *)
Record HTTPGraphQLResponse : Type := mkResponse {
  statusCode : option Z;
  headers : JSMap;
  completeBody : option string;
  bodyChunks : option (list string)
}.

(** ** HttpQueryError (lines 30-63) *)

(** The [headers] field is public and typed [Map<string, string>] (line 35):
    the constructor stores a [HeaderMap] there, and whoever holds the error
    can store another map, so the field is any map. *)
Record HttpQueryError : Type := mkHttpQueryError {
  hq_statusCode : Z;
  hq_message : string;
  hq_isGraphQLError : bool;
  hq_headers : JSMap
}.

(** The values that are not objects. *)
Inductive Primitive : Type :=
| PUndefined
| PNull
| PBool (b : bool)
| PNum (n : Number)
| PStr (s : string).

(** A thrown value: an instance of [HttpQueryError], another error object,
    or a primitive ([throw null], [throw 'denied']). *)
Inductive Exn : Type :=
| ExnHttpQuery (e : HttpQueryError)
| ExnError (e : JSError)
| ExnPrimitive (p : Primitive).

Module HttpQueryErrorOps.

(** The constructor; [isGraphQLError] defaults to [false] at the call sites
    that omit it, [headers ?? []] is the iterable handed to [new HeaderMap]. *)
Definition new (status : Z) (message : string) (isGraphQLError : bool)
    (hdrs : option JSMap) : Outcome JSError HttpQueryError :=
  match HeaderMapOps.new (match hdrs with
                          | Some m => MapOps.entries m
                          | None => []
                          end) with
  | Ret h => Ret (mkHttpQueryError status message isGraphQLError (hm_entries h))
  | Throw e => Throw e
  end.

(** [asHTTPGraphQLResponse()] (lines 51-62) *)
Definition asHTTPGraphQLResponse (e : HttpQueryError)
  : Outcome JSError HTTPGraphQLResponse :=
  match HeaderMapOps.new (("content-type", "text/plain")
                          :: MapOps.entries (hq_headers e)) with
  | Ret h => Ret (mkResponse (Some (hq_statusCode e)) (hm_entries h)
                             (Some (hq_message e)) None)
  | Throw x => Throw x
  end.

(** The headers of the response of an [HttpQueryError]. *)
Definition response_headers (e : HttpQueryError) : JSMap :=
  fold_left (fun a kv => MapOps.set a (fst kv) (snd kv))
            (hq_headers e) [("content-type", "text/plain")].

(** The conversion returns when the names of the error's headers are
    lower-case ... *)
Lemma asHTTPGraphQLResponse_lower (e : HttpQueryError) :
  MapOps.all_lower (hq_headers e) = true ->
  asHTTPGraphQLResponse e =
  Ret (mkResponse (Some (hq_statusCode e)) (response_headers e)
                  (Some (hq_message e)) None).
Proof.
  intro A.
  unfold asHTTPGraphQLResponse, HeaderMapOps.new, MapOps.entries.
  assert (L : MapOps.all_lower (("content-type", "text/plain") :: hq_headers e)
              = true).
  { simpl. exact A. }
  destruct (HeaderMapOps.add_all_lower _ L HeaderMapOps.empty) as [m' [E1 E2]].
  rewrite E1. unfold response_headers. rewrite E2. reflexivity.
Qed.

(** ... and throws when one is not. *)
Lemma asHTTPGraphQLResponse_upper (e : HttpQueryError) :
  MapOps.all_lower (hq_headers e) = false ->
  exists x, asHTTPGraphQLResponse e = Throw x.
Proof.
  intro A.
  unfold asHTTPGraphQLResponse, HeaderMapOps.new, MapOps.entries.
  assert (L : MapOps.all_lower (("content-type", "text/plain") :: hq_headers e)
              = false).
  { simpl. exact A. }
  destruct (HeaderMapOps.add_all_upper _ L HeaderMapOps.empty) as [x E].
  exists x. rewrite E. reflexivity.
Qed.

End HttpQueryErrorOps.

(** [isHttpQueryError(e)] (lines 65-67): the test on the [name] property. *)
Definition isHttpQueryError (e : Exn) : bool :=
  match e with
  | ExnHttpQuery _ => true
  | ExnError x => String.eqb (err_name x) "HttpQueryError"
  | ExnPrimitive _ => false
  end.

(** ** Plugins

    [operation.operation] of the resolved operation, one of graphql-js's
    [OperationTypeNode] strings. *)
Inductive OperationTypeNode : Type := QUERY | MUTATION | SUBSCRIPTION.

Definition operation_string (k : OperationTypeNode) : string :=
  match k with
  | QUERY => "query"
  | MUTATION => "mutation"
  | SUBSCRIPTION => "subscription"
  end.

(** The listener [requestDidStart] resolves to.  Only the hook the adapter
    itself installs is modelled; a listener without it is one whose hook
    returns. *)
Record RequestListener : Type := mkListener {
  didResolveOperation : OperationTypeNode -> Outcome Exn unit
}.

Record Plugin : Type := mkPlugin {
  requestDidStart : RequestListener
}.

(** [new HttpQueryError(status, message, false, new HeaderMap(entries))] *)
Definition HttpQueryError_with_headers (status : Z) (message : string)
    (it : list (string * string)) : Outcome JSError HttpQueryError :=
  match HeaderMapOps.new it with
  | Ret h => HttpQueryErrorOps.new status message false (Some (hm_entries h))
  | Throw x => Throw x
  end.

Definition lift_new (r : Outcome JSError HttpQueryError) : Exn :=
  match r with
  | Ret e => ExnHttpQuery e
  | Throw x => ExnError x
  end.

(** The plugin of lines 226-241. *)
Definition getOnlyQueryPlugin : Plugin :=
  mkPlugin (mkListener (fun operation =>
    if negb (String.eqb (operation_string operation) "query") then
      Throw (lift_new (HttpQueryError_with_headers 405
                         "GET supports only query operation" [("allow", "POST")]))
    else Ret tt)).

(** ** Request normalisation helpers (lines 73-148) *)

(** [debugFromNodeEnv(nodeEnv = NODE_ENV)] *)
Definition debugFromNodeEnv (NODE_ENV : string) (nodeEnv : option string) : bool :=
  let env := match nodeEnv with Some e => e | None => NODE_ENV end in
  negb (String.eqb env "production") && negb (String.eqb env "test").

Definition fieldIfString (o : JSValue) (fieldName : string) : option string :=
  match JS.prop o fieldName with
  | JStr s => Some s
  | _ => None
  end.

Definition isStringRecord (o : JSValue) : JSValue :=
  JS.and (JS.and (JS.and o (JBool (String.eqb (JS.typeof o) "object")))
                 (JBool (negb (JS.isBuffer o))))
         (JBool (negb (JS.isArray o))).

Definition isNonEmptyStringRecord (o : JSValue) : JSValue :=
  JS.and (isStringRecord o) (JBool (0 <? length (JS.keys o))%nat).

Definition fieldIfRecord (o : JSValue) (fieldName : string) : option JSValue :=
  if JS.truthy (isStringRecord (JS.prop o fieldName))
  then Some (JS.prop o fieldName)
  else None.

(** [throw new HttpQueryError(status, message)] *)
Definition throw_HttpQueryError {A : Type} (status : Z) (message : string)
  : Outcome Exn A :=
  Throw (lift_new (HttpQueryErrorOps.new status message false None)).

Definition jsonParsedFieldIfNonEmptyString (JSON_parse : string -> option JSValue)
    (o : JSValue) (fieldName : string) : Outcome Exn (option JSValue) :=
  match JS.prop o fieldName with
  | JStr s =>
      if JS.truthy (JStr s) then
        match JSON_parse s with
        | None =>
            throw_HttpQueryError 400
              ("The " ++ fieldName ++ " search parameter contains invalid JSON.")
        | Some hopefullyRecord =>
            if negb (JS.truthy (isStringRecord hopefullyRecord)) then
              throw_HttpQueryError 400
                ("The " ++ fieldName ++
                 " search parameter should contain a JSON-encoded object.")
            else Ret (Some hopefullyRecord)
        end
      else Ret None
  | _ => Ret None
  end.

Definition document_message : string :=
  "GraphQL queries must be strings. It looks like you're sending the " ++
  "internal graphql-js representation of a parsed query in your " ++
  "request instead of a request in the GraphQL query language. You " ++
  "can convert an AST to a string using the `print` function from " ++
  "`graphql`, or use a client like `apollo-client` which converts " ++
  "the internal representation to a string for you.".

Definition ensureQueryIsStringOrMissing (query : JSValue) : Outcome Exn unit :=
  if negb (JS.truthy query) || String.eqb (JS.typeof query) "string" then Ret tt
  else if JS.strict_eq_str (JS.prop query "kind") "Document" then
    throw_HttpQueryError 400 document_message
  else throw_HttpQueryError 400 "GraphQL queries must be strings.".

(** ** Pipeline data *)

Record GraphQLRequest : Type := mkGraphQLRequest {
  query : option string;
  operationName : option string;
  variables : option JSValue;
  extensions : option JSValue;
  http : HTTPGraphQLRequest
}.

(** [Pick<HTTPGraphQLResponse, 'headers' | 'statusCode'>] *)
Record PartialResponse : Type := mkPartial {
  p_headers : JSMap;
  p_statusCode : option Z
}.

(** [GraphQLResponse]: the pipeline's result.  An absent field is
    [JUndefined]; [http] is optional. *)
Record GraphQLResponse : Type := mkGraphQLResponse {
  r_errors : JSValue;
  r_data : JSValue;
  r_extensions : JSValue;
  r_http : option PartialResponse
}.

(** [serializeGraphQLResponse] (lines 337-347) *)
Definition serializeGraphQLResponse (response : GraphQLResponse) : JSValue :=
  JObj [("errors", r_errors response);
        ("data", r_data response);
        ("extensions", r_extensions response)].

(** ** The collaborators

    The types the adapter only passes along, and the functions it calls
    without defining them. *)

Record Externals : Type := mkExternals {
  Schema : Type;
  Logger : Type;
  Cache : Type;
  CachePolicy : Type;
  Context : Type;
  Formatter : Type;
  OtherOptions : Type
}.

Section Adapter.

Variable X : Externals.

(** [GraphQLServerOptions]: the fields the adapter reads, and the rest. *)
Record GraphQLServerOptions : Type := mkOptions {
  o_debug : option bool;
  o_nodeEnv : option string;
  o_plugins : option (list Plugin);
  o_logger : option (Logger X);
  o_schema : Schema X;
  o_cache : option (Cache X);
  o_formatError : option (Formatter X);
  o_rest : OtherOptions X
}.

(** [GraphQLRequestContext] as built at lines 257-284.  [rc_response_http]
    is the shared partial response as it is when the pipeline is entered. *)
Record GraphQLRequestContext : Type := mkRequestContext {
  rc_logger : Logger X;
  rc_schema : Schema X;
  rc_request : GraphQLRequest;
  rc_response_http : PartialResponse;
  rc_context : Context X;
  rc_cache : option (Cache X);
  rc_debug : option bool;
  rc_metrics : JSValue;
  rc_overallCachePolicy : CachePolicy X
}.

(** What one call of the pipeline does: it returns or throws, and leaves the
    shared partial response in some state. *)
Record PipelineResult : Type := mkPipelineResult {
  pr_outcome : Outcome Exn GraphQLResponse;
  pr_partial : PartialResponse
}.

Record Collaborators : Type := mkCollaborators {
  (** [processGraphQLRequest(options, requestContext)]; it is given the
      adapter's own copy of the options and treats it as read-only. *)
  processGraphQLRequest :
    GraphQLServerOptions -> GraphQLRequestContext -> PipelineResult;
  (** [formatApolloErrors(errors, {debug, formatter})] *)
  formatApolloErrors :
    list Exn -> option bool -> option (Formatter X) -> JSValue;
  (** [JSON.parse], [None] when it throws *)
  JSON_parse : string -> option JSValue;
  (** [process.env.NODE_ENV ?? ''] *)
  NODE_ENV : string;
  console : Logger X;
  newCachePolicy : CachePolicy X
}.

Variable C : Collaborators.

(** [cloneObject] (lines 354-356): a new object with the prototype and the
    own properties of the old one, which as a value is the old one. *)
Definition cloneObject (object : Context X) : Context X := object.

(** *** The state the adapter runs in *)

(** Calls the adapter makes to its collaborators, with their arguments. *)
Inductive Event : Type :=
| EvPipeline (options : GraphQLServerOptions) (requestContext : GraphQLRequestContext)
| EvFormat (errors : list Exn) (debug : option bool) (formatter : option (Formatter X)).

(** What the variable [options] of [runHttpQuery] refers to: the caller's
    object, or after line 246 the local copy. *)
Inductive OptionsVar : Type :=
| CallerObject
| LocalCopy (o : GraphQLServerOptions).

Record World : Type := mkWorld {
  (** the caller's options object *)
  w_options : GraphQLServerOptions;
  w_options_var : OptionsVar;
  (** the shared partial response, once it exists *)
  w_partial : option PartialResponse;
  (** the calls made so far, oldest first *)
  w_trace : list Event
}.

Definition M (A : Type) : Type := World -> Outcome Exn A * World.

Definition ret {A : Type} (a : A) : M A := fun w => (Ret a, w).

Definition throw {A : Type} (e : Exn) : M A := fun w => (Throw e, w).

Definition bind {A B : Type} (c : M A) (k : A -> M B) : M B :=
  fun w =>
    match c w with
    | (Ret a, w') => k a w'
    | (Throw e, w') => (Throw e, w')
    end.

Definition try_catch {A : Type} (c : M A) (handler : Exn -> M A) : M A :=
  fun w =>
    match c w with
    | (Ret a, w') => (Ret a, w')
    | (Throw e, w') => handler e w'
    end.

(** An outcome of pure code, in the monad. *)
Definition lift {A : Type} (r : Outcome Exn A) : M A := fun w => (r, w).

(** The same for code that throws plain [Error]s. *)
Definition lift_error {A : Type} (r : Outcome JSError A) : M A :=
  fun w =>
    match r with
    | Ret a => (Ret a, w)
    | Throw x => (Throw (ExnError x), w)
    end.

Definition log (ev : Event) : M unit :=
  fun w => (Ret tt, mkWorld (w_options w) (w_options_var w) (w_partial w)
                            (w_trace w ++ [ev])%list).

(** The object [options] refers to. *)
Definition read_options : M GraphQLServerOptions :=
  fun w =>
    (Ret (match w_options_var w with
          | CallerObject => w_options w
          | LocalCopy o => o
          end), w).

(** [options.debug = b], a write to the object [options] refers to. *)
Definition write_debug (b : bool) : M unit :=
  fun w =>
    let upd o := mkOptions (Some b) (o_nodeEnv o) (o_plugins o) (o_logger o)
                           (o_schema o) (o_cache o) (o_formatError o) (o_rest o) in
    (Ret tt,
     match w_options_var w with
     | CallerObject => mkWorld (upd (w_options w)) CallerObject (w_partial w) (w_trace w)
     | LocalCopy o => mkWorld (w_options w) (LocalCopy (upd o)) (w_partial w) (w_trace w)
     end).

(** [options = {...options, plugins}] *)
Definition rebind_options (o : GraphQLServerOptions) : M unit :=
  fun w => (Ret tt, mkWorld (w_options w) (LocalCopy o) (w_partial w) (w_trace w)).

Definition write_partial (p : PartialResponse) : M unit :=
  fun w => (Ret tt, mkWorld (w_options w) (w_options_var w) (Some p) (w_trace w)).

(** A call starts with [options] bound to the caller's object and no
    partial response yet. *)
Definition enter : M unit :=
  fun w => (Ret tt, mkWorld (w_options w) CallerObject None (w_trace w)).

Notation "x <- c ;; k" := (bind c (fun x => k))
  (at level 61, c at next level, right associativity).
Notation "c ;;; k" := (bind c (fun _ => k))
  (at level 61, right associativity).

(** *** runHttpQuery (lines 151-335) *)

(** [new HttpQueryError(...).asHTTPGraphQLResponse()] of an early [return]. *)
Definition error_response (e : Outcome JSError HttpQueryError)
  : Outcome Exn HTTPGraphQLResponse :=
  match e with
  | Ret err =>
      match HttpQueryErrorOps.asHTTPGraphQLResponse err with
      | Ret r => Ret r
      | Throw x => Throw (ExnError x)
      end
  | Throw x => Throw (ExnError x)
  end.

Definition and_then {A B : Type} (r : Outcome Exn A) (k : A -> Outcome Exn B)
  : Outcome Exn B :=
  match r with
  | Ret a => k a
  | Throw e => Throw e
  end.

(** Lines 163-219, the [switch] on the method: it returns a response at
    once ([inl]), or leaves [graphqlRequest] assigned ([inr]), or throws. *)
Definition runHttpQuery_switch (httpRequest : HTTPGraphQLRequest)
  : Outcome Exn (HTTPGraphQLResponse + GraphQLRequest) :=
  if String.eqb (method httpRequest) "POST" then
    if negb (JS.truthy (isNonEmptyStringRecord (body httpRequest))) then
      and_then
        (error_response
           (HttpQueryErrorOps.new 400
              "POST body missing, invalid Content-Type, or JSON object has no keys."
              false None))
        (fun r => Ret (inl r))
    else
      and_then (ensureQueryIsStringOrMissing (JS.prop (body httpRequest) "query"))
        (fun _ =>
           Ret (inr (mkGraphQLRequest
                       (fieldIfString (body httpRequest) "query")
                       (fieldIfString (body httpRequest) "operationName")
                       (fieldIfRecord (body httpRequest) "variables")
                       (fieldIfRecord (body httpRequest) "extensions")
                       httpRequest)))
  else if String.eqb (method httpRequest) "GET" then
    if negb (JS.truthy (isNonEmptyStringRecord (searchParams httpRequest))) then
      and_then
        (error_response (HttpQueryErrorOps.new 400 "GET query missing." false None))
        (fun r => Ret (inl r))
    else
      and_then
        (ensureQueryIsStringOrMissing (JS.prop (searchParams httpRequest) "query"))
        (fun _ =>
      and_then
        (jsonParsedFieldIfNonEmptyString (JSON_parse C)
           (searchParams httpRequest) "variables")
        (fun vars =>
      and_then
        (jsonParsedFieldIfNonEmptyString (JSON_parse C)
           (searchParams httpRequest) "extensions")
        (fun exts =>
           Ret (inr (mkGraphQLRequest
                       (fieldIfString (searchParams httpRequest) "query")
                       (fieldIfString (searchParams httpRequest) "operationName")
                       vars exts httpRequest)))))
  else
    and_then
      (error_response
         (HttpQueryError_with_headers 405
            "Apollo Server supports only GET/POST requests."
            [("allow", "GET, POST")]))
      (fun r => Ret (inl r)).

(** Lines 221-242: a copy of the configured plugins, with the plugin for
    [GET] put in front. *)
Definition request_plugins (httpRequest : HTTPGraphQLRequest)
    (options : GraphQLServerOptions) : list Plugin :=
  let plugins := match o_plugins options with Some l => l | None => [] end in
  if String.eqb (method httpRequest) "GET"
  then getOnlyQueryPlugin :: plugins
  else plugins.

(** Lines 246-249: [{...options, plugins}] *)
Definition local_options (httpRequest : HTTPGraphQLRequest)
    (options : GraphQLServerOptions) : GraphQLServerOptions :=
  mkOptions (o_debug options) (o_nodeEnv options)
            (Some (request_plugins httpRequest options))
            (o_logger options) (o_schema options) (o_cache options)
            (o_formatError options) (o_rest options).

(** Lines 257-284 *)
Definition new_requestContext (options : GraphQLServerOptions)
    (graphqlRequest : GraphQLRequest) (partialResponse : PartialResponse)
    (context : Context X) : GraphQLRequestContext :=
  mkRequestContext
    (match o_logger options with Some l => l | None => console C end)
    (o_schema options)
    graphqlRequest
    partialResponse
    (cloneObject context)
    (o_cache options)
    (o_debug options)
    (JObj [])
    (newCachePolicy C).

(** Line 285: the call of the pipeline, which may have changed the shared
    partial response by the time it returns or throws. *)
Definition call_pipeline (options : GraphQLServerOptions)
    (requestContext : GraphQLRequestContext) : M GraphQLResponse :=
  log (EvPipeline options requestContext) ;;;
  let res := processGraphQLRequest C options requestContext in
  write_partial (pr_partial res) ;;;
  lift (pr_outcome res).

(** [response.http?.statusCode || 400] *)
Definition status_or_400 (h : option PartialResponse) : Z :=
  match h with
  | Some p =>
      match p_statusCode p with
      | Some z => if Z.eqb z 0 then 400%Z else z
      | None => 400%Z
      end
  | None => 400%Z
  end.

(** [new HeaderMap([['content-type', 'application/json'],
    ...response.http?.headers.entries()])]: without [http] the optional
    chain gives [undefined], and spreading [undefined] throws. *)
Definition preexecution_headers (h : option PartialResponse)
  : Outcome Exn HeaderMap :=
  match h with
  | Some p =>
      match HeaderMapOps.new (("content-type", "application/json")
                              :: MapOps.entries (p_headers p)) with
      | Ret m => Ret m
      | Throw x => Throw (ExnError x)
      end
  | None =>
      Throw (ExnError (TypeError_new
               "undefined is not iterable (cannot read property Symbol(Symbol.iterator))"))
  end.

(** [partialResponse.headers.set(key, value)]: the [set] of [HeaderMap] on
    the entries the shared object holds by then.  The variable
    [partialResponse] is assigned at line 251, before any use of it, so the
    case without a partial response does not arise in a run. *)
Definition set_partial_header (key value : string) : M unit :=
  fun w =>
    match w_partial w with
    | Some p =>
        if String.eqb (Str.toLowerCase key) key then
          (Ret tt, mkWorld (w_options w) (w_options_var w)
                     (Some (mkPartial (MapOps.set (p_headers p) key value)
                                      (p_statusCode p)))
                     (w_trace w))
        else (Throw (ExnError (HeaderMapOps.lowercase_error key)), w)
    | None => (Throw (ExnError (TypeError_new "partialResponse is undefined")), w)
    end.

Definition read_partial : M PartialResponse :=
  fun w =>
    match w_partial w with
    | Some p => (Ret p, w)
    | None => (Throw (ExnError (TypeError_new "partialResponse is undefined")), w)
    end.

(** Lines 289-317: from the pipeline's result to the response. *)
Definition runHttpQuery_respond (response : GraphQLResponse) : M HTTPGraphQLResponse :=
  if JS.truthy (r_errors response)
     && String.eqb (JS.typeof (r_data response)) "undefined"
  then
    let status := status_or_400 (r_http response) in
    hs <- lift (preexecution_headers (r_http response)) ;;
    ret (mkResponse (Some status) (hm_entries hs)
           (Some (prettyJSONStringify
                    (JObj [("errors", r_errors response);
                           ("extensions", r_extensions response)])))
           None)
  else
    let body := prettyJSONStringify (serializeGraphQLResponse response) in
    set_partial_header "content-length" (Str.of_N (N.of_nat (String.length body))) ;;;
    p <- read_partial ;;
    ret (mkResponse (p_statusCode p) (p_headers p) (Some body) None).

(** Lines 221-285: from the plugin list to the pipeline's result. *)
Definition runHttpQuery_execute (httpRequest : HTTPGraphQLRequest)
    (context : Context X) (graphqlRequest : GraphQLRequest)
  : M GraphQLResponse :=
  options0 <- read_options ;;
  let options := local_options httpRequest options0 in
  rebind_options options ;;;
  h <- lift_error (HeaderMapOps.new [("content-type", "application/json")]) ;;
  let partialResponse := mkPartial (hm_entries h) None in
  write_partial partialResponse ;;;
  call_pipeline options
    (new_requestContext options graphqlRequest partialResponse context).

(** Lines 157-317, the [try] block. *)
Definition runHttpQuery_try (httpRequest : HTTPGraphQLRequest) (context : Context X)
  : M HTTPGraphQLResponse :=
  options <- read_options ;;
  match o_debug options with
  | None => write_debug (debugFromNodeEnv (NODE_ENV C) (o_nodeEnv options))
  | Some _ => ret tt
  end ;;;
  step <- lift (runHttpQuery_switch httpRequest) ;;
  match step with
  | inl early => ret early
  | inr graphqlRequest =>
      response <- runHttpQuery_execute httpRequest context graphqlRequest ;;
      runHttpQuery_respond response
  end.

(** Lines 318-334: the handler of the one [catch]. *)
Definition runHttpQuery_catch (error : Exn) : M HTTPGraphQLResponse :=
  match error with
  | ExnHttpQuery e => lift_error (HttpQueryErrorOps.asHTTPGraphQLResponse e)
  | ExnError _ | ExnPrimitive _ =>
      h <- lift_error (HeaderMapOps.new [("content-type", "application/json")]) ;;
      options <- read_options ;;
      log (EvFormat [error] (o_debug options) (o_formatError options)) ;;;
      ret (mkResponse (Some 500%Z) (hm_entries h)
             (Some (prettyJSONStringify
                      (JObj [("errors",
                              formatApolloErrors C [error] (o_debug options)
                                (o_formatError options))])))
             None)
  end.

Definition runHttpQuery (httpRequest : HTTPGraphQLRequest) (context : Context X)
  : M HTTPGraphQLResponse :=
  enter ;;;
  try_catch (runHttpQuery_try httpRequest context) runHttpQuery_catch.

(** *** executeContextFunction (lines 363-396) *)

Inductive ContextFunctionExecutionResult : Type :=
| ContextBuilt (context : Context X)
| ContextFailed (errorHTTPGraphQLResponse : HTTPGraphQLResponse).

(** [typeof p] and [String(p)] of a primitive, as the engine's messages
    show them. *)
Definition primitive_type (p : Primitive) : string :=
  match p with
  | PUndefined => "undefined"
  | PNull => "object"
  | PBool _ => "boolean"
  | PNum _ => "number"
  | PStr _ => "string"
  end.

Definition primitive_text (p : Primitive) : string :=
  match p with
  | PUndefined => "undefined"
  | PNull => "null"
  | PBool true => "true"
  | PBool false => "false"
  | PNum n => JSON.of_Z (num_value n)
  | PStr s => s
  end.

(** [e.message = `Context creation failed: ${e.message}`].  On an error
    object the property is rewritten.  On [undefined] and [null] reading
    [e.message] throws a [TypeError]; on another primitive the read gives
    [undefined] and the assignment throws a [TypeError], the module being
    in strict mode. *)
Definition prefix_message (e : Exn) : Outcome Exn Exn :=
  match e with
  | ExnHttpQuery q =>
      Ret (ExnHttpQuery (mkHttpQueryError (hq_statusCode q)
                           ("Context creation failed: " ++ hq_message q)
                           (hq_isGraphQLError q) (hq_headers q)))
  | ExnError x =>
      Ret (ExnError (mkJSError (err_name x)
                       ("Context creation failed: " ++ err_message x)
                       (err_extensions x)))
  | ExnPrimitive PUndefined =>
      Throw (ExnError (TypeError_new
                         "Cannot read properties of undefined (reading 'message')"))
  | ExnPrimitive PNull =>
      Throw (ExnError (TypeError_new
                         "Cannot read properties of null (reading 'message')"))
  | ExnPrimitive p =>
      Throw (ExnError (TypeError_new
                         ("Cannot create property 'message' on " ++ primitive_type p
                          ++ " '" ++ primitive_text p ++ "'")))
  end.

(** [e.extensions]; an [HttpQueryError] has none. *)
Definition extensions_of (e : Exn) : JSValue :=
  match e with
  | ExnHttpQuery _ => JUndefined
  | ExnError x => err_extensions x
  | ExnPrimitive _ => JUndefined
  end.

Definition context_error_status (e : Exn) : Z :=
  let ext := extensions_of e in
  if JS.truthy
       (JS.and (JS.and ext (JS.prop ext "code"))
               (JBool (negb (JS.strict_eq_str (JS.prop ext "code")
                                              "INTERNAL_SERVER_ERROR"))))
  then 400%Z else 500%Z.

(** [contextFunction] is given by what awaiting its call gives. *)
Definition executeContextFunction (contextFunction : Outcome Exn (Context X))
    (formatter : option (Formatter X)) (debug : option bool)
  : Outcome Exn ContextFunctionExecutionResult :=
  match contextFunction with
  | Ret context => Ret (ContextBuilt context)
  | Throw e0 =>
      match prefix_message e0 with
      | Ret e =>
          let status := context_error_status e in
          match HeaderMapOps.new [("content-type", "application/json")] with
          | Ret h =>
              Ret (ContextFailed
                     (mkResponse (Some status) (hm_entries h)
                        (Some (prettyJSONStringify
                                 (JObj [("errors",
                                         formatApolloErrors C [e] debug formatter)])))
                        None))
          | Throw x => Throw (ExnError x)
          end
      | Throw t => Throw t
      end
  end.

End Adapter.

(** ** What the adapter expects of the pipeline's hooks *)

(** The [message] of a thrown error object. *)
Definition message_of (e : Exn) : string :=
  match e with
  | ExnHttpQuery q => hq_message q
  | ExnError x => err_message x
  | ExnPrimitive _ => "undefined"
  end.


(** Modelled from the spec: [processGraphQLRequest] is not part of this
    file.  The spec's Method Policy relies on this of it: once the pipeline
    has resolved which operation will run, the [didResolveOperation] hooks
    of its plugins are run on that operation, here in the order of the
    list, and what a hook throws is not handled by the hooks after it. *)
Fixpoint run_didResolveOperation (plugins : list Plugin) (operation : OperationTypeNode)
  : Outcome Exn unit :=
  match plugins with
  | [] => Ret tt
  | p :: r =>
      match didResolveOperation (requestDidStart p) operation with
      | Ret _ => run_didResolveOperation r operation
      | Throw e => Throw e
      end
  end.

Arguments mkOptions {X}.
Arguments mkRequestContext {X}.
Arguments mkCollaborators {X}.
Arguments mkWorld {X}.
Arguments EvPipeline {X}.
Arguments EvFormat {X}.
Arguments CallerObject {X}.
Arguments LocalCopy {X}.
Arguments ContextBuilt {X}.
Arguments ContextFailed {X}.
Arguments o_debug {X}.
Arguments o_nodeEnv {X}.
Arguments o_plugins {X}.
Arguments o_logger {X}.
Arguments o_schema {X}.
Arguments o_cache {X}.
Arguments o_formatError {X}.
Arguments o_rest {X}.
Arguments rc_logger {X}.
Arguments rc_schema {X}.
Arguments rc_request {X}.
Arguments rc_response_http {X}.
Arguments rc_context {X}.
Arguments rc_cache {X}.
Arguments rc_debug {X}.
Arguments rc_metrics {X}.
Arguments rc_overallCachePolicy {X}.
Arguments processGraphQLRequest {X}.
Arguments formatApolloErrors {X}.
Arguments JSON_parse {X}.
Arguments NODE_ENV {X}.
Arguments console {X}.
Arguments newCachePolicy {X}.
Arguments w_options {X}.
Arguments w_options_var {X}.
Arguments w_partial {X}.
Arguments w_trace {X}.
Arguments runHttpQuery {X}.
Arguments runHttpQuery_try {X}.
Arguments runHttpQuery_catch {X}.
Arguments runHttpQuery_execute {X}.
Arguments runHttpQuery_switch {X}.
Arguments runHttpQuery_respond {X}.
Arguments local_options {X}.
Arguments request_plugins {X}.
Arguments new_requestContext {X}.
Arguments call_pipeline {X}.
Arguments executeContextFunction {X}.
Arguments enter {X}.
Arguments ret {X A}.
Arguments throw {X A}.
Arguments bind {X A B}.
Arguments try_catch {X A}.
Arguments lift {X A}.
Arguments lift_error {X A}.
Arguments log {X}.
Arguments read_options {X}.
Arguments write_debug {X}.
Arguments rebind_options {X}.
Arguments write_partial {X}.
Arguments set_partial_header {X}.
Arguments read_partial {X}.

(** ** A concrete setting

    Collaborators to run the adapter on concrete requests: a decoder for the
    fragment of JSON without escapes, fractions, exponents and integers
    beyond the safe ones, a pipeline that answers one query and runs the
    [didResolveOperation] hooks, and a formatter that publishes the message
    of each error. *)

Module Sample.

Definition is_ws (c : ascii) : bool :=
  let n := N_of_ascii c in
  (n =? 32)%N || (n =? 9)%N || (n =? 10)%N || (n =? 13)%N.

Definition is_digit (c : ascii) : bool :=
  let n := N_of_ascii c in (48 <=? n)%N && (n <=? 57)%N.

Fixpoint skip_ws (s : string) : string :=
  match s with
  | String c r => if is_ws c then skip_ws r else s
  | EmptyString => s
  end.

(** The characters up to the closing quote, and what follows it. *)
Fixpoint string_body (s : string) : option (string * string) :=
  match s with
  | EmptyString => None
  | String c r =>
      if (N_of_ascii c =? 34)%N then Some ("", r)
      else if (N_of_ascii c =? 92)%N || (N_of_ascii c <? 32)%N then None
      else match string_body r with
           | Some (b, rest) => Some (String c b, rest)
           | None => None
           end
  end.

Fixpoint digits (acc : Z) (s : string) : Z * string :=
  match s with
  | String c r =>
      if is_digit c then digits (10 * acc + Z.of_N (N_of_ascii c - 48)) r
      else (acc, s)
  | EmptyString => (acc, s)
  end.

Definition literal (lit : string) (v : JSValue) (s : string)
  : option (JSValue * string) :=
  if String.prefix lit s
  then Some (v, String.substring (String.length lit)
                                 (String.length s - String.length lit) s)
  else None.

Fixpoint value (fuel : nat) (s : string) : option (JSValue * string) :=
  match fuel with
  | O => None
  | S fuel' =>
      match skip_ws s with
      | EmptyString => None
      | String c r =>
          let n := N_of_ascii c in
          if (n =? 34)%N then
            match string_body r with
            | Some (b, rest) => Some (JStr b, rest)
            | None => None
            end
          else if (n =? 91)%N then
            match skip_ws r with
            | String c' r' =>
                if (N_of_ascii c' =? 93)%N then Some (JArr [], r')
                else elements fuel' r
            | EmptyString => None
            end
          else if (n =? 123)%N then
            match skip_ws r with
            | String c' r' =>
                if (N_of_ascii c' =? 125)%N then Some (JObj [], r')
                else members fuel' r
            | EmptyString => None
            end
          else if (n =? 45)%N then
            match r with
            | String d _ =>
                if is_digit d
                then let (z, rest) := digits 0 r in
                     match number_of_Z (- z) with
                     | Some n => Some (JNum n, rest)
                     | None => None
                     end
                else None
            | EmptyString => None
            end
          else if is_digit c then
            let (z, rest) := digits 0 (String c r) in
            match number_of_Z z with
            | Some n => Some (JNum n, rest)
            | None => None
            end
          else if (n =? 116)%N then literal "true" (JBool true) (String c r)
          else if (n =? 102)%N then literal "false" (JBool false) (String c r)
          else if (n =? 110)%N then literal "null" JNull (String c r)
          else None
      end
  end
with elements (fuel : nat) (s : string) : option (JSValue * string) :=
  match fuel with
  | O => None
  | S fuel' =>
      match value fuel' s with
      | Some (v, rest) =>
          match skip_ws rest with
          | String c r =>
              if (N_of_ascii c =? 93)%N then Some (JArr [v], r)
              else if (N_of_ascii c =? 44)%N then
                match elements fuel' r with
                | Some (JArr vs, rest') => Some (JArr (v :: vs), rest')
                | _ => None
                end
              else None
          | EmptyString => None
          end
      | None => None
      end
  end
with members (fuel : nat) (s : string) : option (JSValue * string) :=
  match fuel with
  | O => None
  | S fuel' =>
      match skip_ws s with
      | String q r =>
          if (N_of_ascii q =? 34)%N then
            match string_body r with
            | Some (k, rest) =>
                match skip_ws rest with
                | String c r1 =>
                    if (N_of_ascii c =? 58)%N then
                      match value fuel' r1 with
                      | Some (v, rest1) =>
                          match skip_ws rest1 with
                          | String c2 r2 =>
                              if (N_of_ascii c2 =? 125)%N then Some (JObj [(k, v)], r2)
                              else if (N_of_ascii c2 =? 44)%N then
                                match members fuel' r2 with
                                | Some (JObj kvs, rest2) =>
                                    Some (JObj ((k, v) :: kvs), rest2)
                                | _ => None
                                end
                              else None
                          | EmptyString => None
                          end
                      | None => None
                      end
                    else None
                | EmptyString => None
                end
            | None => None
            end
          else None
      | EmptyString => None
      end
  end.

Definition parse (s : string) : option JSValue :=
  match value (S (String.length s)) s with
  | Some (v, rest) =>
      match skip_ws rest with
      | EmptyString => Some v
      | String _ _ => None
      end
  | None => None
  end.

Definition externals : Externals :=
  mkExternals unit string unit unit JSValue unit unit.

(** The operation a query text resolves to. *)
Definition resolve (q : option string) : option OperationTypeNode :=
  match q with
  | None => None
  | Some text =>
      Some (if String.prefix "mutation" text then MUTATION
            else if String.prefix "subscription" text then SUBSCRIPTION
            else QUERY)
  end.

Definition pipeline (options : GraphQLServerOptions externals)
    (rc : GraphQLRequestContext externals) : PipelineResult :=
  let shared := rc_response_http rc in
  match resolve (query (rc_request rc)) with
  | None =>
      mkPipelineResult
        (Ret (mkGraphQLResponse
                (JArr [JObj [("message", JStr "Must provide query string.")]])
                JUndefined JUndefined (Some shared)))
        shared
  | Some operation =>
      match run_didResolveOperation
              (match o_plugins options with Some l => l | None => [] end)
              operation with
      | Throw e => mkPipelineResult (Throw e) shared
      | Ret _ =>
          mkPipelineResult
            (Ret (mkGraphQLResponse JUndefined
                    (JObj [("hello", JStr "world")]) JUndefined (Some shared)))
            shared
      end
  end.

Definition format (errors : list Exn) (debug : option bool) (formatter : option unit)
  : JSValue :=
  JArr (map (fun e => JObj [("message", JStr (message_of e))]) errors).

Definition collaborators : Collaborators externals :=
  @mkCollaborators externals pipeline format parse "" "console" tt.

Definition options : GraphQLServerOptions externals :=
  @mkOptions externals None None None None tt None None tt.

Definition world : World externals := @mkWorld externals options CallerObject None [].

Definition post (b : JSValue) : HTTPGraphQLRequest := mkRequest "POST" b JUndefined [].

Definition get (params : JSValue) : HTTPGraphQLRequest :=
  mkRequest "GET" JUndefined params [].

(** The context value of the caller: an object without fields. *)
Definition context : JSValue := JObj [].

Definition run (req : HTTPGraphQLRequest) : Outcome Exn HTTPGraphQLResponse :=
  fst (@runHttpQuery externals collaborators req context world).

(** The same setting around another pipeline. *)
Definition collaborators_with
    (p : GraphQLServerOptions externals -> GraphQLRequestContext externals
         -> PipelineResult) : Collaborators externals :=
  @mkCollaborators externals p format parse "" "console" tt.

Definition syntax_errors : JSValue :=
  JArr [JObj [("message", JStr "Syntax Error: Unexpected <EOF>.")]].

(** A pipeline that reports a parse failure and hands back an [http] part of
    its own, a plain [Map] with a header name as a proxy wrote it. *)
Definition pipeline_foreign_headers (options : GraphQLServerOptions externals)
    (rc : GraphQLRequestContext externals) : PipelineResult :=
  mkPipelineResult
    (Ret (mkGraphQLResponse syntax_errors JUndefined JUndefined
            (Some (mkPartial [("X-Request-Id", "42")] None))))
    (rc_response_http rc).

(** A pipeline that reports a parse failure after the status code of the
    shared partial response was set to 0. *)
Definition pipeline_status_zero (options : GraphQLServerOptions externals)
    (rc : GraphQLRequestContext externals) : PipelineResult :=
  let shared := mkPartial (p_headers (rc_response_http rc)) (Some 0%Z) in
  mkPipelineResult
    (Ret (mkGraphQLResponse syntax_errors JUndefined JUndefined (Some shared)))
    shared.

(** A pipeline that reports a parse failure in a result without [http]. *)
Definition pipeline_without_http (options : GraphQLServerOptions externals)
    (rc : GraphQLRequestContext externals) : PipelineResult :=
  mkPipelineResult
    (Ret (mkGraphQLResponse syntax_errors JUndefined JUndefined None))
    (rc_response_http rc).

(** A pipeline that throws. *)
Definition pipeline_throws (e : Exn) (options : GraphQLServerOptions externals)
    (rc : GraphQLRequestContext externals) : PipelineResult :=
  mkPipelineResult (Throw e) (rc_response_http rc).

Definition teapot : Exn :=
  lift_new (HttpQueryError_with_headers 418 "I'm a teapot"
              [("content-type", "text/html"); ("retry-after", "60")]).

Definition boom : Exn := ExnError (Error_new "boom").

(** An [HttpQueryError] whose [headers] field was assigned a plain [Map]
    after its construction, with a header name as a proxy writes it. *)
Definition forbidden : Exn :=
  ExnHttpQuery (mkHttpQueryError 403 "Forbidden" false [("X-Reason", "policy")]).

(** A pipeline whose execution met a field error: its result has errors,
    data and extensions. *)
Definition field_errors : JSValue :=
  JArr [JObj [("message", JStr "Cannot return null")]].

Definition one : Number := mkNumber 1 eq_refl.

Definition pipeline_field_error (options : GraphQLServerOptions externals)
    (rc : GraphQLRequestContext externals) : PipelineResult :=
  mkPipelineResult
    (Ret (mkGraphQLResponse field_errors (JObj [("hello", JNull)])
            (JObj [("cost", JNum one)]) (Some (rc_response_http rc))))
    (rc_response_http rc).

(** [s] between double quotes. *)
Definition quoted (s : string) : string :=
  String "034"%char (s ++ String "034"%char "").

End Sample.

(** ** How a run of the adapter unfolds *)

Section Runs.

Variable X : Externals.
Variable C : Collaborators X.

(** The caller's options object once lines 157-159 have run. *)
Definition defaulted (o : GraphQLServerOptions X) : GraphQLServerOptions X :=
  match o_debug o with
  | None =>
      mkOptions (Some (debugFromNodeEnv (NODE_ENV C) (o_nodeEnv o)))
                (o_nodeEnv o) (o_plugins o) (o_logger o) (o_schema o)
                (o_cache o) (o_formatError o) (o_rest o)
  | Some _ => o
  end.

(** The state in which the [switch] is entered. *)
Definition started (w : World X) : World X :=
  mkWorld (defaulted (w_options w)) CallerObject None (w_trace w).

(** The object the variable [options] refers to. *)
Definition current_options (w : World X) : GraphQLServerOptions X :=
  match w_options_var w with
  | CallerObject => w_options w
  | LocalCopy o => o
  end.

(** The partial response as line 251 creates it. *)
Definition fresh_partial : PartialResponse :=
  mkPartial [("content-type", "application/json")] None.

(** The state the pipeline's call leaves behind. *)
Definition after_pipeline (req : HTTPGraphQLRequest) (ctx : Context X)
    (g : GraphQLRequest) (w : World X) : World X :=
  let lo := local_options req (w_options w) in
  let rc := new_requestContext C lo g fresh_partial ctx in
  mkWorld (w_options w) (LocalCopy lo)
          (Some (pr_partial (processGraphQLRequest C lo rc)))
          (w_trace w ++ [EvPipeline lo rc])%list.

Definition pipeline_outcome (req : HTTPGraphQLRequest) (ctx : Context X)
    (g : GraphQLRequest) (o : GraphQLServerOptions X) : Outcome Exn GraphQLResponse :=
  let lo := local_options req o in
  pr_outcome (processGraphQLRequest C lo (new_requestContext C lo g fresh_partial ctx)).

Lemma execute_run (req : HTTPGraphQLRequest) (ctx : Context X) (g : GraphQLRequest)
    (o : GraphQLServerOptions X) (tr : list (Event X)) :
  runHttpQuery_execute C req ctx g (mkWorld o CallerObject None tr) =
  (pipeline_outcome req ctx g o, after_pipeline req ctx g (mkWorld o CallerObject None tr)).
Proof. reflexivity. Qed.

(** The response of the [catch] handler when it returns one, what the
    handler gives, and the state it leaves. *)
Definition caught_response (e : Exn) (w : World X) : HTTPGraphQLResponse :=
  match e with
  | ExnHttpQuery q =>
      mkResponse (Some (hq_statusCode q)) (HttpQueryErrorOps.response_headers q)
                 (Some (hq_message q)) None
  | ExnError _ | ExnPrimitive _ =>
      mkResponse (Some 500%Z) [("content-type", "application/json")]
        (Some (prettyJSONStringify
                 (JObj [("errors",
                         formatApolloErrors C [e] (o_debug (current_options w))
                           (o_formatError (current_options w)))])))
        None
  end.

Definition caught_outcome (e : Exn) (w : World X)
  : Outcome Exn HTTPGraphQLResponse :=
  match e with
  | ExnHttpQuery q =>
      match HttpQueryErrorOps.asHTTPGraphQLResponse q with
      | Ret r => Ret r
      | Throw x => Throw (ExnError x)
      end
  | ExnError _ | ExnPrimitive _ => Ret (caught_response e w)
  end.

(** The names of the headers of a thrown [HttpQueryError] are lower-case. *)
Definition lower_headers (e : Exn) : bool :=
  match e with
  | ExnHttpQuery q => MapOps.all_lower (hq_headers q)
  | ExnError _ | ExnPrimitive _ => true
  end.

Lemma caught_outcome_lower (e : Exn) (w : World X) :
  lower_headers e = true -> caught_outcome e w = Ret (caught_response e w).
Proof.
  destruct e as [q|x|p]; simpl; intro L; try reflexivity.
  rewrite HttpQueryErrorOps.asHTTPGraphQLResponse_lower by exact L. reflexivity.
Qed.

Definition caught_world (e : Exn) (w : World X) : World X :=
  match e with
  | ExnHttpQuery _ => w
  | ExnError _ | ExnPrimitive _ =>
      mkWorld (w_options w) (w_options_var w) (w_partial w)
              (w_trace w ++ [EvFormat [e] (o_debug (current_options w))
                                      (o_formatError (current_options w))])%list
  end.

Lemma catch_run (e : Exn) (w : World X) :
  runHttpQuery_catch C e w = (caught_outcome e w, caught_world e w).
Proof.
  destruct e as [q|x|p]; simpl.
  - unfold lift_error. destruct (HttpQueryErrorOps.asHTTPGraphQLResponse q); reflexivity.
  - reflexivity.
  - reflexivity.
Qed.

(** The response of lines 289-317 and the partial response they leave. *)
Definition preexecution (response : GraphQLResponse) : bool :=
  JS.truthy (r_errors response)
  && String.eqb (JS.typeof (r_data response)) "undefined".

Definition normal_body (response : GraphQLResponse) : string :=
  prettyJSONStringify (serializeGraphQLResponse response).

Definition with_content_length (p : PartialResponse) (body : string) : PartialResponse :=
  mkPartial (MapOps.set (p_headers p) "content-length"
                        (Str.of_N (N.of_nat (String.length body))))
            (p_statusCode p).

Lemma respond_normal (response : GraphQLResponse) (o : GraphQLServerOptions X)
    (v : OptionsVar X) (p : PartialResponse) (tr : list (Event X)) :
  preexecution response = false ->
  runHttpQuery_respond response (mkWorld o v (Some p) tr) =
  (Ret (mkResponse (p_statusCode p)
                   (p_headers (with_content_length p (normal_body response)))
                   (Some (normal_body response)) None),
   mkWorld o v (Some (with_content_length p (normal_body response))) tr).
Proof.
  intro H. unfold runHttpQuery_respond. fold (preexecution response). rewrite H.
  reflexivity.
Qed.

Lemma respond_preexecution (response : GraphQLResponse) (w : World X) :
  preexecution response = true ->
  runHttpQuery_respond response w =
  match preexecution_headers (r_http response) with
  | Ret hs =>
      (Ret (mkResponse (Some (status_or_400 (r_http response))) (hm_entries hs)
              (Some (prettyJSONStringify
                       (JObj [("errors", r_errors response);
                              ("extensions", r_extensions response)])))
              None), w)
  | Throw e => (Throw e, w)
  end.
Proof.
  intro H. unfold runHttpQuery_respond. fold (preexecution response). rewrite H.
  unfold bind, lift, ret. destruct (preexecution_headers (r_http response)); reflexivity.
Qed.

(** The state a call starts in. *)
Definition entered (w : World X) : World X :=
  mkWorld (w_options w) CallerObject None (w_trace w).

(** The [try] block, by what the [switch] gives. *)
Lemma try_run (req : HTTPGraphQLRequest) (ctx : Context X) (w : World X) :
  runHttpQuery_try C req ctx (entered w) =
  match runHttpQuery_switch C req with
  | Throw e => (Throw e, started w)
  | Ret (inl early) => (Ret early, started w)
  | Ret (inr g) =>
      match pipeline_outcome req ctx g (defaulted (w_options w)) with
      | Throw e => (Throw e, after_pipeline req ctx g (started w))
      | Ret response =>
          runHttpQuery_respond response (after_pipeline req ctx g (started w))
      end
  end.
Proof.
  unfold runHttpQuery_try, bind, read_options, lift, entered. simpl.
  assert (D : (match o_debug (w_options w) with
               | Some _ => ret tt
               | None => write_debug (debugFromNodeEnv (NODE_ENV C) (o_nodeEnv (w_options w)))
               end) (mkWorld (w_options w) CallerObject None (w_trace w))
              = (Ret tt, started w)).
  { unfold started, defaulted. destruct (o_debug (w_options w)) eqn:E; simpl.
    - reflexivity.
    - reflexivity. }
  rewrite D. destruct (runHttpQuery_switch C req) as [[early|g]|e]; reflexivity.
Qed.

Lemma runHttpQuery_try_catch (req : HTTPGraphQLRequest) (ctx : Context X) (w : World X) :
  runHttpQuery C req ctx w =
  match runHttpQuery_try C req ctx (entered w) with
  | (Ret r, w1) => (Ret r, w1)
  | (Throw e, w1) => (caught_outcome e w1, caught_world e w1)
  end.
Proof.
  unfold runHttpQuery, try_catch, bind, enter. simpl. fold (entered w).
  destruct (runHttpQuery_try C req ctx (entered w)) as [[r|e] w1]; [reflexivity|].
  apply catch_run.
Qed.

(** The whole run, by what the [switch] gives. *)
Lemma runHttpQuery_run (req : HTTPGraphQLRequest) (ctx : Context X) (w : World X) :
  runHttpQuery C req ctx w =
  match runHttpQuery_switch C req with
  | Throw e => (caught_outcome e (started w), caught_world e (started w))
  | Ret (inl early) => (Ret early, started w)
  | Ret (inr g) =>
      let w1 := after_pipeline req ctx g (started w) in
      match pipeline_outcome req ctx g (defaulted (w_options w)) with
      | Throw e => (caught_outcome e w1, caught_world e w1)
      | Ret response =>
          match runHttpQuery_respond response w1 with
          | (Ret r, w2) => (Ret r, w2)
          | (Throw e, w2) => (caught_outcome e w2, caught_world e w2)
          end
      end
  end.
Proof.
  rewrite runHttpQuery_try_catch, try_run.
  destruct (runHttpQuery_switch C req) as [[early|g]|e]; try reflexivity.
  simpl. destruct (pipeline_outcome _ _ _ _); reflexivity.
Qed.

(** Lines 289-317 leave everything but the partial response as it is. *)
Lemma respond_frame (response : GraphQLResponse) (w w2 : World X)
    (r : Outcome Exn HTTPGraphQLResponse) :
  runHttpQuery_respond response w = (r, w2) ->
  w_options w2 = w_options w /\ w_options_var w2 = w_options_var w /\
  w_trace w2 = w_trace w.
Proof.
  unfold runHttpQuery_respond.
  destruct (JS.truthy (r_errors response) && _)%bool.
  - unfold bind, lift, ret. destruct (preexecution_headers _);
      intro H; injection H as _ <-; auto.
  - unfold bind, set_partial_header, read_partial, ret.
    destruct (w_partial w); simpl; intro H; injection H as _ <-; auto.
Qed.

(** Whatever the [try] block does, the variable [options] ends on an object
    with the [debug] and [formatError] the caller's object has after line
    159, the caller's object is that one, and the trace has grown. *)
Lemma try_frame (req : HTTPGraphQLRequest) (ctx : Context X) (w w1 : World X)
    (r : Outcome Exn HTTPGraphQLResponse) :
  runHttpQuery_try C req ctx (entered w) = (r, w1) ->
  w_options w1 = defaulted (w_options w) /\
  o_debug (current_options w1) = o_debug (defaulted (w_options w)) /\
  o_formatError (current_options w1) = o_formatError (w_options w) /\
  exists evs, w_trace w1 = (w_trace w ++ evs)%list /\
    forall errs d f, ~ In (EvFormat errs d f) evs.
Proof.
  rewrite try_run.
  assert (F : o_formatError (defaulted (w_options w)) = o_formatError (w_options w)).
  { unfold defaulted. destruct (o_debug (w_options w)); reflexivity. }
  assert (S0 : forall r0, (r0, started w) = (r, w1) ->
     w_options w1 = defaulted (w_options w) /\
     o_debug (current_options w1) = o_debug (defaulted (w_options w)) /\
     o_formatError (current_options w1) = o_formatError (w_options w) /\
     exists evs, w_trace w1 = (w_trace w ++ evs)%list /\
       forall errs d f, ~ In (EvFormat errs d f) evs).
  { intros r0 H. injection H as _ <-. simpl. repeat split; auto.
    exists []. split; [now rewrite app_nil_r | intros ? ? ? []]. }
  destruct (runHttpQuery_switch C req) as [[early|g]|e]; try (apply S0).
  assert (S1 : forall w2,
     w_options w2 = w_options (after_pipeline req ctx g (started w)) ->
     w_options_var w2 = w_options_var (after_pipeline req ctx g (started w)) ->
     w_trace w2 = w_trace (after_pipeline req ctx g (started w)) ->
     w_options w2 = defaulted (w_options w) /\
     o_debug (current_options w2) = o_debug (defaulted (w_options w)) /\
     o_formatError (current_options w2) = o_formatError (w_options w) /\
     exists evs, w_trace w2 = (w_trace w ++ evs)%list /\
       forall errs d f, ~ In (EvFormat errs d f) evs).
  { intros w2 E1 E2 E3. unfold current_options. rewrite E1, E2, E3. simpl.
    repeat split; auto. eexists. split; [reflexivity|].
    intros errs d f [H|[]]. discriminate. }
  destruct (pipeline_outcome _ _ _ _) as [response|e].
  - intro H. apply respond_frame in H. destruct H as [E1 [E2 E3]]. now apply S1.
  - intro H. injection H as _ <-. now apply S1.
Qed.

End Runs.

(** ** The Header Collection *)

(** C2, as the code has it.  [set] on a [HeaderMap] throws for every name
    with a character that has a lower-case form, and these are the names
    [toLowerCase] changes; among the names of ASCII characters they are the
    names that contain an upper-case letter.  For every other name it
    returns, and then [get] of that name gives the value that was stored, as
    it was stored; the other names keep their values; a name the map already
    had keeps its place in the iteration order, and a new name goes to the
    end.  [has], [delete] and the iteration are those of a map whose keys
    are distinct and kept in insertion order. *)
Theorem HeaderMap_set_contract (m : HeaderMap) (name value : string) :
  (Str.has_upper name = true ->
   HeaderMapOps.set m name value =
   Throw (Error_new ("Headers must be lower-case, unlike " ++ name))) /\
  (Str.has_upper name = true <-> Str.toLowerCase name <> name) /\
  (Str.is_ascii name = true ->
   Str.has_upper name = Str.contains_upper_case name) /\
  (Str.has_upper name = false ->
   exists m',
     HeaderMapOps.set m name value = Ret m' /\
     HeaderMapOps.get m' name = Some value /\
     (forall k, k <> name -> HeaderMapOps.get m' k = HeaderMapOps.get m k) /\
     HeaderMapOps.keys m' =
       (if HeaderMapOps.has m name then HeaderMapOps.keys m
        else HeaderMapOps.keys m ++ [name])%list) /\
  NoDup (HeaderMapOps.keys m) /\
  (forall k, HeaderMapOps.has m k = true <-> In k (HeaderMapOps.keys m)) /\
  (forall k v, In (k, v) (HeaderMapOps.entries m) <-> HeaderMapOps.get m k = Some v) /\
  (forall k,
     HeaderMapOps.get (HeaderMapOps.delete m k) k = None /\
     (forall k', k' <> k ->
        HeaderMapOps.get (HeaderMapOps.delete m k) k' = HeaderMapOps.get m k') /\
     HeaderMapOps.keys (HeaderMapOps.delete m k) =
       filter (fun a => negb (String.eqb a k)) (HeaderMapOps.keys m)).
Proof.
  pose proof (HeaderMapOps.distinct m) as ND.
  split; [apply HeaderMapOps.set_upper|].
  split.
  { pose proof (Str.toLowerCase_fixed name) as F.
    destruct (Str.has_upper name); split; intro H.
    - intro K. apply F in K. discriminate K.
    - reflexivity.
    - discriminate H.
    - exfalso. apply H. now apply F. }
  split.
  { intro A. destruct (Str.has_upper_ascii name A) as [E1 E2]. congruence. }
  split.
  { intro L. destruct (HeaderMapOps.set_lower m name value L) as [m' [E1 E2]].
    exists m'. split; [assumption|].
    unfold HeaderMapOps.get, HeaderMapOps.keys, HeaderMapOps.has. rewrite E2.
    split; [apply MapOps.get_set_same|].
    split; [intros k N; apply MapOps.get_set_other; congruence|].
    destruct (MapOps.has (hm_entries m) name) eqn:H.
    - apply MapOps.keys_set_present. now apply MapOps.has_keys.
    - apply MapOps.keys_set_absent. rewrite <- MapOps.has_keys. congruence. }
  split; [assumption|].
  split; [intro k; apply MapOps.has_keys|].
  split.
  { intros k v. unfold HeaderMapOps.entries, HeaderMapOps.get, MapOps.entries. split.
    - now apply MapOps.get_in.
    - generalize (hm_entries m). intro l. induction l as [|[a b] r IH]; simpl.
      + discriminate.
      + destruct (String.eqb a k) eqn:E.
        * apply String.eqb_eq in E. intro H. injection H as ->. subst. auto.
        * auto. }
  intro k. unfold HeaderMapOps.get, HeaderMapOps.keys, HeaderMapOps.delete. simpl.
  split; [now apply MapOps.get_delete_same|].
  split; [intros k' N; apply MapOps.get_delete_other; congruence|].
  now apply MapOps.keys_delete.
Qed.

Lemma HeaderMap_set_contract_witness :
  let etag := String "195"%char (String "137"%char "tag") in
  Str.has_upper "Content-Type" = true /\
  HeaderMapOps.set HeaderMapOps.empty "Content-Type" "text/html" =
    Throw (Error_new "Headers must be lower-case, unlike Content-Type") /\
  Str.has_upper etag = true /\
  HeaderMapOps.set HeaderMapOps.empty etag "x" =
    Throw (Error_new ("Headers must be lower-case, unlike " ++ etag)) /\
  Str.is_ascii "Content-Type" = true /\
  Str.contains_upper_case "Content-Type" = true /\
  Str.has_upper "content-type" = false /\
  exists m',
    HeaderMapOps.set HeaderMapOps.empty "content-type" "text/html" = Ret m' /\
    HeaderMapOps.get m' "content-type" = Some "text/html".
Proof.
  intro etag.
  assert (U1 : Str.has_upper "Content-Type" = true) by (vm_compute; reflexivity).
  assert (U2 : Str.has_upper etag = true) by (vm_compute; reflexivity).
  assert (A : Str.is_ascii "Content-Type" = true) by reflexivity.
  split; [exact U1|].
  split.
  { exact (proj1 (HeaderMap_set_contract HeaderMapOps.empty "Content-Type" "text/html")
                 U1). }
  split; [exact U2|].
  split.
  { exact (proj1 (HeaderMap_set_contract HeaderMapOps.empty etag "x") U2). }
  split; [exact A|].
  split.
  { rewrite <- (proj1 (proj2 (proj2 (HeaderMap_set_contract HeaderMapOps.empty
                                       "Content-Type" "text/html"))) A).
    exact U1. }
  split; [vm_compute; reflexivity|].
  destruct (proj1 (proj2 (proj2 (proj2 (HeaderMap_set_contract HeaderMapOps.empty
                                          "content-type" "text/html"))))
                  eq_refl)
    as [m' [E [G _]]].
  exists m'. split; assumption.
Defined.

(** C2 as the spec states it fails at a name with an upper-case letter that
    has no lower-case form, such as U+2102, the double-struck capital C:
    [toLowerCase] leaves the name as it is, so [set] returns and the name is
    stored. *)
Lemma HeaderMap_set_counterexample :
  let name := String "226"%char (String "132"%char (String "130"%char "")) in
  Str.chars name = [name] /\
  Str.code_point name = 8450%N /\
  Str.contains_upper_case name = true /\
  Str.toLowerCase name = name /\
  exists m',
    HeaderMapOps.set HeaderMapOps.empty name "x" = Ret m' /\
    HeaderMapOps.get m' name = Some "x".
Proof.
  intro name.
  split; [reflexivity|]. split; [reflexivity|].
  split; [vm_compute; reflexivity|]. split; [vm_compute; reflexivity|].
  assert (L : Str.has_upper name = false) by (vm_compute; reflexivity).
  destruct (HeaderMapOps.set_lower HeaderMapOps.empty name "x" L) as [m' [E1 E2]].
  exists m'. split; [exact E1|].
  unfold HeaderMapOps.get. rewrite E2. apply MapOps.get_set_same.
Qed.

Arguments defaulted {X}.
Arguments started {X}.
Arguments entered {X}.
Arguments current_options {X}.
Arguments after_pipeline {X}.
Arguments pipeline_outcome {X}.
Arguments caught_response {X}.
Arguments caught_outcome {X}.
Arguments caught_world {X}.

(** The headers of the response of an [HttpQueryError]: the error's own
    headers are read back from it, and [content-type] is [text/plain] unless
    the error has its own. *)
Lemma response_headers_get (q : HttpQueryError) (k : string) :
  NoDup (MapOps.keys (hq_headers q)) ->
  MapOps.get (HttpQueryErrorOps.response_headers q) k =
  match MapOps.get (hq_headers q) k with
  | Some v => Some v
  | None => if String.eqb "content-type" k then Some "text/plain" else None
  end.
Proof.
  intro D. unfold HttpQueryErrorOps.response_headers.
  rewrite MapOps.get_fold_set by exact D.
  reflexivity.
Qed.

(** The constructor stops at the first name that is not lower-case. *)
Lemma HeaderMap_new_first_upper (it : list (string * string)) :
  MapOps.all_lower it = false ->
  exists pre k v post,
    it = (pre ++ (k, v) :: post)%list /\
    MapOps.all_lower pre = true /\
    Str.has_upper k = true /\
    HeaderMapOps.new it = Throw (HeaderMapOps.lowercase_error k).
Proof.
  unfold HeaderMapOps.new. generalize HeaderMapOps.empty.
  induction it as [|[k v] r IH]; simpl; intros m L; [discriminate|].
  destruct (Str.has_upper k) eqn:U.
  - exists [], k, v, r. repeat split; [assumption|].
    now rewrite HeaderMapOps.set_upper.
  - destruct (HeaderMapOps.set_lower m k v U) as [m1 [E1 _]]. rewrite E1.
    pose proof (Str.eqb_lower_true k U) as K. rewrite K in L. simpl in L.
    destruct (IH m1 L) as [pre [k' [v' [post [-> [P [U' T]]]]]]].
    exists ((k, v) :: pre), k', v', post. repeat split; try assumption.
    simpl. now rewrite K.
Qed.

(** The conversion of an [HttpQueryError] whose headers hold a name that is
    not lower-case throws the error of [set] for the first such name. *)
Lemma asHTTPGraphQLResponse_first_upper (q : HttpQueryError) :
  MapOps.all_lower (hq_headers q) = false ->
  exists pre k v post,
    hq_headers q = (pre ++ (k, v) :: post)%list /\
    MapOps.all_lower pre = true /\
    Str.has_upper k = true /\
    HttpQueryErrorOps.asHTTPGraphQLResponse q = Throw (HeaderMapOps.lowercase_error k).
Proof.
  intro L. unfold HttpQueryErrorOps.asHTTPGraphQLResponse, MapOps.entries.
  destruct (HeaderMap_new_first_upper (("content-type", "text/plain") :: hq_headers q))
    as [pre [k [v [post [E [P [U T]]]]]]]; [exact L|].
  destruct pre as [|[k0 v0] pre].
  - simpl in E. injection E as E1 E2 E3. subst k. discriminate U.
  - simpl in E. injection E as E1 E2 E3. exists pre, k, v, post.
    rewrite T. repeat split; try assumption.
    simpl in P. apply andb_true_iff in P. apply P.
Qed.

(** ** The adapter *)

Section Claims.

Variable X : Externals.
Variable C : Collaborators X.

(** What the handler of lines 318-334 makes of what the [try] block gives.
    A response is returned as it is.  A thrown [HttpQueryError] whose header
    names are lower-case becomes its own response, with its status code, its
    message as the body, and the headers obtained by applying its own
    headers on top of [content-type: text/plain], so that a [content-type]
    of the error replaces the default.  A thrown value that is not an
    [HttpQueryError] becomes status 500 with
    [content-type: application/json] and the envelope whose [errors] is what
    [formatApolloErrors] gives for it under the [debug] and [formatError] of
    the options. *)
Lemma runHttpQuery_handled (req : HTTPGraphQLRequest) (ctx : Context X) (w : World X) :
  match runHttpQuery_try C req ctx (entered w) with
  | (Ret r, w1) => runHttpQuery C req ctx w = (Ret r, w1)
  | (Throw (ExnHttpQuery q), w1) =>
      MapOps.all_lower (hq_headers q) = true ->
      NoDup (MapOps.keys (hq_headers q)) ->
      exists resp,
        runHttpQuery C req ctx w = (Ret resp, w1) /\
        statusCode resp = Some (hq_statusCode q) /\
        completeBody resp = Some (hq_message q) /\
        bodyChunks resp = None /\
        headers resp =
          fold_left (fun a kv => MapOps.set a (fst kv) (snd kv))
                    (hq_headers q) [("content-type", "text/plain")] /\
        MapOps.get (headers resp) "content-type" =
          Some (match MapOps.get (hq_headers q) "content-type" with
                | Some v => v
                | None => "text/plain"
                end) /\
        (forall k v, MapOps.get (hq_headers q) k = Some v ->
                     MapOps.get (headers resp) k = Some v)
  | (Throw e, w1) =>
      let debug := o_debug (defaulted C (w_options w)) in
      let formatter := o_formatError (w_options w) in
      runHttpQuery C req ctx w =
      (Ret (mkResponse (Some 500%Z) [("content-type", "application/json")]
              (Some (envelope_text
                       (JSON.stringify (formatApolloErrors C [e] debug formatter))
                       None None ++ newline))
              None),
       mkWorld (w_options w1) (w_options_var w1) (w_partial w1)
               (w_trace w1 ++ [EvFormat [e] debug formatter])%list)
  end.
Proof.
  rewrite runHttpQuery_try_catch.
  destruct (runHttpQuery_try C req ctx (entered w)) as [[r|[q|x|p]] w1] eqn:T.
  - reflexivity.
  - intros L D. rewrite caught_outcome_lower by exact L.
    eexists. split; [reflexivity|]. simpl.
    repeat split.
    + rewrite response_headers_get by exact D.
      destruct (MapOps.get _ _); reflexivity.
    + intros k v H. rewrite response_headers_get by exact D. now rewrite H.
  - apply try_frame in T. destruct T as [_ [E1 [E2 _]]].
    unfold caught_outcome, caught_response, caught_world. rewrite E1, E2.
    rewrite prettyJSONStringify_errors. reflexivity.
  - apply try_frame in T. destruct T as [_ [E1 [E2 _]]].
    unfold caught_outcome, caught_response, caught_world. rewrite E1, E2.
    rewrite prettyJSONStringify_errors. reflexivity.
Qed.

(** C1.  [runHttpQuery] does not return a response for every input, against
    the comment above it (line 150) that it should not throw.  When the
    [try] block throws an [HttpQueryError] whose [headers] hold a name that
    is not lower-case, [error.asHTTPGraphQLResponse()] in the handler throws
    the error of [HeaderMap.set] for the first such name, no handler is
    left, and [runHttpQuery] throws that error. *)
Theorem runHttpQuery_throws (req : HTTPGraphQLRequest) (ctx : Context X)
    (w w1 : World X) (q : HttpQueryError) :
  runHttpQuery_try C req ctx (entered w) = (Throw (ExnHttpQuery q), w1) ->
  MapOps.all_lower (hq_headers q) = false ->
  exists pre k v post,
    hq_headers q = (pre ++ (k, v) :: post)%list /\
    MapOps.all_lower pre = true /\
    Str.has_upper k = true /\
    runHttpQuery C req ctx w =
      (Throw (ExnError (Error_new ("Headers must be lower-case, unlike " ++ k))), w1).
Proof.
  intros T L. rewrite runHttpQuery_try_catch, T.
  destruct (asHTTPGraphQLResponse_first_upper q L) as [pre [k [v [post [E [P [U A]]]]]]].
  exists pre, k, v, post. repeat split; try assumption.
  unfold caught_outcome. rewrite A. reflexivity.
Qed.

(** C3.  A request whose method is neither [GET] nor [POST] is answered
    with status 405, the header [allow: GET, POST] and the message about
    GET/POST requests as its body; no collaborator is called, the pipeline in
    particular. *)
Theorem other_methods_405 (req : HTTPGraphQLRequest) (ctx : Context X) (w : World X) :
  method req <> "GET" ->
  method req <> "POST" ->
  exists w',
    runHttpQuery C req ctx w =
      (Ret (mkResponse (Some 405%Z)
              [("content-type", "text/plain"); ("allow", "GET, POST")]
              (Some "Apollo Server supports only GET/POST requests.") None),
       w') /\
    MapOps.get [("content-type", "text/plain"); ("allow", "GET, POST")] "allow"
      = Some "GET, POST" /\
    Str.contains "Apollo Server supports only GET/POST requests."
                 "supports only GET/POST requests" /\
    w_trace w' = w_trace w /\
    (forall options rc, ~ In (EvPipeline options rc) (w_trace w) ->
                        ~ In (EvPipeline options rc) (w_trace w')).
Proof.
  intros G P. apply String.eqb_neq in G. apply String.eqb_neq in P.
  exists (started C w). rewrite runHttpQuery_run.
  unfold runHttpQuery_switch. rewrite G, P.
  repeat split.
  - exists "Apollo Server ", ".". reflexivity.
  - auto.
Qed.

(** The spec's "non-empty string-keyed mapping": an object, neither an array
    nor a byte buffer, with at least one key. *)
Definition is_nonempty_mapping (v : JSValue) : bool :=
  match v with
  | JObj (_ :: _) => true
  | _ => false
  end.

Lemma isNonEmptyStringRecord_mapping (v : JSValue) :
  JS.truthy (isNonEmptyStringRecord v) = is_nonempty_mapping v.
Proof.
  destruct v as [| |b|n|s|l|fs|bs]; try reflexivity.
  - destruct b; reflexivity.
  - destruct n as [[| |] ?]; reflexivity.
  - destruct s; reflexivity.
  - destruct fs; reflexivity.
Qed.

(** C4.  A [POST] request whose body is not a non-empty string-keyed mapping
    (a missing or null body, an object without keys, an array and a byte
    buffer are such bodies) is answered with status 400 and the message
    about the POST body; no collaborator is called, the pipeline in
    particular. *)
Theorem post_body_400 (req : HTTPGraphQLRequest) (ctx : Context X) (w : World X) :
  method req = "POST" ->
  is_nonempty_mapping (body req) = false ->
  (exists w',
     runHttpQuery C req ctx w =
       (Ret (mkResponse (Some 400%Z) [("content-type", "text/plain")]
               (Some "POST body missing, invalid Content-Type, or JSON object has no keys.")
               None),
        w') /\
     w_trace w' = w_trace w /\
     (forall options rc, ~ In (EvPipeline options rc) (w_trace w) ->
                         ~ In (EvPipeline options rc) (w_trace w'))) /\
  is_nonempty_mapping JUndefined = false /\
  is_nonempty_mapping JNull = false /\
  is_nonempty_mapping (JObj []) = false /\
  (forall items, is_nonempty_mapping (JArr items) = false) /\
  (forall bytes, is_nonempty_mapping (JBuffer bytes) = false).
Proof.
  intros P B. split; [|repeat split].
  exists (started C w). rewrite runHttpQuery_run.
  unfold runHttpQuery_switch. rewrite P. simpl.
  rewrite isNonEmptyStringRecord_mapping, B. simpl.
  repeat split. auto.
Qed.

(** The plugins the options object configures: [options.plugins ?? []]. *)
Definition configured_plugins (o : GraphQLServerOptions X) : list Plugin :=
  match o_plugins o with Some l => l | None => [] end.

(** Modelled from the spec: [processGraphQLRequest] is not part of this
    file.  That the pipeline, called for this request, resolves the
    operation to [operation] shows in its outcome: what the
    [didResolveOperation] hooks of its plugin list throw for [operation] is
    what the pipeline throws. *)
Definition pipeline_resolves (req : HTTPGraphQLRequest) (ctx : Context X)
    (g : GraphQLRequest) (w : World X) (operation : OperationTypeNode) : Prop :=
  forall e,
    run_didResolveOperation
      (request_plugins req (defaulted C (w_options w))) operation = Throw e ->
    pipeline_outcome C req ctx g (defaulted C (w_options w)) = Throw e.

Lemma configured_defaulted (o : GraphQLServerOptions X) :
  configured_plugins (defaulted C o) = configured_plugins o.
Proof. unfold defaulted. destruct (o_debug o); reflexivity. Qed.

(** The events of a run, and the plugin list of each call of the pipeline. *)
Lemma run_events (req : HTTPGraphQLRequest) (ctx : Context X) (w : World X) :
  exists evs,
    w_trace (snd (runHttpQuery C req ctx w)) = (w_trace w ++ evs)%list /\
    (forall o rc, In (EvPipeline o rc) evs ->
       o = local_options req (defaulted C (w_options w)) /\
       exists g, runHttpQuery_switch C req = Ret (inr g) /\
                 rc = new_requestContext C o g (fresh_partial) ctx) /\
    (forall g, runHttpQuery_switch C req = Ret (inr g) ->
       exists rc rest,
         evs = EvPipeline (local_options req (defaulted C (w_options w))) rc :: rest) /\
    (forall r, runHttpQuery_switch C req = Ret (inl r) -> evs = []).
Proof.
  rewrite runHttpQuery_run.
  destruct (runHttpQuery_switch C req) as [[early|g]|e].
  - exists []. simpl. rewrite app_nil_r. repeat split; try tauto; discriminate.
  - set (o := defaulted C (w_options w)).
    set (w1 := after_pipeline C req ctx g (started C w)).
    assert (T1 : w_trace w1 =
                 (w_trace w ++ [EvPipeline (local_options req o)
                    (new_requestContext C (local_options req o) g fresh_partial ctx)])%list)
      by reflexivity.
    assert (K : forall tr evs2,
       tr = (w_trace w1 ++ evs2)%list ->
       (forall o' rc', ~ In (EvPipeline o' rc') evs2) ->
       exists evs,
         tr = (w_trace w ++ evs)%list /\
         (forall o' rc, In (EvPipeline o' rc) evs ->
            o' = local_options req o /\
            exists g0, Ret (E:=Exn) (inr (A:=HTTPGraphQLResponse) g) = Ret (inr g0) /\
                       rc = new_requestContext C o' g0 fresh_partial ctx) /\
         (forall g0, Ret (E:=Exn) (inr (A:=HTTPGraphQLResponse) g) = Ret (inr g0) ->
            exists rc rest, evs = EvPipeline (local_options req o) rc :: rest) /\
         (forall r, Ret (E:=Exn) (inr (A:=HTTPGraphQLResponse) g) = Ret (inl r) ->
            evs = [])).
    { intros tr evs2 T2 N2. eexists. split.
      - rewrite T2, T1, <- app_assoc. reflexivity.
      - split; [|split].
        + intros o' rc [H|H].
          * injection H as <- <-. split; [reflexivity|]. exists g. auto.
          * exfalso. apply (N2 _ _ H).
        + intros g0 _. eexists. eexists. reflexivity.
        + discriminate. }
    simpl. fold w1. fold o.
    destruct (pipeline_outcome C req ctx g o) as [response|e].
    + destruct (runHttpQuery_respond response w1) as [[r|e] w2] eqn:R;
        apply respond_frame in R; destruct R as [_ [R2 R3]]; simpl.
      * apply (K _ []); [now rewrite app_nil_r | intros ? ? []].
      * destruct e as [q|x|p]; simpl.
        -- apply (K _ []); [now rewrite app_nil_r | intros ? ? []].
        -- eapply K; [rewrite R3; reflexivity|].
           intros ? ? [H|[]]. discriminate.
        -- eapply K; [rewrite R3; reflexivity|].
           intros ? ? [H|[]]. discriminate.
    + destruct e as [q|x|p]; simpl.
      * apply (K _ []); [now rewrite app_nil_r | intros ? ? []].
      * eapply K; [reflexivity|]. intros ? ? [H|[]]. discriminate.
      * eapply K; [reflexivity|]. intros ? ? [H|[]]. discriminate.
  - destruct e as [q|x|p].
    + exists []. simpl. rewrite app_nil_r. repeat split; try tauto; discriminate.
    + eexists. simpl. split; [reflexivity|].
      repeat split; try discriminate; destruct H as [H|[]]; discriminate.
    + eexists. simpl. split; [reflexivity|].
      repeat split; try discriminate; destruct H as [H|[]]; discriminate.
Qed.

(** C5.  The plugin the adapter installs has a [didResolveOperation] hook
    that returns for a query and throws, for any other operation, an
    [HttpQueryError] with status 405, the message "GET supports only query
    operation" and the header [allow: POST].  Every call of the pipeline made
    for a [GET] request is given that plugin in front of the configured
    plugins, and every call made for another request is given the configured
    plugins alone; a request that passes the [switch] does call the
    pipeline.  So a [GET] request for which the pipeline resolves an
    operation that is not a query (a mutation, say) is answered with status
    405 and [allow: POST]. *)
Theorem get_only_query_plugin_policy (req : HTTPGraphQLRequest) (ctx : Context X)
    (w : World X) :
  (exists e : HttpQueryError,
     hq_statusCode e = 405%Z /\
     hq_message e = "GET supports only query operation" /\
     hq_headers e = [("allow", "POST")] /\
     forall operation,
       didResolveOperation (requestDidStart getOnlyQueryPlugin) operation =
       match operation with
       | QUERY => Ret tt
       | _ => Throw (ExnHttpQuery e)
       end) /\
  (exists evs,
     w_trace (snd (runHttpQuery C req ctx w)) = (w_trace w ++ evs)%list /\
     (forall o rc, In (EvPipeline o rc) evs ->
        o_plugins o =
          Some (if String.eqb (method req) "GET"
                then getOnlyQueryPlugin :: configured_plugins (w_options w)
                else configured_plugins (w_options w))) /\
     (forall g, runHttpQuery_switch C req = Ret (inr g) ->
        exists o rc rest, evs = EvPipeline o rc :: rest)) /\
  (method req = "GET" ->
   forall g operation,
     runHttpQuery_switch C req = Ret (inr g) ->
     operation <> QUERY ->
     pipeline_resolves req ctx g w operation ->
     exists w',
       runHttpQuery C req ctx w =
       (Ret (mkResponse (Some 405%Z)
               [("content-type", "text/plain"); ("allow", "POST")]
               (Some "GET supports only query operation") None),
        w')).
Proof.
  split; [|split].
  - destruct (HttpQueryError_with_headers 405 "GET supports only query operation"
                [("allow", "POST")]) as [e|x] eqn:E; [|discriminate].
    exists e. vm_compute in E. injection E as <-.
    repeat split. intros []; reflexivity.
  - destruct (run_events req ctx w) as [evs [T [P [Q _]]]].
    exists evs. split; [assumption|]. split.
    + intros o rc I. destruct (P o rc I) as [-> _].
      unfold local_options, request_plugins. simpl.
      fold (configured_plugins (defaulted C (w_options w))).
      now rewrite configured_defaulted.
    + intros g S. destruct (Q g S) as [rc [rest ->]]. eauto.
  - intros G g operation S N R.
    rewrite runHttpQuery_run, S. simpl.
    unfold pipeline_resolves in R. unfold request_plugins in R. rewrite G in R.
    simpl in R.
    destruct operation; [congruence| |];
      (erewrite R by reflexivity; eexists; reflexivity).
Qed.

(** The branch of lines 289-304 on a pipeline result with errors and no
    [data] whose [http] part is there.  When the header names of that part
    are lower-case, the response has the status code of that part if one is
    set and is not 0, and 400 otherwise; its headers are those of that part
    on top of [content-type: application/json]; its body is the envelope of
    the result's own [errors] and [extensions]; the pipeline is the one
    collaborator called, so the error formatter is not.  When a header name
    of that part is not lower-case, building the response's [HeaderMap]
    throws and the response is the 500 of the [catch] handler. *)
Lemma preexecution_failure_response (req : HTTPGraphQLRequest) (ctx : Context X)
    (w : World X) (g : GraphQLRequest) (response : GraphQLResponse)
    (h : PartialResponse) :
  runHttpQuery_switch C req = Ret (inr g) ->
  pipeline_outcome C req ctx g (defaulted C (w_options w)) = Ret response ->
  JS.truthy (r_errors response) = true ->
  r_data response = JUndefined ->
  r_http response = Some h ->
  let lo := local_options req (defaulted C (w_options w)) in
  let called := EvPipeline lo (new_requestContext C lo g fresh_partial ctx) in
  (MapOps.all_lower (p_headers h) = true ->
   exists w',
     runHttpQuery C req ctx w =
     (Ret (mkResponse
             (Some (match p_statusCode h with
                    | Some z => if Z.eqb z 0 then 400%Z else z
                    | None => 400%Z
                    end))
             (fold_left (fun a kv => MapOps.set a (fst kv) (snd kv)) (p_headers h)
                        [("content-type", "application/json")])
             (Some (envelope_text (JSON.stringify (r_errors response)) None
                                  (JSON.stringify (r_extensions response))
                    ++ newline))
             None),
      w') /\
     w_trace w' = (w_trace w ++ [called])%list) /\
  (MapOps.all_lower (p_headers h) = false ->
   exists x w',
     runHttpQuery C req ctx w =
     (Ret (mkResponse (Some 500%Z) [("content-type", "application/json")]
             (Some (envelope_text
                      (JSON.stringify
                         (formatApolloErrors C [ExnError x]
                            (o_debug (defaulted C (w_options w)))
                            (o_formatError (w_options w))))
                      None None ++ newline))
             None),
      w') /\
     w_trace w' =
       (w_trace w ++ [called; EvFormat [ExnError x]
                                (o_debug (defaulted C (w_options w)))
                                (o_formatError (w_options w))])%list).
Proof.
  intros S P E D H lo called.
  assert (PE : preexecution response = true).
  { unfold preexecution. rewrite E, D. reflexivity. }
  assert (F : o_formatError (defaulted C (w_options w)) = o_formatError (w_options w)).
  { unfold defaulted. destruct (o_debug (w_options w)); reflexivity. }
  split; intro L.
  - rewrite runHttpQuery_run, S. simpl. rewrite P.
    rewrite respond_preexecution by assumption.
    rewrite H. unfold preexecution_headers, HeaderMapOps.new, MapOps.entries.
    assert (L' : MapOps.all_lower (("content-type", "application/json") :: p_headers h)
                 = true) by (simpl; assumption).
    destruct (HeaderMapOps.add_all_lower _ L' HeaderMapOps.empty) as [m' [E1 E2]].
    rewrite E1, E2, prettyJSONStringify_errors_extensions.
    eexists. split; reflexivity.
  - rewrite runHttpQuery_run, S. simpl. rewrite P.
    rewrite respond_preexecution by assumption.
    rewrite H. unfold preexecution_headers, HeaderMapOps.new, MapOps.entries.
    assert (L' : MapOps.all_lower (("content-type", "application/json") :: p_headers h)
                 = false) by (simpl; assumption).
    destruct (HeaderMapOps.add_all_upper _ L' HeaderMapOps.empty) as [x E1].
    rewrite E1. exists x. eexists. split.
    + unfold caught_outcome, caught_response, current_options. simpl. rewrite F.
      rewrite prettyJSONStringify_errors. reflexivity.
    + simpl. rewrite <- app_assoc. reflexivity.
Qed.

(** C6.  The adapter does not answer every pipeline result with errors and
    no [data] with the status of the partial response or 400 and the
    envelope of the result's errors.  For a result without an [http] part,
    line 292 reads the status through [response.http?.statusCode] and
    prepares 400, but line 295 spreads [response.http?.headers.entries()],
    which is [undefined]: the spread throws a [TypeError], and the response
    is that of the [catch] handler, status 500 with the envelope of what the
    error formatter gives for the [TypeError]; the formatter is called. *)
Theorem preexecution_failure_without_http (req : HTTPGraphQLRequest)
    (ctx : Context X) (w : World X) (g : GraphQLRequest)
    (response : GraphQLResponse) :
  runHttpQuery_switch C req = Ret (inr g) ->
  pipeline_outcome C req ctx g (defaulted C (w_options w)) = Ret response ->
  JS.truthy (r_errors response) = true ->
  r_data response = JUndefined ->
  r_http response = None ->
  let lo := local_options req (defaulted C (w_options w)) in
  let called := EvPipeline lo (new_requestContext C lo g fresh_partial ctx) in
  let debug := o_debug (defaulted C (w_options w)) in
  let formatter := o_formatError (w_options w) in
  exists x w',
    err_name x = "TypeError" /\
    runHttpQuery C req ctx w =
    (Ret (mkResponse (Some 500%Z) [("content-type", "application/json")]
            (Some (envelope_text
                     (JSON.stringify
                        (formatApolloErrors C [ExnError x] debug formatter))
                     None None ++ newline))
            None),
     w') /\
    w_trace w' = (w_trace w ++ [called; EvFormat [ExnError x] debug formatter])%list.
Proof.
  intros S P E D H lo called debug formatter.
  assert (PE : preexecution response = true).
  { unfold preexecution. rewrite E, D. reflexivity. }
  assert (F : o_formatError (defaulted C (w_options w)) = o_formatError (w_options w)).
  { unfold defaulted. destruct (o_debug (w_options w)); reflexivity. }
  rewrite runHttpQuery_run, S. simpl. rewrite P.
  rewrite respond_preexecution by assumption.
  rewrite H. unfold preexecution_headers.
  exists (TypeError_new
            "undefined is not iterable (cannot read property Symbol(Symbol.iterator))").
  eexists. split; [|split].
  - reflexivity.
  - unfold caught_outcome, caught_response, current_options. simpl. rewrite F.
    rewrite prettyJSONStringify_errors. reflexivity.
  - simpl. rewrite <- app_assoc. reflexivity.
Qed.

(** A string that ends with a closing brace does not end with a newline. *)
Lemma brace_not_newline (a t : string) : a ++ "}" <> t ++ newline.
Proof.
  revert t. induction a as [|x a IH]; intros [|c t]; simpl; try discriminate.
  - destruct t; discriminate.
  - destruct a; discriminate.
  - intro H. injection H as _ H. now apply IH in H.
Qed.

(** The text of an envelope ends with its closing brace. *)
Lemma envelope_text_not_newline (errors data extensions : option string) (t : string) :
  envelope_text errors data extensions <> t ++ newline.
Proof.
  unfold envelope_text. rewrite <- append_assoc. apply brace_not_newline.
Qed.

(** C7.  When the pipeline's result is not a pre-execution failure, the body
    of the response is the text of the JSON envelope of the result, in which
    [errors], [data] and [extensions] come in that order (one whose value is
    [undefined] is left out by [JSON.stringify]), followed by one newline:
    the text before that newline does not end with a newline.  The header
    [content-length] of the shared partial response is set to the decimal
    UTF-8 length of the body, and the response carries the status code and
    the headers of the shared partial response. *)
Theorem normal_completion_response (req : HTTPGraphQLRequest) (ctx : Context X)
    (w : World X) (g : GraphQLRequest) (response : GraphQLResponse) :
  runHttpQuery_switch C req = Ret (inr g) ->
  pipeline_outcome C req ctx g (defaulted C (w_options w)) = Ret response ->
  preexecution response = false ->
  let lo := local_options req (defaulted C (w_options w)) in
  let shared :=
    pr_partial (processGraphQLRequest C lo
                  (new_requestContext C lo g fresh_partial ctx)) in
  let json :=
    envelope_text (JSON.stringify (r_errors response))
                  (JSON.stringify (r_data response))
                  (JSON.stringify (r_extensions response)) in
  let body := json ++ newline in
  let length := Str.of_N (N.of_nat (String.length body)) in
  (forall t, json <> t ++ newline) /\
  exists w',
    runHttpQuery C req ctx w =
    (Ret (mkResponse (p_statusCode shared)
            (MapOps.set (p_headers shared) "content-length" length)
            (Some body) None),
     w') /\
    w_partial w' =
      Some (mkPartial (MapOps.set (p_headers shared) "content-length" length)
                      (p_statusCode shared)) /\
    MapOps.get (MapOps.set (p_headers shared) "content-length" length)
               "content-length" = Some length.
Proof.
  intros S P N lo shared json body len.
  split.
  - intro t. apply envelope_text_not_newline.
  - rewrite runHttpQuery_run, S. simpl. rewrite P.
    unfold after_pipeline. simpl.
    rewrite respond_normal by assumption.
    assert (B : normal_body response = body).
    { unfold normal_body, serializeGraphQLResponse.
      apply prettyJSONStringify_envelope. }
    rewrite B. eexists. split; [reflexivity|]. split; [reflexivity|].
    apply MapOps.get_set_same.
Qed.

(** [throw new HttpQueryError(400, message)] throws an [HttpQueryError] with
    that status and message and no headers of its own. *)
Lemma throw_HttpQueryError_400 (A : Type) (message : string) :
  @throw_HttpQueryError A 400 message =
  Throw (ExnHttpQuery (mkHttpQueryError 400 message false [])).
Proof. reflexivity. Qed.

(** C8.  For the search parameters [o] of a request and a field name:
    when [o[field]] is a non-empty string, the extraction deserializes it; a
    failure throws the [HttpQueryError] 400 "The <field> search parameter
    contains invalid JSON.", a value that is not an object throws the
    [HttpQueryError] 400 "The <field> search parameter should contain a
    JSON-encoded object.", and an object is the extracted value.  When
    [o[field]] is absent or the empty string the extracted value is absent
    and nothing is thrown.  In a [GET] request that reaches the extraction of
    [variables] or of [extensions], what the extraction throws is answered
    with status 400 and that message as the body, without a call of a
    collaborator; and the request given to the pipeline carries what the two
    extractions returned. *)
Theorem search_parameter_json (req : HTTPGraphQLRequest) (ctx : Context X)
    (w : World X) (field s : string) :
  let o := searchParams req in
  let extract := jsonParsedFieldIfNonEmptyString (JSON_parse C) o in
  (JS.prop o field = JStr s -> s <> "" ->
   match JSON_parse C s with
   | None =>
       extract field =
       throw_HttpQueryError 400
         ("The " ++ field ++ " search parameter contains invalid JSON.")
   | Some (JObj fields) => extract field = Ret (Some (JObj fields))
   | Some _ =>
       extract field =
       throw_HttpQueryError 400
         ("The " ++ field ++ " search parameter should contain a JSON-encoded object.")
   end) /\
  (JS.prop o field = JUndefined \/ JS.prop o field = JStr "" ->
   extract field = Ret None) /\
  (method req = "GET" ->
   ensureQueryIsStringOrMissing (JS.prop o "query") = Ret tt ->
   field = "variables" \/
   (field = "extensions" /\ exists v, extract "variables" = Ret v) ->
   forall message,
     extract field = throw_HttpQueryError 400 message ->
     exists w',
       runHttpQuery C req ctx w =
       (Ret (mkResponse (Some 400%Z) [("content-type", "text/plain")]
               (Some message) None),
        w') /\
       w_trace w' = w_trace w) /\
  (method req = "GET" ->
   forall g, runHttpQuery_switch C req = Ret (inr g) ->
     extract "variables" = Ret (variables g) /\
     extract "extensions" = Ret (extensions g)).
Proof.
  intros o extract. split; [|split; [|split]].
  - intros P N. unfold extract, jsonParsedFieldIfNonEmptyString. rewrite P.
    assert (T : JS.truthy (JStr s) = true).
    { simpl. apply negb_true_iff. now apply String.eqb_neq. }
    rewrite T. destruct (JSON_parse C s) as [v|]; [|reflexivity].
    destruct v as [| |b|n|t|l|fs|bs]; try reflexivity.
    + destruct b; reflexivity.
    + destruct n as [[| |] ?]; reflexivity.
    + destruct t; reflexivity.
  - unfold extract, jsonParsedFieldIfNonEmptyString.
    intros [P|P]; rewrite P; reflexivity.
  - intros G Q F message T.
    assert (NE : is_nonempty_mapping o = true).
    { unfold extract, jsonParsedFieldIfNonEmptyString in T.
      destruct o as [| |b|n|t|l|fs|bs]; try discriminate.
      destruct fs; [discriminate | reflexivity]. }
    assert (SW : runHttpQuery_switch C req =
                 Throw (ExnHttpQuery (mkHttpQueryError 400 message false []))).
    { unfold runHttpQuery_switch. rewrite G. simpl.
      fold o. rewrite isNonEmptyStringRecord_mapping, NE. simpl.
      rewrite Q. simpl. fold extract.
      destruct F as [->|[-> [v V]]].
      - rewrite T. reflexivity.
      - rewrite V. simpl. rewrite T. reflexivity. }
    rewrite runHttpQuery_run, SW. eexists. split; reflexivity.
  - intros G g. unfold runHttpQuery_switch. rewrite G. simpl. fold o.
    destruct (negb (JS.truthy (isNonEmptyStringRecord o))).
    + discriminate.
    + destruct (ensureQueryIsStringOrMissing _); [|discriminate]. simpl.
      fold extract.
      destruct (extract "variables") as [v|]; [|discriminate]. simpl.
      destruct (extract "extensions") as [x|]; [|discriminate]. simpl.
      intro H. injection H as <-. auto.
Qed.






Lemma runHttpQuery_options (req : HTTPGraphQLRequest) (ctx : Context X) (w : World X) :
  w_options (snd (runHttpQuery C req ctx w)) = defaulted C (w_options w).
Proof.
  rewrite runHttpQuery_try_catch.
  destruct (runHttpQuery_try C req ctx (entered w)) as [[r|e] w1] eqn:T;
    apply try_frame in T; destruct T as [T _]; simpl; [assumption|].
  destruct e; assumption.
Qed.

End Claims.

Arguments configured_plugins {X}.
Arguments pipeline_resolves {X}.

Lemma defaulted_once (X : Externals) (C1 C2 : Collaborators X)
    (o : GraphQLServerOptions X) :
  defaulted C2 (defaulted C1 o) = defaulted C1 o.
Proof. unfold defaulted. destruct (o_debug o) eqn:E; simpl; [now rewrite E|reflexivity]. Qed.

(** C10.  A call of [runHttpQuery] with [options.debug] undefined leaves on
    the caller's options object the default computed from the node
    environment, which is [true] unless that environment is [production] or
    [test]; a [debug] that was defined is left as it is, and so is every
    other field.  The write comes before the local copy: the options and the
    request context given to the pipeline carry the same [debug].  The value
    stays on the object through later calls, whatever their request and
    their environment. *)
Theorem debug_default_on_caller_options (X : Externals) (C : Collaborators X)
    (req : HTTPGraphQLRequest) (ctx : Context X) (w : World X) :
  let o := w_options w in
  let o' := w_options (snd (runHttpQuery C req ctx w)) in
  let env := match o_nodeEnv o with Some e => e | None => NODE_ENV C end in
  o_debug o' =
    Some (match o_debug o with
          | Some b => b
          | None => debugFromNodeEnv (NODE_ENV C) (o_nodeEnv o)
          end) /\
  (debugFromNodeEnv (NODE_ENV C) (o_nodeEnv o) = true <->
   env <> "production" /\ env <> "test") /\
  (o_nodeEnv o' = o_nodeEnv o /\ o_plugins o' = o_plugins o /\
   o_logger o' = o_logger o /\ o_schema o' = o_schema o /\
   o_cache o' = o_cache o /\ o_formatError o' = o_formatError o /\
   o_rest o' = o_rest o) /\
  (exists evs,
     w_trace (snd (runHttpQuery C req ctx w)) = (w_trace w ++ evs)%list /\
     forall lo rc, In (EvPipeline lo rc) evs ->
       o_debug lo = o_debug o' /\ rc_debug rc = o_debug o') /\
  (forall (C2 : Collaborators X) (req2 : HTTPGraphQLRequest) (ctx2 : Context X),
     w_options (snd (runHttpQuery C2 req2 ctx2 (snd (runHttpQuery C req ctx w)))) = o').
Proof.
  intros o o' env. subst o'. rewrite runHttpQuery_options. fold o.
  split; [|split; [|split; [|split]]].
  - unfold defaulted. destruct (o_debug o) eqn:E; simpl; [now rewrite E | reflexivity].
  - unfold debugFromNodeEnv. fold env.
    rewrite andb_true_iff, !negb_true_iff, !String.eqb_neq. tauto.
  - unfold defaulted. destruct (o_debug o); simpl; repeat split.
  - destruct (run_events X C req ctx w) as [evs [T [P _]]].
    exists evs. split; [assumption|]. intros lo rc I.
    destruct (P lo rc I) as [-> [g [_ ->]]]. split; reflexivity.
  - intros C2 req2 ctx2. rewrite runHttpQuery_options, runHttpQuery_options.
    apply defaulted_once.
Qed.

(** ** The theorems on concrete requests *)

Lemma runHttpQuery_throws_witness :
  let C := Sample.collaborators_with (Sample.pipeline_throws Sample.forbidden) in
  let req := Sample.post (JObj [("query", JStr "{ hello }")]) in
  let q := mkHttpQueryError 403 "Forbidden" false [("X-Reason", "policy")] in
  let w1 := snd (runHttpQuery_try C req Sample.context (entered Sample.world)) in
  runHttpQuery_try C req Sample.context (entered Sample.world) = (Throw (ExnHttpQuery q), w1) /\
  MapOps.all_lower (hq_headers q) = false /\
  runHttpQuery C req Sample.context Sample.world =
    (Throw (ExnError (Error_new "Headers must be lower-case, unlike X-Reason")), w1).
Proof.
  intros C req q w1.
  assert (T : runHttpQuery_try C req Sample.context (entered Sample.world)
              = (Throw (ExnHttpQuery q), w1)) by reflexivity.
  assert (L : MapOps.all_lower (hq_headers q) = false) by reflexivity.
  split; [exact T|]. split; [exact L|].
  destruct (runHttpQuery_throws Sample.externals C req Sample.context Sample.world w1 q T L)
    as [pre [k [v [post [E [_ [_ R]]]]]]].
  destruct pre as [|a pre]; simpl in E.
  - injection E as <- _ _. exact R.
  - destruct pre; discriminate E.
Defined.

(** A thrown [HttpQueryError] as its constructor builds it is answered with
    its own response. *)
Example runHttpQuery_teapot :
  fst (runHttpQuery (Sample.collaborators_with (Sample.pipeline_throws Sample.teapot))
         (Sample.post (JObj [("query", JStr "{ hello }")])) Sample.context Sample.world)
  = Ret (mkResponse (Some 418%Z)
           [("content-type", "text/html"); ("retry-after", "60")]
           (Some "I'm a teapot") None).
Proof. reflexivity. Qed.

(** A thrown value that is not an [HttpQueryError] is answered with 500 and
    the formatted error. *)
Example runHttpQuery_other_error :
  fst (runHttpQuery (Sample.collaborators_with (Sample.pipeline_throws Sample.boom))
         (Sample.post (JObj [("query", JStr "{ hello }")])) Sample.context Sample.world)
  = Ret (mkResponse (Some 500%Z) [("content-type", "application/json")]
           (Some ("{" ++ Sample.quoted "errors" ++ ":[{" ++ Sample.quoted "message"
                  ++ ":" ++ Sample.quoted "boom" ++ "}]}" ++ newline))
           None).
Proof. reflexivity. Qed.

Lemma other_methods_405_witness :
  "PUT" <> "GET" /\ "PUT" <> "POST" /\
  exists w',
    runHttpQuery Sample.collaborators (mkRequest "PUT" JNull JNull []) Sample.context Sample.world
    = (Ret (mkResponse (Some 405%Z)
              [("content-type", "text/plain"); ("allow", "GET, POST")]
              (Some "Apollo Server supports only GET/POST requests.") None),
       w') /\
    w_trace w' = [].
Proof.
  assert (G : "PUT" <> "GET") by discriminate.
  assert (P : "PUT" <> "POST") by discriminate.
  split; [exact G|]. split; [exact P|].
  destruct (other_methods_405 Sample.externals Sample.collaborators
              (mkRequest "PUT" JNull JNull []) Sample.context Sample.world G P)
    as [w' [E [_ [_ [T _]]]]].
  exists w'. split; assumption.
Defined.

Lemma post_body_400_witness :
  is_nonempty_mapping (JArr [JObj [("query", JStr "{ hello }")]]) = false /\
  exists w',
    runHttpQuery Sample.collaborators
      (Sample.post (JArr [JObj [("query", JStr "{ hello }")]])) Sample.context Sample.world
    = (Ret (mkResponse (Some 400%Z) [("content-type", "text/plain")]
              (Some "POST body missing, invalid Content-Type, or JSON object has no keys.")
              None),
       w') /\
    w_trace w' = [].
Proof.
  split; [reflexivity|].
  destruct (post_body_400 Sample.externals Sample.collaborators
              (Sample.post (JArr [JObj [("query", JStr "{ hello }")]])) Sample.context
              Sample.world eq_refl eq_refl)
    as [[w' [E [T _]]] _].
  exists w'. split; assumption.
Defined.

Lemma get_only_query_plugin_policy_witness :
  let req := Sample.get (JObj [("query", JStr "mutation { noop }")]) in
  let g := mkGraphQLRequest (Some "mutation { noop }") None None None req in
  method req = "GET" /\
  runHttpQuery_switch Sample.collaborators req = Ret (inr g) /\
  MUTATION <> QUERY /\
  pipeline_resolves Sample.collaborators req Sample.context g Sample.world MUTATION /\
  exists w',
    runHttpQuery Sample.collaborators req Sample.context Sample.world =
    (Ret (mkResponse (Some 405%Z)
            [("content-type", "text/plain"); ("allow", "POST")]
            (Some "GET supports only query operation") None),
     w').
Proof.
  intros req g.
  assert (S : runHttpQuery_switch Sample.collaborators req = Ret (inr g))
    by reflexivity.
  assert (N : MUTATION <> QUERY) by discriminate.
  assert (R : pipeline_resolves Sample.collaborators req Sample.context g Sample.world MUTATION).
  { intros e H. vm_compute in H. injection H as <-. reflexivity. }
  split; [reflexivity|]. split; [exact S|]. split; [exact N|]. split; [exact R|].
  exact (proj2 (proj2 (get_only_query_plugin_policy Sample.externals
                         Sample.collaborators req Sample.context Sample.world))
               eq_refl g MUTATION S N R).
Defined.

Lemma preexecution_failure_without_http_witness :
  let C := Sample.collaborators_with Sample.pipeline_without_http in
  let req := Sample.post (JObj [("query", JStr "{")]) in
  let g := mkGraphQLRequest (Some "{") None None None req in
  let response :=
    mkGraphQLResponse Sample.syntax_errors JUndefined JUndefined None in
  runHttpQuery_switch C req = Ret (inr g) /\
  pipeline_outcome C req Sample.context g (defaulted C (w_options Sample.world)) = Ret response /\
  JS.truthy (r_errors response) = true /\
  r_data response = JUndefined /\
  r_http response = None /\
  (exists x w',
     err_name x = "TypeError" /\
     fst (runHttpQuery C req Sample.context Sample.world) =
     Ret (mkResponse (Some 500%Z) [("content-type", "application/json")]
            (Some (envelope_text
                     (JSON.stringify
                        (formatApolloErrors C [ExnError x] (Some true) None))
                     None None ++ newline))
            None) /\
     w_trace w' =
       [EvPipeline (local_options req (defaulted C (w_options Sample.world)))
          (new_requestContext C
             (local_options req (defaulted C (w_options Sample.world)))
             g fresh_partial Sample.context);
        EvFormat [ExnError x] (Some true) None]) /\
  fst (runHttpQuery C req Sample.context Sample.world) =
  Ret (mkResponse (Some 500%Z) [("content-type", "application/json")]
         (Some ("{" ++ Sample.quoted "errors" ++ ":[{" ++ Sample.quoted "message"
                ++ ":" ++ Sample.quoted
                  "undefined is not iterable (cannot read property Symbol(Symbol.iterator))"
                ++ "}]}" ++ newline))
         None).
Proof.
  intros C req g response.
  split; [reflexivity|]. split; [reflexivity|]. split; [reflexivity|].
  split; [reflexivity|]. split; [reflexivity|]. split; [|reflexivity].
  destruct (preexecution_failure_without_http Sample.externals C req Sample.context
              Sample.world g response eq_refl eq_refl eq_refl eq_refl eq_refl)
    as [x [w' [N [E T]]]].
  exists x, w'. split; [exact N|]. split; [|exact T].
  rewrite E. reflexivity.
Defined.

Lemma normal_completion_response_witness :
  let C := Sample.collaborators_with Sample.pipeline_field_error in
  let req := Sample.post (JObj [("query", JStr "{ hello }")]) in
  let g := mkGraphQLRequest (Some "{ hello }") None None None req in
  let response :=
    mkGraphQLResponse Sample.field_errors (JObj [("hello", JNull)])
      (JObj [("cost", JNum Sample.one)]) (Some fresh_partial) in
  let body :=
    "{" ++ Sample.quoted "errors" ++ ":[{" ++ Sample.quoted "message" ++ ":"
        ++ Sample.quoted "Cannot return null" ++ "}],"
        ++ Sample.quoted "data" ++ ":{" ++ Sample.quoted "hello" ++ ":null},"
        ++ Sample.quoted "extensions" ++ ":{" ++ Sample.quoted "cost" ++ ":1}}"
        ++ newline in
  runHttpQuery_switch C req = Ret (inr g) /\
  pipeline_outcome C req Sample.context g (defaulted C (w_options Sample.world)) = Ret response /\
  preexecution response = false /\
  exists w',
    runHttpQuery C req Sample.context Sample.world =
    (Ret (mkResponse None
            [("content-type", "application/json"); ("content-length", "92")]
            (Some body) None),
     w') /\
    w_partial w' =
      Some (mkPartial [("content-type", "application/json"); ("content-length", "92")]
                      None).
Proof.
  intros C req g response body.
  split; [reflexivity|]. split; [reflexivity|]. split; [reflexivity|].
  destruct (normal_completion_response Sample.externals C
              req Sample.context Sample.world g response eq_refl eq_refl eq_refl)
    as [_ [w' [E [P _]]]].
  exists w'. split; [exact E | exact P].
Defined.

Lemma search_parameter_json_witness :
  let req := Sample.get (JObj [("query", JStr "{ hello }");
                               ("variables", JStr "{bad")]) in
  let message := "The variables search parameter contains invalid JSON." in
  JS.prop (searchParams req) "variables" = JStr "{bad" /\
  "{bad" <> "" /\
  JSON_parse Sample.collaborators "{bad" = None /\
  method req = "GET" /\
  ensureQueryIsStringOrMissing (JS.prop (searchParams req) "query") = Ret tt /\
  jsonParsedFieldIfNonEmptyString (JSON_parse Sample.collaborators)
    (searchParams req) "variables" = throw_HttpQueryError 400 message /\
  exists w',
    runHttpQuery Sample.collaborators req Sample.context Sample.world =
    (Ret (mkResponse (Some 400%Z) [("content-type", "text/plain")]
            (Some message) None),
     w') /\
    w_trace w' = w_trace Sample.world.
Proof.
  intros req message.
  assert (N : "{bad" <> "") by discriminate.
  pose proof (search_parameter_json Sample.externals Sample.collaborators
                req Sample.context Sample.world "variables" "{bad") as [H1 [_ [H3 _]]].
  specialize (H1 eq_refl N).
  split; [reflexivity|]. split; [exact N|]. split; [reflexivity|].
  split; [reflexivity|]. split; [reflexivity|]. split; [exact H1|].
  exact (H3 eq_refl eq_refl (or_introl eq_refl) message H1).
Defined.


(** A primitive thrown by the context function. *)
Example executeContextFunction_primitive :
  executeContextFunction Sample.collaborators (Throw (ExnPrimitive (PStr "denied")))
    None (Some false)
  = Throw (ExnError (TypeError_new
                       "Cannot create property 'message' on string 'denied'")).
Proof. reflexivity. Qed.

Lemma debug_default_on_caller_options_witness :
  o_debug (w_options Sample.world) = None /\
  o_debug (w_options (snd (runHttpQuery Sample.collaborators
                             (mkRequest "PUT" JNull JNull []) Sample.context Sample.world)))
  = Some true.
Proof.
  split; [reflexivity|].
  exact (proj1 (debug_default_on_caller_options Sample.externals Sample.collaborators
                  (mkRequest "PUT" JNull JNull []) Sample.context Sample.world)).
Defined.

(** * Further properties of the code *)

From Stdlib Require Import Eqdep_dec.

(** ** Maps and header maps *)

Module MapFacts.

Lemma set_absent (m : JSMap) (k v : string) :
  ~ In k (MapOps.keys m) -> MapOps.set m k v = (m ++ [(k, v)])%list.
Proof.
  induction m as [|[a b] r IH]; simpl; [reflexivity|].
  intro H. destruct (String.eqb a k) eqn:E.
  - apply String.eqb_eq in E. tauto.
  - f_equal. apply IH. tauto.
Qed.

Lemma keys_app (a b : JSMap) :
  MapOps.keys (a ++ b)%list = (MapOps.keys a ++ MapOps.keys b)%list.
Proof. apply map_app. Qed.

(** Distinct new keys applied with [set] are appended as they are. *)
Lemma fold_set_fresh (it : list (string * string)) :
  NoDup (MapOps.keys it) ->
  forall init,
    (forall k, In k (MapOps.keys it) -> ~ In k (MapOps.keys init)) ->
    fold_left (fun a kv => MapOps.set a (fst kv) (snd kv)) it init = (init ++ it)%list.
Proof.
  induction it as [|[a b] r IH]; simpl; intros H init D.
  - now rewrite app_nil_r.
  - inversion H as [|? ? Ha Hr]; subst.
    rewrite set_absent by (apply D; auto).
    rewrite IH; [now rewrite <- app_assoc | assumption |].
    intros k Hk. rewrite keys_app. simpl. intro I.
    apply in_app_or in I. destruct I as [I|[I|[]]].
    + apply (D k); auto.
    + subst. tauto.
Qed.

Lemma get_app (a b : JSMap) (k : string) :
  MapOps.get (a ++ b)%list k =
  match MapOps.get a k with
  | Some v => Some v
  | None => MapOps.get b k
  end.
Proof.
  induction a as [|[x y] r IH]; simpl; [reflexivity|].
  destruct (String.eqb x k); auto.
Qed.

(** Entries applied with [set], in order: the last entry of a key wins. *)
Lemma get_fold_set_last (it : list (string * string)) :
  forall (init : JSMap) (k : string),
    MapOps.get (fold_left (fun a kv => MapOps.set a (fst kv) (snd kv)) it init) k =
    match MapOps.get (rev it) k with
    | Some v => Some v
    | None => MapOps.get init k
    end.
Proof.
  induction it as [|[a b] r IH]; simpl; intros init k; [reflexivity|].
  rewrite IH, get_app. destruct (MapOps.get (rev r) k); [reflexivity|].
  simpl. destruct (String.eqb a k) eqn:E.
  - apply String.eqb_eq in E. subst. apply MapOps.get_set_same.
  - apply String.eqb_neq in E. now apply MapOps.get_set_other.
Qed.

Lemma has_set (m : JSMap) (k v x : string) :
  MapOps.has (MapOps.set m k v) x = MapOps.has m x || String.eqb k x.
Proof.
  unfold MapOps.has. destruct (String.eqb k x) eqn:E.
  - apply String.eqb_eq in E. subst. rewrite MapOps.get_set_same.
    now rewrite orb_true_r.
  - apply String.eqb_neq in E. rewrite MapOps.get_set_other by assumption.
    now rewrite orb_false_r.
Qed.

(** The iteration order after applying entries with [set]: the keys there
    were keep their places, the new ones follow in the order of the entries. *)
Lemma keys_fold_set (it : list (string * string)) :
  NoDup (MapOps.keys it) ->
  forall init,
    MapOps.keys (fold_left (fun a kv => MapOps.set a (fst kv) (snd kv)) it init) =
    (MapOps.keys init ++
     filter (fun a => negb (MapOps.has init a)) (MapOps.keys it))%list.
Proof.
  induction it as [|[a b] r IH]; simpl; intros H init.
  - now rewrite app_nil_r.
  - inversion H as [|? ? Ha Hr]; subst. rewrite (IH Hr).
    destruct (MapOps.has init a) eqn:E; simpl.
    + rewrite MapOps.keys_set_present by (now apply MapOps.has_keys).
      f_equal. apply filter_ext. intro x. rewrite has_set.
      destruct (String.eqb a x) eqn:X; [|now rewrite orb_false_r].
      apply String.eqb_eq in X. subst. now rewrite E.
    + rewrite MapOps.keys_set_absent
        by (rewrite <- MapOps.has_keys; congruence).
      rewrite <- app_assoc. simpl. f_equal. f_equal.
      apply filter_ext_in. intros x Hx. rewrite has_set.
      destruct (String.eqb a x) eqn:X; [|now rewrite orb_false_r].
      apply String.eqb_eq in X. subst. tauto.
Qed.

Lemma delete_absent (m : JSMap) (k : string) :
  ~ In k (MapOps.keys m) -> MapOps.delete m k = m.
Proof.
  induction m as [|[a b] r IH]; simpl; [reflexivity|].
  intro H. destruct (String.eqb a k) eqn:E.
  - apply String.eqb_eq in E. tauto.
  - f_equal. apply IH. tauto.
Qed.

Lemma delete_appended (m : JSMap) (k v : string) :
  ~ In k (MapOps.keys m) -> MapOps.delete (m ++ [(k, v)])%list k = m.
Proof.
  induction m as [|[a b] r IH]; simpl.
  - now rewrite String.eqb_refl.
  - intro H. destruct (String.eqb a k) eqn:E.
    + apply String.eqb_eq in E. tauto.
    + f_equal. apply IH. tauto.
Qed.

(** Two header maps with the same entries are the same. *)
Lemma HeaderMap_ext (a b : HeaderMap) : hm_entries a = hm_entries b -> a = b.
Proof.
  destruct a as [ea pa], b as [eb pb]. simpl. intro E. subst eb.
  f_equal. apply UIP_dec. apply Bool.bool_dec.
Qed.

End MapFacts.

(** X1.  Copying a [HeaderMap], as [new HeaderMap(headers)] in the
    constructor of [HttpQueryError] does when it is given one, never throws
    and gives a map with the same entries in the same order. *)
Theorem HeaderMap_copy (m : HeaderMap) :
  HeaderMapOps.new (HeaderMapOps.entries m) = Ret m.
Proof.
  destruct (HeaderMapOps.add_all_lower (hm_entries m) (HeaderMapOps.lower m)
              HeaderMapOps.empty) as [m' [E1 E2]].
  unfold HeaderMapOps.new, HeaderMapOps.entries, MapOps.entries. rewrite E1.
  f_equal. apply MapFacts.HeaderMap_ext. rewrite E2.
  rewrite MapFacts.fold_set_fresh; [reflexivity | apply HeaderMapOps.distinct |].
  intros k _ [].
Qed.

(** X2.  [new HeaderMap(iterable)] returns when every name of the iterable
    is lower-case, and then a name maps to the value of its last entry; when
    some name is not, it throws the error of [set] for the first such name. *)
Theorem HeaderMap_new_contract (it : list (string * string)) :
  (MapOps.all_lower it = true ->
   exists m,
     HeaderMapOps.new it = Ret m /\
     forall k, HeaderMapOps.get m k = MapOps.get (rev it) k) /\
  (MapOps.all_lower it = false ->
   exists pre k v post,
     it = (pre ++ (k, v) :: post)%list /\
     MapOps.all_lower pre = true /\
     Str.has_upper k = true /\
     HeaderMapOps.new it = Throw (HeaderMapOps.lowercase_error k)).
Proof.
  split.
  - intro L. destruct (HeaderMapOps.add_all_lower it L HeaderMapOps.empty)
      as [m [E1 E2]].
    exists m. split; [exact E1|]. intro k. unfold HeaderMapOps.get. rewrite E2.
    rewrite MapFacts.get_fold_set_last. simpl.
    destruct (MapOps.get (rev it) k); reflexivity.
  - apply HeaderMap_new_first_upper.
Qed.

Lemma HeaderMap_new_contract_witness :
  MapOps.all_lower [("vary", "a"); ("allow", "GET"); ("vary", "b")] = true /\
  MapOps.all_lower [("allow", "GET"); ("Vary", "a"); ("ETag", "x")] = false /\
  (exists m,
     HeaderMapOps.new [("vary", "a"); ("allow", "GET"); ("vary", "b")] = Ret m /\
     HeaderMapOps.get m "vary" = Some "b") /\
  exists pre k v post,
    [("allow", "GET"); ("Vary", "a"); ("ETag", "x")] = (pre ++ (k, v) :: post)%list /\
    MapOps.all_lower pre = true /\ Str.has_upper k = true /\
    HeaderMapOps.new [("allow", "GET"); ("Vary", "a"); ("ETag", "x")]
    = Throw (HeaderMapOps.lowercase_error k).
Proof.
  split; [reflexivity|]. split; [reflexivity|]. split.
  - destruct (proj1 (HeaderMap_new_contract
                       [("vary", "a"); ("allow", "GET"); ("vary", "b")]) eq_refl)
      as [m [E G]].
    exists m. split; [exact E|]. rewrite G. reflexivity.
  - exact (proj2 (HeaderMap_new_contract
                    [("allow", "GET"); ("Vary", "a"); ("ETag", "x")]) eq_refl).
Defined.

(** X3.  [delete] of a name the map does not have leaves the map as it is,
    and [delete] after the [set] of a new name gives the map back. *)
Theorem HeaderMap_set_delete (m : HeaderMap) (name value : string) :
  HeaderMapOps.has m name = false ->
  HeaderMapOps.delete m name = m /\
  (Str.has_upper name = false ->
   exists m',
     HeaderMapOps.set m name value = Ret m' /\
     HeaderMapOps.delete m' name = m).
Proof.
  intro H.
  assert (A : ~ In name (MapOps.keys (hm_entries m))).
  { rewrite <- MapOps.has_keys. unfold HeaderMapOps.has in H. congruence. }
  split.
  - apply MapFacts.HeaderMap_ext. simpl. now apply MapFacts.delete_absent.
  - intro L. destruct (HeaderMapOps.set_lower m name value L) as [m' [E1 E2]].
    exists m'. split; [exact E1|].
    apply MapFacts.HeaderMap_ext. simpl. rewrite E2.
    rewrite MapFacts.set_absent by assumption. now apply MapFacts.delete_appended.
Qed.

Lemma HeaderMap_set_delete_witness :
  HeaderMapOps.has HeaderMapOps.empty "allow" = false /\
  Str.has_upper "allow" = false /\
  exists m',
    HeaderMapOps.set HeaderMapOps.empty "allow" "POST" = Ret m' /\
    HeaderMapOps.delete m' "allow" = HeaderMapOps.empty.
Proof.
  split; [reflexivity|]. split; [reflexivity|].
  exact (proj2 (HeaderMap_set_delete HeaderMapOps.empty "allow" "POST" eq_refl)
               eq_refl).
Defined.

(** X5.  The constructor of [HttpQueryError] keeps the status, the message
    and the flag it is given.  Without headers the error has none; with a
    [Map] whose names are lower-case it has the entries of that map in their
    order; with a [Map] that has a name that is not lower-case the
    constructor throws. *)
Theorem HttpQueryError_new_contract (status : Z) (message : string)
    (isGraphQLError : bool) (hdrs : JSMap) :
  (exists e,
     HttpQueryErrorOps.new status message isGraphQLError None = Ret e /\
     hq_statusCode e = status /\ hq_message e = message /\
     hq_isGraphQLError e = isGraphQLError /\
     hq_headers e = []) /\
  (NoDup (MapOps.keys hdrs) -> MapOps.all_lower hdrs = true ->
   exists e,
     HttpQueryErrorOps.new status message isGraphQLError (Some hdrs) = Ret e /\
     hq_statusCode e = status /\ hq_message e = message /\
     hq_isGraphQLError e = isGraphQLError /\
     hq_headers e = hdrs) /\
  (MapOps.all_lower hdrs = false ->
   exists k,
     In k (MapOps.keys hdrs) /\ Str.has_upper k = true /\
     HttpQueryErrorOps.new status message isGraphQLError (Some hdrs)
     = Throw (HeaderMapOps.lowercase_error k)).
Proof.
  split; [|split].
  - eexists. split; [reflexivity|]. repeat split.
  - intros ND L. unfold HttpQueryErrorOps.new, MapOps.entries.
    destruct (HeaderMapOps.add_all_lower hdrs L HeaderMapOps.empty) as [m [E1 E2]].
    unfold HeaderMapOps.new. rewrite E1. eexists. split; [reflexivity|].
    repeat split. simpl. rewrite E2.
    rewrite MapFacts.fold_set_fresh; [reflexivity | assumption | intros k _ []].
  - intro L. destruct (HeaderMap_new_first_upper hdrs L)
      as [pre [k [v [post [E [_ [U T]]]]]]].
    exists k. split; [|split; [assumption|]].
    + rewrite E. unfold MapOps.keys. rewrite map_app. apply in_or_app.
      right. left. reflexivity.
    + unfold HttpQueryErrorOps.new, MapOps.entries. now rewrite T.
Qed.

Lemma HttpQueryError_new_contract_witness :
  NoDup (MapOps.keys [("allow", "POST"); ("retry-after", "1")]) /\
  MapOps.all_lower [("allow", "POST"); ("retry-after", "1")] = true /\
  MapOps.all_lower [("Allow", "POST")] = false /\
  (exists e,
     HttpQueryErrorOps.new 405 "no" false (Some [("allow", "POST"); ("retry-after", "1")])
     = Ret e /\
     hq_headers e = [("allow", "POST"); ("retry-after", "1")]) /\
  exists k,
    HttpQueryErrorOps.new 405 "no" false (Some [("Allow", "POST")])
    = Throw (HeaderMapOps.lowercase_error k).
Proof.
  assert (ND : NoDup (MapOps.keys [("allow", "POST"); ("retry-after", "1")])).
  { repeat constructor; simpl; intuition discriminate. }
  split; [exact ND|]. split; [reflexivity|]. split; [reflexivity|]. split.
  - destruct (proj1 (proj2 (HttpQueryError_new_contract 405 "no" false
                              [("allow", "POST"); ("retry-after", "1")]))
                    ND eq_refl) as [e [E [_ [_ [_ H]]]]].
    exists e. split; assumption.
  - destruct (proj2 (proj2 (HttpQueryError_new_contract 405 "no" false
                              [("Allow", "POST")])) eq_refl) as [k [_ [_ T]]].
    exists k. exact T.
Defined.

(** X6.  The conversion of an [HttpQueryError] whose header names are
    lower-case returns a response in which the header [content-type] comes
    first and the other headers of the error follow in the error's own
    order.  The conversion of one that holds a header name that is not
    lower-case throws the error of [set] for the first such name. *)
Theorem asHTTPGraphQLResponse_header_order (e : HttpQueryError) :
  NoDup (MapOps.keys (hq_headers e)) ->
  (MapOps.all_lower (hq_headers e) = true ->
   exists r,
     HttpQueryErrorOps.asHTTPGraphQLResponse e = Ret r /\
     MapOps.keys (headers r) =
       "content-type"
       :: filter (fun a => negb (String.eqb "content-type" a))
                 (MapOps.keys (hq_headers e))) /\
  (MapOps.all_lower (hq_headers e) = false ->
   exists pre k v post,
     hq_headers e = (pre ++ (k, v) :: post)%list /\
     MapOps.all_lower pre = true /\
     Str.has_upper k = true /\
     HttpQueryErrorOps.asHTTPGraphQLResponse e
     = Throw (Error_new ("Headers must be lower-case, unlike " ++ k))).
Proof.
  intro D. split.
  - intro L. rewrite HttpQueryErrorOps.asHTTPGraphQLResponse_lower by exact L.
    eexists. split; [reflexivity|]. cbn [headers].
    unfold HttpQueryErrorOps.response_headers.
    rewrite MapFacts.keys_fold_set by exact D.
    cbn -[String.eqb]. f_equal. apply filter_ext. intro a.
    unfold MapOps.has. cbn -[String.eqb].
    destruct (String.eqb "content-type" a); reflexivity.
  - apply asHTTPGraphQLResponse_first_upper.
Qed.

Lemma asHTTPGraphQLResponse_header_order_witness :
  let teapot :=
    mkHttpQueryError 418 "I'm a teapot" false
      [("retry-after", "60"); ("content-type", "text/html"); ("allow", "GET")] in
  let forbidden :=
    mkHttpQueryError 403 "Forbidden" false
      [("allow", "GET"); ("X-Reason", "policy"); ("ETag", "x")] in
  NoDup (MapOps.keys (hq_headers teapot)) /\
  MapOps.all_lower (hq_headers teapot) = true /\
  NoDup (MapOps.keys (hq_headers forbidden)) /\
  MapOps.all_lower (hq_headers forbidden) = false /\
  (exists r,
     HttpQueryErrorOps.asHTTPGraphQLResponse teapot = Ret r /\
     MapOps.keys (headers r) = ["content-type"; "retry-after"; "allow"]) /\
  HttpQueryErrorOps.asHTTPGraphQLResponse forbidden
  = Throw (Error_new "Headers must be lower-case, unlike X-Reason").
Proof.
  intros teapot forbidden.
  assert (D1 : NoDup (MapOps.keys (hq_headers teapot))).
  { repeat constructor; simpl; intuition discriminate. }
  assert (D2 : NoDup (MapOps.keys (hq_headers forbidden))).
  { repeat constructor; simpl; intuition discriminate. }
  split; [exact D1|]. split; [reflexivity|]. split; [exact D2|].
  split; [reflexivity|]. split.
  - exact (proj1 (asHTTPGraphQLResponse_header_order teapot D1) eq_refl).
  - destruct (proj2 (asHTTPGraphQLResponse_header_order forbidden D2) eq_refl)
      as [pre [k [v [post [E [P [U T]]]]]]].
    destruct pre as [|a pre]; simpl in E.
    + injection E as <- _ _. discriminate U.
    + injection E as <- E. destruct pre as [|b pre]; simpl in E.
      * injection E as <- _ _. exact T.
      * injection E as <- E. discriminate P.
Defined.

(** ** The adapter, further *)

(** The plain-text response of an [HttpQueryError] without headers. *)
Definition plain_response (status : Z) (message : string) : HTTPGraphQLResponse :=
  mkResponse (Some status) [("content-type", "text/plain")] (Some message) None.

(** The parsed input the [switch] looks at: the body of a [POST], the search
    parameters of a [GET]. *)
Definition request_fields (req : HTTPGraphQLRequest) : JSValue :=
  if String.eqb (method req) "POST" then body req else searchParams req.

(** Two states that differ at most in the trace. *)
Definition same_heap {X : Externals} (a b : World X) : Prop :=
  w_options a = w_options b /\ w_options_var a = w_options_var b /\
  w_partial a = w_partial b.

Section Further.

Variable X : Externals.
Variable C : Collaborators X.

Lemma ensureQuery_shape (q : JSValue) :
  ensureQueryIsStringOrMissing q = Ret tt \/
  exists message,
    ensureQueryIsStringOrMissing q =
    Throw (ExnHttpQuery (mkHttpQueryError 400 message false [])).
Proof.
  unfold ensureQueryIsStringOrMissing.
  destruct (negb (JS.truthy q) || String.eqb (JS.typeof q) "string"); [now left|].
  right. destruct (JS.strict_eq_str _ _); eexists; reflexivity.
Qed.

Lemma extract_shape (o : JSValue) (field : string) :
  (exists v, jsonParsedFieldIfNonEmptyString (JSON_parse C) o field = Ret v) \/
  exists message,
    jsonParsedFieldIfNonEmptyString (JSON_parse C) o field =
    Throw (ExnHttpQuery (mkHttpQueryError 400 message false [])).
Proof.
  unfold jsonParsedFieldIfNonEmptyString.
  destruct (JS.prop o field); try (left; eexists; reflexivity).
  destruct (JS.truthy (JStr s)); [|left; eexists; reflexivity].
  destruct (JSON_parse C s) as [v|]; [|right; eexists; reflexivity].
  destruct (negb (JS.truthy (isStringRecord v)));
    [right | left]; eexists; reflexivity.
Qed.

(** What the [switch] can give. *)
Lemma switch_shape (req : HTTPGraphQLRequest) :
  (exists g, runHttpQuery_switch C req = Ret (inr g)) \/
  (exists message, runHttpQuery_switch C req = Ret (inl (plain_response 400 message))) \/
  runHttpQuery_switch C req =
    Ret (inl (mkResponse (Some 405%Z)
                [("content-type", "text/plain"); ("allow", "GET, POST")]
                (Some "Apollo Server supports only GET/POST requests.") None)) \/
  (exists message,
     runHttpQuery_switch C req =
     Throw (ExnHttpQuery (mkHttpQueryError 400 message false []))).
Proof.
  unfold runHttpQuery_switch.
  destruct (String.eqb (method req) "POST").
  - destruct (negb (JS.truthy (isNonEmptyStringRecord (body req)))).
    + right. left. eexists. reflexivity.
    + destruct (ensureQuery_shape (JS.prop (body req) "query")) as [E|[m E]];
        rewrite E.
      * left. eexists. reflexivity.
      * right. right. right. eexists. reflexivity.
  - destruct (String.eqb (method req) "GET").
    + destruct (negb (JS.truthy (isNonEmptyStringRecord (searchParams req)))).
      * right. left. eexists. reflexivity.
      * destruct (ensureQuery_shape (JS.prop (searchParams req) "query"))
          as [E|[m E]]; rewrite E; [|right; right; right; eexists; reflexivity].
        simpl.
        destruct (extract_shape (searchParams req) "variables") as [[v V]|[m V]];
          rewrite V; [|right; right; right; eexists; reflexivity].
        simpl.
        destruct (extract_shape (searchParams req) "extensions") as [[x V']|[m V']];
          rewrite V'; [|right; right; right; eexists; reflexivity].
        left. eexists. reflexivity.
    + right. right. left. reflexivity.
Qed.

(** The response of lines 289-317 does not depend on the trace. *)
Lemma respond_same_heap (response : GraphQLResponse) (a b : World X) :
  same_heap a b ->
  fst (runHttpQuery_respond response a) = fst (runHttpQuery_respond response b) /\
  same_heap (snd (runHttpQuery_respond response a))
            (snd (runHttpQuery_respond response b)).
Proof.
  intros [H1 [H2 H3]]. unfold runHttpQuery_respond.
  destruct (JS.truthy (r_errors response) && _)%bool.
  - unfold bind, lift, ret. destruct (preexecution_headers _); simpl;
      (split; [reflexivity | unfold same_heap; auto]).
  - unfold bind, set_partial_header, read_partial, ret. rewrite H3.
    destruct (w_partial b) eqn:P; simpl;
      (split; [reflexivity | unfold same_heap; simpl; repeat split; congruence]).
Qed.

Lemma caught_response_same_heap (e : Exn) (a b : World X) :
  same_heap a b -> caught_response C e a = caught_response C e b.
Proof.
  intros [H1 [H2 H3]]. destruct e; [reflexivity| |];
    unfold caught_response, current_options; now rewrite H1, H2.
Qed.

Lemma caught_outcome_same_heap (e : Exn) (a b : World X) :
  same_heap a b -> caught_outcome C e a = caught_outcome C e b.
Proof.
  intro H. destruct e as [q|x|p]; unfold caught_outcome; [reflexivity| |];
    f_equal; now apply caught_response_same_heap.
Qed.

(** The response of a run is decided by the request, the context and the
    options as they are after line 159. *)
Lemma response_by_options (req : HTTPGraphQLRequest) (ctx : Context X)
    (a b : World X) :
  defaulted C (w_options a) = defaulted C (w_options b) ->
  fst (runHttpQuery C req ctx a) = fst (runHttpQuery C req ctx b).
Proof.
  intro D. rewrite !runHttpQuery_run.
  assert (S0 : same_heap (started C a) (started C b)).
  { unfold same_heap, started. simpl. auto. }
  destruct (runHttpQuery_switch C req) as [[early|g]|e]; simpl.
  - reflexivity.
  - rewrite D.
    assert (S1 : same_heap (after_pipeline C req ctx g (started C a))
                           (after_pipeline C req ctx g (started C b))).
    { unfold same_heap, after_pipeline, started. simpl. rewrite D. auto. }
    destruct (pipeline_outcome C req ctx g (defaulted C (w_options b)))
      as [response|e].
    + destruct (respond_same_heap response _ _ S1) as [F S2].
      destruct (runHttpQuery_respond response (after_pipeline C req ctx g (started C a)))
        as [[r|e] wa];
      destruct (runHttpQuery_respond response (after_pipeline C req ctx g (started C b)))
        as [[r'|e'] wb]; simpl in *; try discriminate.
      * congruence.
      * injection F as <-. now apply caught_outcome_same_heap.
    + simpl. now apply caught_outcome_same_heap.
  - now apply caught_outcome_same_heap.
Qed.

Lemma typeof_string (q : JSValue) :
  String.eqb (JS.typeof q) "string" = true <-> exists s, q = JStr s.
Proof.
  destruct q; simpl; split; try discriminate; try (intros [t H]; discriminate).
  - eauto.
  - reflexivity.
Qed.

Lemma switch_http (req : HTTPGraphQLRequest) (g : GraphQLRequest) :
  runHttpQuery_switch C req = Ret (inr g) -> http g = req.
Proof.
  unfold runHttpQuery_switch.
  destruct (String.eqb (method req) "POST").
  - destruct (negb (JS.truthy (isNonEmptyStringRecord (body req)))); [discriminate|].
    destruct (ensureQueryIsStringOrMissing _); [|discriminate].
    simpl. intro H. injection H as <-. reflexivity.
  - destruct (String.eqb (method req) "GET"); [|discriminate].
    destruct (negb (JS.truthy (isNonEmptyStringRecord (searchParams req))));
      [discriminate|].
    destruct (ensureQueryIsStringOrMissing _); [|discriminate]. simpl.
    destruct (jsonParsedFieldIfNonEmptyString _ _ "variables"); [|discriminate].
    simpl.
    destruct (jsonParsedFieldIfNonEmptyString _ _ "extensions"); [|discriminate].
    simpl. intro H. injection H as <-. reflexivity.
Qed.

(** X7.  A [POST] or [GET] request whose body or search parameters are a
    non-empty mapping with a [query] that is there (truthy) and is not a
    string is answered with status 400 in plain text: with the long message
    about the graphql-js representation when [query.kind] is ['Document'],
    with "GraphQL queries must be strings." otherwise.  No collaborator is
    called. *)
Theorem query_must_be_string (req : HTTPGraphQLRequest) (ctx : Context X)
    (w : World X) :
  method req = "POST" \/ method req = "GET" ->
  is_nonempty_mapping (request_fields req) = true ->
  JS.truthy (JS.prop (request_fields req) "query") = true ->
  (forall s, JS.prop (request_fields req) "query" <> JStr s) ->
  exists w',
    runHttpQuery C req ctx w =
    (Ret (plain_response 400
            (if JS.strict_eq_str
                  (JS.prop (JS.prop (request_fields req) "query") "kind") "Document"
             then document_message
             else "GraphQL queries must be strings.")),
     w') /\
    w_trace w' = w_trace w.
Proof.
  intros M NE T NS.
  assert (E : ensureQueryIsStringOrMissing (JS.prop (request_fields req) "query") =
              Throw (ExnHttpQuery
                       (mkHttpQueryError 400
                          (if JS.strict_eq_str
                                (JS.prop (JS.prop (request_fields req) "query") "kind")
                                "Document"
                           then document_message
                           else "GraphQL queries must be strings.")
                          false []))).
  { unfold ensureQueryIsStringOrMissing. rewrite T.
    destruct (String.eqb (JS.typeof _) "string") eqn:S.
    - apply typeof_string in S. destruct S as [s S]. exfalso. apply (NS s S).
    - simpl. destruct (JS.strict_eq_str _ _); reflexivity. }
  assert (SW : runHttpQuery_switch C req =
               Throw (ExnHttpQuery
                        (mkHttpQueryError 400
                           (if JS.strict_eq_str
                                 (JS.prop (JS.prop (request_fields req) "query") "kind")
                                 "Document"
                            then document_message
                            else "GraphQL queries must be strings.")
                           false []))).
  { unfold runHttpQuery_switch. unfold request_fields in *.
    destruct M as [M|M]; rewrite M in *; simpl in *;
      rewrite isNonEmptyStringRecord_mapping, NE; simpl; rewrite E; reflexivity. }
  rewrite runHttpQuery_run, SW. eexists. split; reflexivity.
Qed.

(** X8.  A [POST] request whose body is a non-empty mapping with a [query]
    that is missing (falsy) or a string passes the [switch], whatever the
    other fields hold: [query] and [operationName] are taken when they are
    strings, [variables] and [extensions] when they are objects, and are
    left out otherwise; the pipeline is called with that request. *)
Theorem post_request_fields (req : HTTPGraphQLRequest) (ctx : Context X)
    (w : World X) :
  method req = "POST" ->
  is_nonempty_mapping (body req) = true ->
  (JS.truthy (JS.prop (body req) "query") = false \/
   exists s, JS.prop (body req) "query" = JStr s) ->
  exists g,
    runHttpQuery_switch C req = Ret (inr g) /\
    (forall s, query g = Some s <-> JS.prop (body req) "query" = JStr s) /\
    (forall s, operationName g = Some s <->
               JS.prop (body req) "operationName" = JStr s) /\
    (forall v, variables g = Some v <->
               JS.prop (body req) "variables" = v /\ exists fs, v = JObj fs) /\
    (forall v, extensions g = Some v <->
               JS.prop (body req) "extensions" = v /\ exists fs, v = JObj fs) /\
    http g = req /\
    exists lo rc rest,
      w_trace (snd (runHttpQuery C req ctx w))
      = (w_trace w ++ EvPipeline lo rc :: rest)%list /\
      rc_request rc = g.
Proof.
  intros M NE Q.
  assert (E : ensureQueryIsStringOrMissing (JS.prop (body req) "query") = Ret tt).
  { unfold ensureQueryIsStringOrMissing. destruct Q as [F|[s S]].
    - now rewrite F.
    - rewrite S. simpl. now rewrite orb_true_r. }
  assert (SW : runHttpQuery_switch C req =
               Ret (inr (mkGraphQLRequest
                           (fieldIfString (body req) "query")
                           (fieldIfString (body req) "operationName")
                           (fieldIfRecord (body req) "variables")
                           (fieldIfRecord (body req) "extensions") req))).
  { unfold runHttpQuery_switch. rewrite M. simpl.
    rewrite isNonEmptyStringRecord_mapping, NE. simpl. rewrite E. reflexivity. }
  assert (FS : forall f s, fieldIfString (body req) f = Some s <->
                           JS.prop (body req) f = JStr s).
  { intros f s. unfold fieldIfString.
    destruct (JS.prop (body req) f); split; intro H; try discriminate;
      injection H as ->; reflexivity. }
  assert (FR : forall f v, fieldIfRecord (body req) f = Some v <->
                           JS.prop (body req) f = v /\ exists fs, v = JObj fs).
  { intros f v. unfold fieldIfRecord.
    destruct (JS.prop (body req) f) as [| |b|n|t|l|fs|bs] eqn:P.
    1-2: (split; [discriminate | intros [<- [fs H]]; discriminate]).
    - destruct b; (split; [discriminate | intros [<- [fs H]]; discriminate]).
    - destruct n as [[| |] ?]; (split; [discriminate | intros [<- [fs H]]; discriminate]).
    - destruct t; (split; [discriminate | intros [<- [fs H]]; discriminate]).
    - split; [discriminate | intros [<- [fs H]]; discriminate].
    - split.
      + intro H. injection H as <-. eauto.
      + intros [<- _]. reflexivity.
    - split; [discriminate | intros [<- [fs H]]; discriminate]. }
  eexists. split; [exact SW|]. simpl.
  split; [apply FS|]. split; [apply FS|]. split; [apply FR|]. split; [apply FR|].
  split; [reflexivity|].
  destruct (run_events X C req ctx w) as [evs [T [P [Q' _]]]].
  destruct (Q' _ SW) as [rc [rest EV]].
  exists (local_options req (defaulted C (w_options w))), rc, rest.
  split; [now rewrite T, EV|].
  assert (I : In (EvPipeline (local_options req (defaulted C (w_options w))) rc) evs)
    by (rewrite EV; left; reflexivity).
  destruct (P _ _ I) as [_ [g0 [S0 ->]]]. rewrite SW in S0.
  injection S0 as <-. reflexivity.
Qed.

(** X9.  A [GET] request whose search parameters are not a non-empty
    mapping is answered with status 400 and the body "GET query missing.";
    no collaborator is called. *)
Theorem get_query_missing (req : HTTPGraphQLRequest) (ctx : Context X)
    (w : World X) :
  method req = "GET" ->
  is_nonempty_mapping (searchParams req) = false ->
  exists w',
    runHttpQuery C req ctx w = (Ret (plain_response 400 "GET query missing."), w') /\
    w_trace w' = w_trace w.
Proof.
  intros M NE. rewrite runHttpQuery_run. unfold runHttpQuery_switch.
  rewrite M. simpl. rewrite isNonEmptyStringRecord_mapping, NE. simpl.
  eexists. split; reflexivity.
Qed.

(** X10.  A request that does not pass the [switch] is answered with status
    400 or 405 in plain text, never with 500; no collaborator is called and
    no partial response is created. *)
Theorem rejected_before_pipeline (req : HTTPGraphQLRequest) (ctx : Context X)
    (w : World X) :
  (forall g, runHttpQuery_switch C req <> Ret (inr g)) ->
  exists status hdrs message w',
    runHttpQuery C req ctx w =
      (Ret (mkResponse (Some status) hdrs (Some message) None), w') /\
    (status = 400%Z \/ status = 405%Z) /\
    MapOps.get hdrs "content-type" = Some "text/plain" /\
    w_trace w' = w_trace w /\
    w_partial w' = None.
Proof.
  intro N. rewrite runHttpQuery_run.
  destruct (switch_shape req) as [[g S]|[[m S]|[S|[m S]]]].
  - exfalso. apply (N g S).
  - rewrite S. exists 400%Z. eexists. eexists. eexists.
    split; [reflexivity|]. repeat split. now left.
  - rewrite S. exists 405%Z. eexists. eexists. eexists.
    split; [reflexivity|]. repeat split. now right.
  - rewrite S. exists 400%Z. eexists. eexists. eexists.
    split; [reflexivity|]. repeat split. now left.
Qed.

Lemma respond_body (response : GraphQLResponse) (w w2 : World X)
    (r : HTTPGraphQLResponse) :
  runHttpQuery_respond response w = (Ret r, w2) ->
  exists b, completeBody r = Some b /\ bodyChunks r = None.
Proof.
  unfold runHttpQuery_respond.
  destruct (JS.truthy (r_errors response) && _)%bool.
  - unfold bind, lift, ret. destruct (preexecution_headers _); [|discriminate].
    intro H. injection H as <- _. simpl. eauto.
  - unfold bind, set_partial_header, read_partial, ret.
    destruct (w_partial w); simpl; [|discriminate].
    intro H. injection H as <- _. simpl. eauto.
Qed.

Lemma caught_body (e : Exn) (w : World X) (r : HTTPGraphQLResponse) :
  caught_outcome C e w = Ret r ->
  exists b, completeBody r = Some b /\ bodyChunks r = None.
Proof.
  destruct e as [q|x|p]; simpl.
  - unfold HttpQueryErrorOps.asHTTPGraphQLResponse.
    destruct (HeaderMapOps.new _); [|discriminate].
    intro H. injection H as <-. simpl. eauto.
  - intro H. injection H as <-. simpl. eauto.
  - intro H. injection H as <-. simpl. eauto.
Qed.

(** What lines 289-317 throw is not an [HttpQueryError]. *)
Lemma respond_throws (response : GraphQLResponse) (w w2 : World X) (e : Exn) :
  runHttpQuery_respond response w = (Throw e, w2) -> exists x, e = ExnError x.
Proof.
  unfold runHttpQuery_respond.
  destruct (JS.truthy (r_errors response) && _)%bool.
  - unfold bind, lift, ret, preexecution_headers.
    destruct (r_http response) as [p|].
    + destruct (HeaderMapOps.new _); [discriminate|].
      intro H. injection H as <- _. eauto.
    + intro H. injection H as <- _. eauto.
  - unfold bind, set_partial_header, read_partial, ret.
    destruct (w_partial w); simpl; [discriminate|].
    intro H. injection H as <- _. eauto.
Qed.

(** X11.  A run calls the pipeline at most once, and only when the request
    passes the [switch]; it calls the error formatter at most once, only
    after the pipeline, and then the response is the 500 with
    [content-type: application/json] and the formatted error.  So the
    adapter's own checks of the request never end in a call of the
    formatter. *)
Theorem collaborator_calls (req : HTTPGraphQLRequest) (ctx : Context X) (w : World X) :
  exists evs,
    w_trace (snd (runHttpQuery C req ctx w)) = (w_trace w ++ evs)%list /\
    ((evs = [] /\ forall g, runHttpQuery_switch C req <> Ret (inr g)) \/
     (exists g lo rc,
        runHttpQuery_switch C req = Ret (inr g) /\ evs = [EvPipeline lo rc]) \/
     (exists g lo rc e d f,
        runHttpQuery_switch C req = Ret (inr g) /\
        (forall q, e <> ExnHttpQuery q) /\
        evs = [EvPipeline lo rc; EvFormat [e] d f] /\
        fst (runHttpQuery C req ctx w) =
        Ret (mkResponse (Some 500%Z) [("content-type", "application/json")]
               (Some (prettyJSONStringify
                        (JObj [("errors", formatApolloErrors C [e] d f)])))
               None))).
Proof.
  rewrite runHttpQuery_run.
  destruct (switch_shape req) as [[g S]|[[m S]|[S|[m S]]]]; rewrite S.
  - cbn zeta.
    destruct (pipeline_outcome C req ctx g (defaulted C (w_options w)))
      as [response|e].
    + destruct (runHttpQuery_respond response _) as [[r|e] w2] eqn:R.
      * apply respond_frame in R. destruct R as [_ [_ R]].
        eexists. simpl. split; [rewrite R; reflexivity|].
        right. left. exists g. eexists. eexists. split; reflexivity.
      * pose proof (respond_throws _ _ _ _ R) as [x ->].
        apply respond_frame in R. destruct R as [_ [_ R]].
        eexists. simpl. split.
        -- rewrite R. simpl. rewrite <- app_assoc. reflexivity.
        -- right. right. exists g. eexists. eexists. exists (ExnError x).
           eexists. eexists.
           split; [reflexivity|]. split; [discriminate|]. split; reflexivity.
    + destruct e as [q|x|p].
      * eexists. simpl. split; [reflexivity|].
        right. left. exists g. eexists. eexists. split; reflexivity.
      * eexists. simpl. split.
        -- rewrite <- app_assoc. reflexivity.
        -- right. right. exists g. eexists. eexists. exists (ExnError x).
           eexists. eexists.
           split; [reflexivity|]. split; [discriminate|]. split; reflexivity.
      * eexists. simpl. split.
        -- rewrite <- app_assoc. reflexivity.
        -- right. right. exists g. eexists. eexists. exists (ExnPrimitive p).
           eexists. eexists.
           split; [reflexivity|]. split; [discriminate|]. split; reflexivity.
  - exists []. simpl. rewrite app_nil_r. split; [reflexivity|]. left.
    split; [reflexivity | discriminate].
  - exists []. simpl. rewrite app_nil_r. split; [reflexivity|]. left.
    split; [reflexivity | discriminate].
  - exists []. simpl. rewrite app_nil_r. split; [reflexivity|]. left.
    split; [reflexivity | discriminate].
Qed.

(** X12.  The request context of a call of the pipeline has the logger of
    the options, or [console] when the options have none; the schema and the
    cache of the options; the context the caller gave; empty metrics; a
    partial response with [content-type: application/json] alone and no
    status code; and a request whose [http] is the inbound request.  The
    options given with it differ from the caller's in their plugins only. *)
Theorem pipeline_request_context (req : HTTPGraphQLRequest) (ctx : Context X)
    (w : World X) :
  exists evs,
    w_trace (snd (runHttpQuery C req ctx w)) = (w_trace w ++ evs)%list /\
    forall lo rc, In (EvPipeline lo rc) evs ->
      rc_logger rc =
        match o_logger (w_options w) with Some l => l | None => console C end /\
      rc_schema rc = o_schema (w_options w) /\
      rc_cache rc = o_cache (w_options w) /\
      rc_context rc = ctx /\
      rc_metrics rc = JObj [] /\
      rc_overallCachePolicy rc = newCachePolicy C /\
      rc_response_http rc = mkPartial [("content-type", "application/json")] None /\
      http (rc_request rc) = req /\
      runHttpQuery_switch C req = Ret (inr (rc_request rc)) /\
      o_nodeEnv lo = o_nodeEnv (w_options w) /\
      o_logger lo = o_logger (w_options w) /\
      o_schema lo = o_schema (w_options w) /\
      o_cache lo = o_cache (w_options w) /\
      o_formatError lo = o_formatError (w_options w) /\
      o_rest lo = o_rest (w_options w).
Proof.
  destruct (run_events X C req ctx w) as [evs [T [P _]]].
  exists evs. split; [exact T|]. intros lo rc I.
  destruct (P lo rc I) as [-> [g [S ->]]].
  pose proof (switch_http req g S) as H.
  unfold defaulted. destruct (o_debug (w_options w)); simpl; repeat split;
    assumption.
Qed.

(** X13.  A response that a run returns has a [completeBody] and no
    [bodyChunks], on every path to a [return] and through the handler. *)
Theorem response_has_complete_body (req : HTTPGraphQLRequest) (ctx : Context X)
    (w w' : World X) (r : HTTPGraphQLResponse) :
  runHttpQuery C req ctx w = (Ret r, w') ->
  exists b, completeBody r = Some b /\ bodyChunks r = None.
Proof.
  rewrite runHttpQuery_run.
  destruct (runHttpQuery_switch C req) as [[early|g]|e] eqn:S.
  - intro H. injection H as <- _.
    destruct (switch_shape req) as [[g S']|[[m S']|[S'|[m S']]]];
      rewrite S' in S; try discriminate S; injection S as <-; simpl; eauto.
  - cbn zeta. destruct (pipeline_outcome C req ctx g _) as [response|e].
    + destruct (runHttpQuery_respond response _) as [[r0|e] w2] eqn:R.
      * intro H. injection H as <- _. apply (respond_body _ _ _ _ R).
      * intro H. apply (caught_body e w2).
        injection H as H _. exact H.
    + intro H. apply (caught_body e (after_pipeline C req ctx g (started C w))).
      injection H as H _. exact H.
  - intro H. apply (caught_body e (started C w)). injection H as H _. exact H.
Qed.

(** X14.  On a pre-execution failure whose [http] part is a map with
    distinct lower-case names, the response has the [content-type] of that
    part if it has one and [application/json] otherwise, and every other
    header as that part has it; the adapter leaves the shared partial
    response as the pipeline left it, so no [content-length] is computed. *)
Theorem preexecution_failure_headers (req : HTTPGraphQLRequest) (ctx : Context X)
    (w : World X) (greq : GraphQLRequest)
    (response : GraphQLResponse) (h : PartialResponse) :
  runHttpQuery_switch C req = Ret (inr greq) ->
  pipeline_outcome C req ctx greq (defaulted C (w_options w)) = Ret response ->
  preexecution response = true ->
  r_http response = Some h ->
  NoDup (MapOps.keys (p_headers h)) ->
  MapOps.all_lower (p_headers h) = true ->
  exists r w',
    runHttpQuery C req ctx w = (Ret r, w') /\
    MapOps.get (headers r) "content-type" =
      Some (match MapOps.get (p_headers h) "content-type" with
            | Some v => v
            | None => "application/json"
            end) /\
    (forall k, k <> "content-type" ->
       MapOps.get (headers r) k = MapOps.get (p_headers h) k) /\
    w_partial w' =
      (let lo := local_options req (defaulted C (w_options w)) in
       Some (pr_partial (processGraphQLRequest C lo
                           (new_requestContext C lo greq fresh_partial ctx)))).
Proof.
  intros S P PE H ND L.
  rewrite runHttpQuery_run, S. simpl. rewrite P.
  rewrite respond_preexecution by assumption.
  rewrite H. unfold preexecution_headers, HeaderMapOps.new, MapOps.entries.
  assert (L' : MapOps.all_lower (("content-type", "application/json") :: p_headers h)
               = true) by (simpl; assumption).
  destruct (HeaderMapOps.add_all_lower _ L' HeaderMapOps.empty) as [m' [E1 E2]].
  rewrite E1. eexists. eexists. split; [reflexivity|]. cbn [headers].
  rewrite E2. cbn [fold_left fst snd hm_entries HeaderMapOps.empty MapOps.set].
  split; [|split].
  - rewrite MapOps.get_fold_set by assumption.
    destruct (MapOps.get (p_headers h) "content-type"); reflexivity.
  - intros k N. rewrite MapOps.get_fold_set by assumption.
    destruct (MapOps.get (p_headers h) k); [reflexivity|].
    cbn -[String.eqb]. apply String.eqb_neq in N. rewrite String.eqb_sym in N.
    now rewrite N.
  - reflexivity.
Qed.


(** X16.  The response to a request does not depend on the calls served
    before it on the same options object: after any run, a run of the
    request gives the response it would have given at first.  In particular
    a second run of the same request repeats the response of the first, as
    far as the collaborators repeat theirs. *)
Theorem response_repeats (req req0 : HTTPGraphQLRequest) (ctx ctx0 : Context X)
    (w : World X) :
  fst (runHttpQuery C req ctx (snd (runHttpQuery C req0 ctx0 w))) =
  fst (runHttpQuery C req ctx w).
Proof.
  apply response_by_options. rewrite runHttpQuery_options.
  apply defaulted_once.
Qed.

End Further.

(** X17.  On a normal completion [content-length] is the only header the
    adapter touches: every other header of the response is as the pipeline
    left it on the shared partial response, a [content-length] the pipeline
    had set keeps its place with the new value, and one it had not set goes
    to the end. *)
Theorem normal_completion_headers (X : Externals) (C : Collaborators X)
    (req : HTTPGraphQLRequest) (ctx : Context X) (w : World X)
    (g : GraphQLRequest) (response : GraphQLResponse) :
  runHttpQuery_switch C req = Ret (inr g) ->
  pipeline_outcome C req ctx g (defaulted C (w_options w)) = Ret response ->
  preexecution response = false ->
  let lo := local_options req (defaulted C (w_options w)) in
  let shared :=
    pr_partial (processGraphQLRequest C lo
                  (new_requestContext C lo g fresh_partial ctx)) in
  exists r w',
    runHttpQuery C req ctx w = (Ret r, w') /\
    statusCode r = p_statusCode shared /\
    (forall k, k <> "content-length" ->
       MapOps.get (headers r) k = MapOps.get (p_headers shared) k) /\
    MapOps.keys (headers r) =
      (if MapOps.has (p_headers shared) "content-length"
       then MapOps.keys (p_headers shared)
       else MapOps.keys (p_headers shared) ++ ["content-length"])%list.
Proof.
  intros S P N lo shared.
  rewrite runHttpQuery_run, S. simpl. rewrite P.
  unfold after_pipeline. simpl. rewrite respond_normal by assumption.
  eexists. eexists. split; [reflexivity|]. cbn [statusCode headers].
  split; [reflexivity|]. split.
  - intros k K. unfold with_content_length. cbn [p_headers].
    apply MapOps.get_set_other. congruence.
  - unfold with_content_length. cbn [p_headers]. fold lo. fold shared.
    destruct (MapOps.has (p_headers shared) "content-length") eqn:H.
    + apply MapOps.keys_set_present. now apply MapOps.has_keys.
    + apply MapOps.keys_set_absent. rewrite <- MapOps.has_keys. congruence.
Qed.

(** X18.  In a [GET] request a [variables] or [extensions] search parameter
    that is not a string (a list from a repeated parameter, an object from a
    nested parser) is not an error: the field is left out of the request. *)
Theorem get_non_string_parameters (X : Externals) (C : Collaborators X)
    (req : HTTPGraphQLRequest) :
  method req = "GET" ->
  is_nonempty_mapping (searchParams req) = true ->
  ensureQueryIsStringOrMissing (JS.prop (searchParams req) "query") = Ret tt ->
  (forall s, JS.prop (searchParams req) "variables" <> JStr s) ->
  (forall s, JS.prop (searchParams req) "extensions" <> JStr s) ->
  exists g,
    runHttpQuery_switch C req = Ret (inr g) /\
    variables g = None /\ extensions g = None.
Proof.
  intros M NE Q V E.
  assert (K : forall f, (forall s, JS.prop (searchParams req) f <> JStr s) ->
     jsonParsedFieldIfNonEmptyString (JSON_parse C) (searchParams req) f = Ret None).
  { intros f H. unfold jsonParsedFieldIfNonEmptyString.
    destruct (JS.prop (searchParams req) f) eqn:P; try reflexivity.
    exfalso. apply (H s). reflexivity. }
  unfold runHttpQuery_switch. rewrite M. simpl.
  rewrite isNonEmptyStringRecord_mapping, NE. simpl. rewrite Q. simpl.
  rewrite (K "variables" V). simpl. rewrite (K "extensions" E). simpl.
  eexists. split; [reflexivity|]. split; reflexivity.
Qed.

(** X19.  A second [set] of the same name replaces the value of the first
    and nothing else: the map is the one a single [set] of the second value
    gives. *)
Theorem HeaderMap_set_twice (m m1 : HeaderMap) (name v1 v2 : string) :
  HeaderMapOps.set m name v1 = Ret m1 ->
  HeaderMapOps.set m1 name v2 = HeaderMapOps.set m name v2.
Proof.
  intro S1.
  destruct (Str.has_upper name) eqn:U.
  - rewrite HeaderMapOps.set_upper in S1 by assumption. discriminate.
  - destruct (HeaderMapOps.set_lower m name v1 U) as [a [A1 A2]].
    rewrite A1 in S1. injection S1 as <-.
    destruct (HeaderMapOps.set_lower a name v2 U) as [b [B1 B2]].
    destruct (HeaderMapOps.set_lower m name v2 U) as [c [C1 C2]].
    rewrite B1, C1. f_equal. apply MapFacts.HeaderMap_ext.
    rewrite B2, C2, A2. generalize (hm_entries m). intro l.
    induction l as [|[x y] r IH]; simpl.
    + now rewrite String.eqb_refl.
    + destruct (String.eqb x name) eqn:E; simpl; rewrite E; [reflexivity|].
      now rewrite IH.
Qed.

(** ** The further properties on concrete requests *)

Lemma query_must_be_string_witness :
  let req := Sample.post (JObj [("query", JObj [("kind", JStr "Document")])]) in
  is_nonempty_mapping (request_fields req) = true /\
  JS.truthy (JS.prop (request_fields req) "query") = true /\
  exists w',
    runHttpQuery Sample.collaborators req Sample.context Sample.world =
    (Ret (plain_response 400 document_message), w') /\
    w_trace w' = [].
Proof.
  intro req. split; [reflexivity|]. split; [reflexivity|].
  assert (NS : forall s, JS.prop (request_fields req) "query" <> JStr s)
    by (intros s H; discriminate H).
  exact (query_must_be_string Sample.externals Sample.collaborators req Sample.context
           Sample.world (or_introl eq_refl) eq_refl eq_refl NS).
Defined.

Lemma post_request_fields_witness :
  let req := Sample.post (JObj [("query", JStr "{ hello }");
                                ("variables", JStr "{}")]) in
  is_nonempty_mapping (body req) = true /\
  exists g,
    runHttpQuery_switch Sample.collaborators req = Ret (inr g) /\
    query g = Some "{ hello }" /\
    variables g = None.
Proof.
  intro req. split; [reflexivity|].
  destruct (post_request_fields Sample.externals Sample.collaborators req Sample.context
              Sample.world eq_refl eq_refl
              (or_intror (ex_intro _ "{ hello }" eq_refl)))
    as [g [S [Q [_ [V _]]]]].
  exists g. split; [exact S|]. split.
  - apply Q. reflexivity.
  - destruct (variables g) as [v|] eqn:E; [|reflexivity].
    destruct (proj1 (V v) eq_refl) as [P [fs F]]. rewrite F in P. discriminate P.
Defined.

Lemma get_query_missing_witness :
  is_nonempty_mapping (searchParams (Sample.get (JObj []))) = false /\
  exists w',
    runHttpQuery Sample.collaborators (Sample.get (JObj [])) Sample.context Sample.world =
    (Ret (plain_response 400 "GET query missing."), w') /\
    w_trace w' = w_trace Sample.world.
Proof.
  split; [reflexivity|].
  exact (get_query_missing Sample.externals Sample.collaborators
           (Sample.get (JObj [])) Sample.context Sample.world eq_refl eq_refl).
Defined.

Lemma rejected_before_pipeline_witness :
  let req := Sample.get (JObj [("variables", JStr "[1]")]) in
  (forall g, runHttpQuery_switch Sample.collaborators req <> Ret (inr g)) /\
  exists status hdrs message w',
    runHttpQuery Sample.collaborators req Sample.context Sample.world =
      (Ret (mkResponse (Some status) hdrs (Some message) None), w') /\
    (status = 400%Z \/ status = 405%Z) /\
    w_trace w' = w_trace Sample.world.
Proof.
  intro req.
  assert (N : forall g, runHttpQuery_switch Sample.collaborators req <> Ret (inr g)).
  { intros g H. vm_compute in H. discriminate H. }
  split; [exact N|].
  destruct (rejected_before_pipeline Sample.externals Sample.collaborators req Sample.context
              Sample.world N) as [status [hdrs [message [w' [E [S [_ [T _]]]]]]]].
  exists status, hdrs, message, w'. auto.
Defined.

Lemma pipeline_request_context_witness :
  exists lo rc,
    w_trace (snd (runHttpQuery Sample.collaborators
                    (Sample.post (JObj [("query", JStr "{ hello }")])) Sample.context
                    Sample.world)) = [EvPipeline lo rc] /\
    rc_logger rc = "console" /\
    rc_response_http rc = mkPartial [("content-type", "application/json")] None.
Proof.
  destruct (pipeline_request_context Sample.externals Sample.collaborators
              (Sample.post (JObj [("query", JStr "{ hello }")])) Sample.context Sample.world)
    as [evs [T P]].
  simpl app in T.
  assert (E : exists lo rc, evs = [EvPipeline lo rc]).
  { rewrite <- T. eexists. eexists. reflexivity. }
  destruct E as [lo [rc E]]. exists lo, rc. split; [now rewrite T|].
  destruct (P lo rc) as [L [_ [_ [_ [_ [_ [H _]]]]]]].
  - rewrite E. left. reflexivity.
  - split; [exact L | exact H].
Defined.

Lemma preexecution_failure_headers_witness :
  let req := Sample.get (JObj [("operationName", JStr "Q")]) in
  let g := mkGraphQLRequest None (Some "Q") None None req in
  let response :=
    mkGraphQLResponse
      (JArr [JObj [("message", JStr "Must provide query string.")]])
      JUndefined JUndefined (Some fresh_partial) in
  runHttpQuery_switch Sample.collaborators req = Ret (inr g) /\
  preexecution response = true /\
  NoDup (MapOps.keys (p_headers fresh_partial)) /\
  exists r w',
    runHttpQuery Sample.collaborators req Sample.context Sample.world = (Ret r, w') /\
    MapOps.get (headers r) "content-type" = Some "application/json" /\
    MapOps.get (headers r) "content-length" = None.
Proof.
  intros req g response.
  assert (ND : NoDup (MapOps.keys (p_headers fresh_partial))).
  { repeat constructor. simpl. tauto. }
  split; [reflexivity|]. split; [reflexivity|]. split; [exact ND|].
  destruct (preexecution_failure_headers Sample.externals Sample.collaborators
              req Sample.context Sample.world g response fresh_partial
              eq_refl eq_refl eq_refl eq_refl ND eq_refl)
    as [r [w' [E [CT [O _]]]]].
  exists r, w'. split; [exact E|]. split; [exact CT|].
  rewrite O by discriminate. reflexivity.
Defined.

Lemma response_has_complete_body_witness :
  let req := Sample.post (JObj [("query", JStr "{ hello }")]) in
  let r :=
    mkResponse None [("content-type", "application/json"); ("content-length", "27")]
      (Some ("{" ++ Sample.quoted "data" ++ ":{" ++ Sample.quoted "hello" ++ ":"
             ++ Sample.quoted "world" ++ "}}" ++ newline))
      None in
  let w' := snd (runHttpQuery Sample.collaborators req Sample.context Sample.world) in
  runHttpQuery Sample.collaborators req Sample.context Sample.world = (Ret r, w') /\
  exists b, completeBody r = Some b /\ bodyChunks r = None.
Proof.
  intros req r w'.
  assert (H : runHttpQuery Sample.collaborators req Sample.context Sample.world
              = (Ret r, w')) by reflexivity.
  split; [exact H|].
  exact (response_has_complete_body Sample.externals Sample.collaborators req
           Sample.context Sample.world w' r H).
Defined.


Lemma normal_completion_headers_witness :
  let req := Sample.post (JObj [("query", JStr "{ hello }")]) in
  let g := mkGraphQLRequest (Some "{ hello }") None None None req in
  let response :=
    mkGraphQLResponse JUndefined (JObj [("hello", JStr "world")]) JUndefined
      (Some fresh_partial) in
  runHttpQuery_switch Sample.collaborators req = Ret (inr g) /\
  preexecution response = false /\
  exists r w',
    runHttpQuery Sample.collaborators req Sample.context Sample.world = (Ret r, w') /\
    MapOps.get (headers r) "content-type" = Some "application/json" /\
    MapOps.keys (headers r) = ["content-type"; "content-length"].
Proof.
  intros req g response. split; [reflexivity|]. split; [reflexivity|].
  destruct (normal_completion_headers Sample.externals Sample.collaborators
              req Sample.context Sample.world g response eq_refl eq_refl eq_refl)
    as [r [w' [E [_ [O K]]]]].
  exists r, w'. split; [exact E|]. split.
  - rewrite O by discriminate. reflexivity.
  - exact K.
Defined.

Lemma get_non_string_parameters_witness :
  let req := Sample.get (JObj [("query", JStr "{ hello }");
                               ("variables", JArr [JStr "{}"; JStr "{}"])]) in
  is_nonempty_mapping (searchParams req) = true /\
  ensureQueryIsStringOrMissing (JS.prop (searchParams req) "query") = Ret tt /\
  exists g,
    runHttpQuery_switch Sample.collaborators req = Ret (inr g) /\
    variables g = None /\ extensions g = None.
Proof.
  intro req. split; [reflexivity|]. split; [reflexivity|].
  assert (V : forall s, JS.prop (searchParams req) "variables" <> JStr s)
    by (intros s H; discriminate H).
  assert (E : forall s, JS.prop (searchParams req) "extensions" <> JStr s)
    by (intros s H; discriminate H).
  exact (get_non_string_parameters Sample.externals Sample.collaborators req
           eq_refl eq_refl eq_refl V E).
Defined.

Lemma HeaderMap_set_twice_witness :
  exists m1,
    HeaderMapOps.set HeaderMapOps.empty "allow" "GET" = Ret m1 /\
    HeaderMapOps.set m1 "allow" "POST" =
    HeaderMapOps.set HeaderMapOps.empty "allow" "POST".
Proof.
  destruct (HeaderMapOps.set HeaderMapOps.empty "allow" "GET") as [m1|x] eqn:S.
  - exists m1. split; [reflexivity|].
    exact (HeaderMap_set_twice HeaderMapOps.empty m1 "allow" "GET" "POST" S).
  - vm_compute in S. discriminate S.
Defined.
